(** * A2A financial agents: orchestrator routing, specialist invocation,
      response merging, the LangGraph specialist's message handler and the
      tracing middleware.

    The Python sources are embedded shallowly.  A Python [str] is a Rocq
    [string] holding its UTF-8 encoding; JSON data and plain objects are
    values of [pyval]; calls that leave the process (the Anthropic client,
    httpx, uuid, print, the ASGI application, OpenTelemetry) are events of a
    free monad, so that a function of the source is a finite tree of events
    whose runs can be enumerated and executed. *)

From Stdlib Require Import String Ascii List ZArith Bool Lia DecimalString.
From Stdlib Require Import Floats.SpecFloat.
Import ListNotations.
Local Open Scope list_scope.
Local Open Scope string_scope.
#[local] Set Warnings "-register-all".

(** ** Python values *)

Module Py.

(** An exception instance that [except Exception] catches: its class name
    and [str(e)]. *)
Record exn : Type := Exn { exn_class : string; exn_msg : string }.

Inductive result (A : Type) : Type :=
| Ok (a : A)
| Raise (e : exn).
Arguments Ok {A} a.
Arguments Raise {A} e.

(** What [json.loads] can produce, plus plain objects with attributes
    ([PObj]), which the ADK invocation context is made of.  A [PDict] lists
    its items in insertion order; lookup takes the first binding of a key. *)
Inductive pyval : Type :=
| PNone
| PBool (b : bool)
| PInt (n : Z)
| PFloat (f : spec_float)
| PStr (s : string)
| PList (l : list pyval)
| PDict (d : list (string * pyval))
| PObj (cls : string) (attrs : list (string * pyval)).

Fixpoint lookup {A : Type} (k : string) (d : list (string * A)) : option A :=
  match d with
  | [] => None
  | (k', v) :: d' => if String.eqb k k' then Some v else lookup k d'
  end.

Definition float_is_zero (f : spec_float) : bool :=
  match f with
  | S754_zero _ => true
  | _ => false
  end.

(** [bool(v)]: the truth value Python's [if v] and [not v] test. *)
Definition truthy (v : pyval) : bool :=
  match v with
  | PNone => false
  | PBool b => b
  | PInt n => negb (Z.eqb n 0)
  | PFloat f => negb (float_is_zero f)
  | PStr s => negb (String.eqb s EmptyString)
  | PList l => match l with [] => false | _ => true end
  | PDict d => match d with [] => false | _ => true end
  | PObj _ _ => true
  end.

(** [type(v).__name__], as it appears in the messages of TypeError and
    AttributeError. *)
Definition type_name (v : pyval) : string :=
  match v with
  | PNone => "NoneType"
  | PBool _ => "bool"
  | PInt _ => "int"
  | PFloat _ => "float"
  | PStr _ => "str"
  | PList _ => "list"
  | PDict _ => "dict"
  | PObj cls _ => cls
  end.

Definition sq : string := String (ascii_of_nat 39) EmptyString.
Definition dq : string := String (ascii_of_nat 34) EmptyString.
Definition nl : string := String (ascii_of_nat 10) EmptyString.

Definition TypeError (msg : string) : exn := Exn "TypeError" msg.
Definition KeyError (k : string) : exn := Exn "KeyError" (sq ++ k ++ sq).
Definition IndexError (msg : string) : exn := Exn "IndexError" msg.
Definition AttributeError (v : pyval) (a : string) : exn :=
  Exn "AttributeError"
      (sq ++ type_name v ++ sq ++ " object has no attribute " ++ sq ++ a ++ sq).

(** *** Substring search: [needle in hay] on two [str] *)

Fixpoint contains (needle hay : string) : bool :=
  if String.prefix needle hay then true
  else match hay with
       | EmptyString => false
       | String _ hay' => contains needle hay'
       end.

(** [any(phrase in s for phrase in phrases)] *)
Definition any_in (phrases : list string) (s : string) : bool :=
  existsb (fun phrase => contains phrase s) phrases.

(** Equality of a value with a [str] literal: [v == "..."].  Values of
    another type compare unequal without raising. *)
Definition eq_str (v : pyval) (s : string) : bool :=
  match v with
  | PStr s' => String.eqb s' s
  | _ => false
  end.

(** [k in v] for a [str] literal [k]. *)
Definition py_in (k : string) (v : pyval) : result bool :=
  match v with
  | PDict d => Ok (match lookup k d with Some _ => true | None => false end)
  | PList l => Ok (existsb (fun x => eq_str x k) l)
  | PStr s => Ok (contains k s)
  | _ => Raise (TypeError ("argument of type " ++ sq ++ type_name v ++ sq
                            ++ " is not iterable"))
  end.

(** [v[k]] for a [str] literal [k]. *)
Definition getitem (v : pyval) (k : string) : result pyval :=
  match v with
  | PDict d => match lookup k d with
               | Some x => Ok x
               | None => Raise (KeyError k)
               end
  | PList _ => Raise (TypeError "list indices must be integers or slices, not str")
  | PStr _ => Raise (TypeError "string indices must be integers, not 'str'")
  | _ => Raise (TypeError (sq ++ type_name v ++ sq ++ " object is not subscriptable"))
  end.

(** The first code point of a UTF-8 encoded [str], as a [str]. *)
Definition is_continuation (c : ascii) : bool :=
  let n := N_of_ascii c in (128 <=? n)%N && (n <? 192)%N.

Fixpoint take_continuation (s : string) : string :=
  match s with
  | String c s' => if is_continuation c then String c (take_continuation s') else EmptyString
  | EmptyString => EmptyString
  end.

Definition first_char (s : string) : option string :=
  match s with
  | EmptyString => None
  | String c s' => Some (String c (take_continuation s'))
  end.

(** [v[0]] *)
Definition getitem0 (v : pyval) : result pyval :=
  match v with
  | PList l => match l with
               | x :: _ => Ok x
               | [] => Raise (IndexError "list index out of range")
               end
  | PStr s => match first_char s with
              | Some c => Ok (PStr c)
              | None => Raise (IndexError "string index out of range")
              end
  | PDict _ => Raise (Exn "KeyError" "0")
  | _ => Raise (TypeError (sq ++ type_name v ++ sq ++ " object is not subscriptable"))
  end.

(** [v.get(k, default)]: only a dict has the method. *)
Definition get (v : pyval) (k : string) (default : pyval) : result pyval :=
  match v with
  | PDict d => Ok (match lookup k d with Some x => x | None => default end)
  | _ => Raise (AttributeError v "get")
  end.

(** [hasattr(v, a)] and [v.a] for a data attribute [a]: the built-in types
    have no data attributes, objects have the ones listed. *)
Definition getattr_opt (v : pyval) (a : string) : option pyval :=
  match v with
  | PObj _ attrs => lookup a attrs
  | _ => None
  end.

Definition hasattr (v : pyval) (a : string) : bool :=
  match getattr_opt v a with Some _ => true | None => false end.

Definition getattr (v : pyval) (a : string) : result pyval :=
  match getattr_opt v a with
  | Some x => Ok x
  | None => Raise (AttributeError v a)
  end.

(** The code points of a UTF-8 encoded [str], each as a [str]: what
    iterating over a [str] yields. *)
Fixpoint chars (s : string) : list string :=
  match s with
  | EmptyString => []
  | String c s' =>
      let rest := chars s' in
      match s', rest with
      | String c' _, hd :: tl =>
          if is_continuation c' then String c hd :: tl
          else String c EmptyString :: rest
      | _, _ => String c EmptyString :: rest
      end
  end.

(** The items a [for] loop over [v] visits. *)
Definition py_iter (v : pyval) : result (list pyval) :=
  match v with
  | PList l => Ok l
  | PDict d => Ok (map (fun kv => PStr (fst kv)) d)
  | PStr s => Ok (map PStr (chars s))
  | _ => Raise (TypeError (sq ++ type_name v ++ sq ++ " object is not iterable"))
  end.

(** What [reversed(v)] visits. *)
Definition py_reversed (v : pyval) : result (list pyval) :=
  match v with
  | PList l => Ok (rev l)
  | PDict d => Ok (rev (map (fun kv => PStr (fst kv)) d))
  | PStr s => Ok (rev (map PStr (chars s)))
  | _ => Raise (TypeError (sq ++ type_name v ++ sq ++ " object is not reversible"))
  end.

(** [d[k] = v] on a dict: a key already present keeps its place. *)
Fixpoint dict_set {A : Type} (d : list (string * A)) (k : string) (v : A)
    : list (string * A) :=
  match d with
  | [] => [(k, v)]
  | (k', v') :: d' =>
      if String.eqb k k' then (k', v) :: d' else (k', v') :: dict_set d' k v
  end.

(** [s[:n]]: the first [n] code points of a UTF-8 encoded [str]. *)
Fixpoint concat_str (l : list string) : string :=
  match l with
  | [] => EmptyString
  | x :: l' => x ++ concat_str l'
  end.

Definition slice_to (n : nat) (s : string) : string :=
  concat_str (firstn n (chars s)).

(** [bytes.decode()]: strict UTF-8.  [utf8_scan need lo hi] reads a byte
    string of which [need] continuation bytes are still due, the next one
    within [lo..hi]. *)
Definition in_range (lo hi n : N) : bool := (lo <=? n)%N && (n <=? hi)%N.

Fixpoint utf8_scan (need : nat) (lo hi : N) (s : string) : bool :=
  match s with
  | EmptyString => match need with O => true | _ => false end
  | String c s' =>
      let b := N_of_ascii c in
      match need with
      | S need' => in_range lo hi b && utf8_scan need' 128 191 s'
      | O =>
          if (b <? 128)%N then utf8_scan 0 128 191 s'
          else if in_range 194 223 b then utf8_scan 1 128 191 s'
          else if (b =? 224)%N then utf8_scan 2 160 191 s'
          else if in_range 225 236 b then utf8_scan 2 128 191 s'
          else if (b =? 237)%N then utf8_scan 2 128 159 s'
          else if in_range 238 239 b then utf8_scan 2 128 191 s'
          else if (b =? 240)%N then utf8_scan 3 144 191 s'
          else if in_range 241 243 b then utf8_scan 3 128 191 s'
          else if (b =? 244)%N then utf8_scan 3 128 143 s'
          else false
      end
  end.

Definition utf8_valid (b : string) : bool := utf8_scan 0 128 191 b.

Definition decode (b : string) : result string :=
  if utf8_valid b then Ok b
  else Raise (Exn "UnicodeDecodeError" "'utf-8' codec can't decode bytes").

(** [format(n, '0<width>x')] for a natural number. *)
Definition hex_digit (d : N) : ascii :=
  if (d <? 10)%N then ascii_of_N (48 + d) else ascii_of_N (87 + d).

Fixpoint hex_pos (fuel : nat) (n : N) (acc : string) : string :=
  match fuel with
  | O => acc
  | S fuel' =>
      let acc' := String (hex_digit (n mod 16)) acc in
      if (n <? 16)%N then acc' else hex_pos fuel' (n / 16) acc'
  end.

Definition hex (n : N) : string := hex_pos (S (N.to_nat (N.log2 n))) n EmptyString.

Fixpoint zeros (k : nat) : string :=
  match k with
  | O => EmptyString
  | S k' => String "0" (zeros k')
  end.

Definition format_0x (width : nat) (n : N) : string :=
  let h := hex n in zeros (width - String.length h) ++ h.

End Py.

(** ** Programs: a free monad over the calls that leave the function *)

Module Eff.
Import Py.

(** A signature: the events a program can emit and, for each, the type of
    what the environment answers. *)
Record signature : Type := Sig { ev : Type; rep : ev -> Type }.

Inductive prog (S : signature) (R : Type) : Type :=
| Ret (r : R)
| Vis (e : ev S) (k : rep S e -> prog S R).
Arguments Ret {S R} r.
Arguments Vis {S R} e k.

Fixpoint pbind {S : signature} {A B : Type}
    (p : prog S A) (f : A -> prog S B) : prog S B :=
  match p with
  | Ret a => f a
  | Vis e k => Vis e (fun x => pbind (k x) f)
  end.

(** One event together with the answer it got. *)
Definition entry (S : signature) : Type := { e : ev S & rep S e }.
Definition answered {S : signature} (e : ev S) (a : rep S e) : entry S :=
  existT (rep S) e a.
Definition trace (S : signature) : Type := list (entry S).

(** [exec p t r]: some environment makes [p] emit exactly the events of [t],
    in this order and with these answers, and finish with [r]. *)
Fixpoint exec {S : signature} {R : Type}
    (p : prog S R) (t : trace S) (r : R) : Prop :=
  match p with
  | Ret x => t = [] /\ r = x
  | Vis e k => exists (a : rep S e) (t' : trace S),
                 t = answered e a :: t' /\ exec (k a) t' r
  end.

(** An environment with its own state answers every event. *)
Record world (S : signature) : Type := World {
  wstate : Type;
  respond : wstate -> forall e : ev S, rep S e * wstate
}.
Arguments wstate {S} w.
Arguments respond {S} w s e.

Fixpoint run {S : signature} {R : Type}
    (w : world S) (s : wstate w) (p : prog S R) : R * trace S :=
  match p with
  | Ret x => (x, [])
  | Vis e k =>
      let '(a, s') := respond w s e in
      let '(r, t) := run w s' (k a) in
      (r, answered e a :: t)
  end.

(** Programs that may raise: the result is a value or an exception. *)
Definition M (S : signature) (A : Type) : Type := prog S (result A).

Definition ret {S : signature} {A : Type} (a : A) : M S A := Ret (Ok a).
Definition raise {S : signature} {A : Type} (e : exn) : M S A := Ret (Raise e).

Definition bind {S : signature} {A B : Type}
    (m : M S A) (f : A -> M S B) : M S B :=
  pbind m (fun r => match r with
                    | Ok a => f a
                    | Raise e => Ret (Raise e)
                    end).

(** [try: body except Exception as e: handler e] *)
Definition try_except {S : signature} {A : Type}
    (body : M S A) (handler : exn -> M S A) : M S A :=
  pbind body (fun r => match r with
                       | Ok a => Ret (Ok a)
                       | Raise e => handler e
                       end).

(** A pure computation that may raise, run inside a program. *)
Definition lift {S : signature} {A : Type} (r : result A) : M S A := Ret r.

(** An event whose answer is the value to go on with. *)
Definition call {S : signature} (e : ev S) : M S (rep S e) :=
  Vis e (fun x => Ret (Ok x)).

(** An event that answers with a value or raises. *)
Definition call_raising {S : signature} {A : Type}
    (e : ev S) (cast : rep S e -> result A) : M S A :=
  Vis e (fun x => Ret (cast x)).

Definition rbind {A B : Type} (r : result A) (f : A -> result B) : result B :=
  match r with
  | Ok a => f a
  | Raise e => Raise e
  end.

End Eff.

Declare Scope py_scope.
Delimit Scope py_scope with py.
Notation "x <- m ;; k" := (Eff.bind m (fun x => k))
  (at level 61, m at next level, right associativity) : py_scope.
Notation "m ;; k" := (Eff.bind m (fun _ => k))
  (at level 61, right associativity) : py_scope.
Notation "x <~ r ;; k" := (Eff.rbind r (fun x => k))
  (at level 61, r at next level, right associativity) : py_scope.

(** ** The orchestrator: [src/orchestrator/agent.py] *)

Module Orchestrator.
Import Py Eff.
Local Open Scope py_scope.

Definition ORCHESTRATOR_SYSTEM_PROMPT : string :=
  "You are a Financial Query Router that analyzes user queries and routes them to the appropriate specialist analyst.

Your role is to intelligently route financial queries to the most relevant specialist analyst based on the query's intent and focus.

You have access to:
- bull_analyst: An optimistic analyst who identifies opportunities, growth catalysts, upside potential, bullish perspectives, entry points, and momentum signals. Use for queries about: opportunities, growth, upside, bullish analysis, entry points, catalysts, momentum, positive outlook.
- bear_analyst: A cautious analyst who identifies risks, downside scenarios, red flags, valuation concerns, and potential negative catalysts. Use for queries about: risks, concerns, downside, bearish analysis, exit signals, red flags, threats, negative outlook.

ROUTING PROCESS:
1. Analyze the user's query to determine its primary intent and focus
2. Route to bull_analyst if the query focuses on opportunities, growth, upside, bullish analysis
3. Route to bear_analyst if the query focuses on risks, concerns, downside, bearish analysis
4. If the query is neutral/balanced, prefer routing to the single most relevant specialist

OUTPUT:
- Return the selected agent's analysis directly and clearly
- Present the analysis in a clear, actionable format".

(** A block of [response.content] as the Anthropic client returns it: a text
    block has the attribute [text], a block of another class has not. *)
Inductive content_block : Type :=
| TextBlock (text : string)
| OtherBlock (cls : string).

(** [response.content[0].text] *)
Definition first_text (content : list content_block) : result string :=
  match content with
  | [] => Raise (IndexError "list index out of range")
  | TextBlock text :: _ => Ok text
  | OtherBlock cls :: _ =>
      Raise (Exn "AttributeError"
                 (sq ++ cls ++ sq ++ " object has no attribute " ++ sq ++ "text" ++ sq))
  end.

(** An [httpx.Response]: the status, the message [raise_for_status] gives its
    HTTPStatusError, and what [response.json()] returns or raises. *)
Record http_response : Type := Response {
  status_code : Z;
  status_message : string;
  json : result pyval
}.

(** [Event(author=..., content=Content(parts=[Part(text=...)]))] *)
Record Event : Type := mkEvent { author : string; text : string }.

(** The calls that leave the agent.  [MessagesCreate] is the awaited
    [loop.run_in_executor(None, lambda: self.client.messages.create(...))]
    with its single user message; [Post] is [client.post] inside
    [httpx.AsyncClient(timeout=...)]; [Yield] hands an event to the consumer
    of the async generator. *)
Inductive event : Type :=
| MessagesCreate (model : string) (max_tokens : Z) (content : string)
| Uuid4
| Post (url : string) (timeout : Z) (body : pyval) (headers : list (string * string))
| Print (msg : string)
| Yield (e : Event).

Definition reply (e : event) : Type :=
  match e with
  | MessagesCreate _ _ _ => result (list content_block)
  | Uuid4 => string
  | Post _ _ _ _ => result http_response
  | Print _ => unit
  | Yield _ => unit
  end.

Definition sig : signature := Sig event reply.

(** The [str] methods and conversions of the interpreter that the agent
    uses.  They follow the Unicode tables and are taken as given. *)
Class Builtins : Type := {
  lower : string -> string;
  strip : string -> string;
  str_other : pyval -> string
}.

(** [__init__]: the attributes stored with [object.__setattr__]. *)
Record CustomOrchestratorAgent : Type := {
  model : string;
  bull_agent_url : string;
  bear_agent_url : string
}.

Definition environ_get (environ : list (string * string)) (k default : string) : string :=
  match lookup k environ with
  | Some v => v
  | None => default
  end.

Definition create_orchestrator (environ : list (string * string)) : CustomOrchestratorAgent :=
  {| model := "claude-sonnet-4-20250514";
     bull_agent_url := "http://localhost:" ++ environ_get environ "BULL_AGENT_PORT" "8001" ++ "/";
     bear_agent_url := "http://localhost:" ++ environ_get environ "BEAR_AGENT_PORT" "8002" ++ "/" |}.

(** [response.raise_for_status()]: httpx raises HTTPStatusError unless the
    status is 2xx. *)
Definition is_success (r : http_response) : bool :=
  (200 <=? status_code r)%Z && (status_code r <=? 299)%Z.

Definition raise_for_status (r : http_response) : result unit :=
  if is_success r then Ok tt
  else Raise (Exn "HTTPStatusError" (status_message r)).

(** Lines 90-98 of [_call_agent_via_a2a]: the text of the first part of the
    first artifact, or the empty string. *)
Definition extract_text (res : pyval) : result pyval :=
  has_result <~ py_in "result" res ;;
  if has_result : bool then
    r <~ getitem res "result" ;;
    has_artifacts <~ py_in "artifacts" r ;;
    artifacts_ok <~ (if has_artifacts : bool
                     then r <~ getitem res "result" ;;
                          a <~ getitem r "artifacts" ;;
                          Ok (truthy a)
                     else Ok false) ;;
    if artifacts_ok : bool then
      r <~ getitem res "result" ;;
      a <~ getitem r "artifacts" ;;
      artifact <~ getitem0 a ;;
      has_parts <~ py_in "parts" artifact ;;
      parts_ok <~ (if has_parts : bool
                   then p <~ getitem artifact "parts" ;; Ok (truthy p)
                   else Ok false) ;;
      if parts_ok : bool then
        p <~ getitem artifact "parts" ;;
        part <~ getitem0 p ;;
        kind <~ get part "kind" PNone ;;
        is_text <~ (if eq_str kind "text" then py_in "text" part else Ok false) ;;
        if is_text : bool then getitem part "text" else Ok (PStr "")
      else Ok (PStr "")
    else Ok (PStr "")
  else Ok (PStr "").

Definition a2a_payload (id message_id query : string) : pyval :=
  PDict [("jsonrpc", PStr "2.0");
         ("method", PStr "message/send");
         ("id", PStr id);
         ("params",
          PDict [("message",
                  PDict [("messageId", PStr message_id);
                         ("parts", PList [PDict [("text", PStr query)]]);
                         ("role", PStr "user")])])].

Definition _call_agent_via_a2a (agent_url query : string) : M sig pyval :=
  try_except
    (id <- call (S := sig) Uuid4 ;;
     message_id <- call (S := sig) Uuid4 ;;
     let payload := a2a_payload id message_id query in
     response <- call_raising (S := sig)
                   (Post agent_url 120 payload [("Content-Type", "application/json")])
                   (fun x => x) ;;
     lift (raise_for_status response) ;;
     res <- lift (json response) ;;
     lift (extract_text res))
    (fun e =>
       call (S := sig) (Print ("Error calling agent at " ++ agent_url ++ ": " ++ exn_msg e)) ;;
       ret (PStr "")).

Definition both : list string := ["bull_analyst"; "bear_analyst"].

Definition routing_prompt (query : string) : string :=
  "Based on this financial query, determine which specialist analyst should handle it:" ++
  nl ++ "- " ++ dq ++ "bull_analyst" ++ dq ++
  " for opportunities, growth, upside, bullish analysis" ++ nl ++ "- " ++
  dq ++ "bear_analyst" ++ dq ++
  " for risks, concerns, downside, bearish analysis" ++ nl ++ "- " ++ dq ++
  "both" ++ dq ++ " if the query requires both perspectives" ++ nl ++ nl ++
  "Query: " ++ query ++ nl ++ nl ++
  "Respond with ONLY the agent name(s): " ++ dq ++ "bull_analyst" ++ dq ++
  ", " ++ dq ++ "bear_analyst" ++ dq ++ ", or " ++ dq ++ "both" ++ dq ++ ".".

Section WithBuiltins.
Context {B : Builtins}.

Definition _determine_agents (self : CustomOrchestratorAgent) (query : string)
    : M sig (list string) :=
  let query_lower := lower query in
  if any_in ["analyze"; "analysis"] query_lower then ret both
  else if any_in ["both"; "bull and bear"; "pros and cons"; "opportunities and risks"]
                 query_lower then ret both
  else
    try_except
      (response <- call_raising (S := sig)
                     (MessagesCreate (model self) 50 (routing_prompt query))
                     (fun x => x) ;;
       text <- lift (first_text response) ;;
       let agent_response := lower (strip text) in
       if contains "both" agent_response then ret both
       else if contains "bear" agent_response then ret ["bear_analyst"]
       else if contains "bull" agent_response then ret ["bull_analyst"]
       else ret both)
      (fun e =>
         call (S := sig) (Print ("Error determining agent: " ++ exn_msg e)) ;;
         ret both).

(** Lines 157-167 of [run_async]: the text of the first part of the user
    content that has one, else the content's own [text]. *)
Fixpoint first_part_text (parts : list pyval) : pyval :=
  match parts with
  | [] => PStr ""
  | part :: rest =>
      match getattr_opt part "text" with
      | Some t => if truthy t then t else first_part_text rest
      | None => first_part_text rest
      end
  end.

Definition user_query (parent_context : pyval) : result pyval :=
  user_content <~ getattr parent_context "user_content" ;;
  if truthy user_content then
    if hasattr user_content "parts" then
      parts <~ getattr user_content "parts" ;;
      items <~ py_iter parts ;;
      Ok (first_part_text items)
    else if hasattr user_content "text" then getattr user_content "text"
    else Ok (PStr "")
  else Ok (PStr "").

(** Lines 169-172: the session state as fallback. *)
Definition session_query (parent_context query : pyval) : result pyval :=
  if truthy query then Ok query
  else
    has_state <~ (if hasattr parent_context "session"
                  then session <~ getattr parent_context "session" ;;
                       Ok (hasattr session "state")
                  else Ok false) ;;
    if has_state : bool then
      session <~ getattr parent_context "session" ;;
      state <~ getattr session "state" ;;
      get state "query" (PStr "")
    else Ok query.

(** A value inside an f-string. *)
Definition format_value (v : pyval) : string :=
  match v with
  | PStr s => s
  | _ => str_other v
  end.

Definition full_prompt (query : string) : string :=
  ORCHESTRATOR_SYSTEM_PROMPT ++ nl ++ nl ++ "User Query: " ++ query ++ nl ++ nl
  ++ "Provide a financial analysis based on the query.".

(** Lines 191-226: the combined response. *)
Definition combined_response (self : CustomOrchestratorAgent) (query : string)
    (bull_response bear_response : pyval) : M sig string :=
  if truthy bull_response && truthy bear_response then
    ret ("## Bull Case" ++ nl ++ nl ++ format_value bull_response ++ nl ++ nl
         ++ "---" ++ nl ++ nl
         ++ "## Bear Case" ++ nl ++ nl ++ format_value bear_response)
  else if truthy bull_response then
    ret ("## Bull Case" ++ nl ++ nl ++ format_value bull_response)
  else if truthy bear_response then
    ret ("## Bear Case" ++ nl ++ nl ++ format_value bear_response)
  else
    try_except
      (response <- call_raising (S := sig)
                     (MessagesCreate (model self) 4096 (full_prompt query))
                     (fun x => x) ;;
       lift (first_text response))
      (fun e => ret ("Error generating response: " ++ exn_msg e)).

(** [name in agents_to_call] *)
Definition selected (name : string) (agents_to_call : list string) : bool :=
  existsb (String.eqb name) agents_to_call.

(** [run_async].  The query that reaches [_determine_agents] has to be a
    [str]: its first statement is [query.lower()]. *)
Definition run_async (self : CustomOrchestratorAgent) (parent_context : pyval)
    : M sig unit :=
  query <- lift (user_query parent_context) ;;
  query <- lift (session_query parent_context query) ;;
  if negb (truthy query) then
    call (S := sig) (Yield (mkEvent "agent" "No query provided")) ;;
    ret tt
  else
    match query with
    | PStr query =>
        agents_to_call <- _determine_agents self query ;;
        bull_response <- (if selected "bull_analyst" agents_to_call
                          then _call_agent_via_a2a (bull_agent_url self) query
                          else ret (PStr "")) ;;
        bear_response <- (if selected "bear_analyst" agents_to_call
                          then _call_agent_via_a2a (bear_agent_url self) query
                          else ret (PStr "")) ;;
        agent_response <- combined_response self query bull_response bear_response ;;
        call (S := sig) (Yield (mkEvent "agent" agent_response)) ;;
        ret tt
    | _ => raise (AttributeError query "lower")
    end.

End WithBuiltins.

(** The built-ins on ASCII text, to run the agent on concrete inputs. *)
Definition ascii_lower (c : ascii) : ascii :=
  let n := N_of_ascii c in
  if (65 <=? n)%N && (n <=? 90)%N then ascii_of_N (n + 32) else c.

Fixpoint lower_ascii (s : string) : string :=
  match s with
  | EmptyString => EmptyString
  | String c s' => String (ascii_lower c) (lower_ascii s')
  end.

Definition is_space (c : ascii) : bool :=
  let n := N_of_ascii c in
  ((9 <=? n)%N && (n <=? 13)%N) || ((28 <=? n)%N && (n <=? 32)%N).

Fixpoint lstrip (s : string) : string :=
  match s with
  | String c s' => if is_space c then lstrip s' else s
  | EmptyString => EmptyString
  end.

Fixpoint rstrip (s : string) : string :=
  match s with
  | EmptyString => EmptyString
  | String c s' =>
      match rstrip s' with
      | EmptyString => if is_space c then EmptyString else String c EmptyString
      | t => String c t
      end
  end.

Definition ascii_builtins : Builtins :=
  {| lower := lower_ascii;
     strip := fun s => rstrip (lstrip s);
     str_other := fun v =>
       match v with
       | PNone => "None"
       | PBool true => "True"
       | PBool false => "False"
       | _ => "<" ++ type_name v ++ ">"
       end |}.

End Orchestrator.

(** ** The LangGraph specialist's server: [src/bull_agent/server.py] *)

Module BullServer.
Import Py Eff.
Local Open Scope py_scope.

(** A Starlette request, as far as the handler reads it: what
    [await request.json()] returns or raises. *)
Record Request : Type := { request_json : result pyval }.

(** A [JSONResponse] that was built: Starlette answers with status 200
    unless told otherwise. *)
Record JSONResponse : Type := mkJSONResponse { status_code : Z; content : pyval }.

(** The text of the ValueError that [json.dumps] raises on a float out of
    range; its wording differs between versions of the interpreter. *)
Class Builtins : Type := {
  float_error : spec_float -> string
}.

Definition is_finite (f : spec_float) : bool :=
  match f with
  | S754_zero _ | S754_finite _ _ _ => true
  | S754_infinity _ | S754_nan => false
  end.

(** What [json.dumps(content, allow_nan=False)] stops at. *)
Inductive unrenderable : Type :=
| BadFloat (f : spec_float)
| BadObject (cls : string).

(** The first value, in the order of the document, that [json.dumps]
    refuses: a float that is infinite or not a number, or an object that is
    no JSON value. *)
Fixpoint first_unrenderable (v : pyval) : option unrenderable :=
  match v with
  | PNone | PBool _ | PInt _ | PStr _ => None
  | PFloat f => if is_finite f then None else Some (BadFloat f)
  | PList l =>
      (fix items (l : list pyval) : option unrenderable :=
         match l with
         | [] => None
         | x :: l' =>
             match first_unrenderable x with
             | Some u => Some u
             | None => items l'
             end
         end) l
  | PDict d =>
      (fix items (d : list (string * pyval)) : option unrenderable :=
         match d with
         | [] => None
         | (_, x) :: d' =>
             match first_unrenderable x with
             | Some u => Some u
             | None => items d'
             end
         end) d
  | PObj cls _ => Some (BadObject cls)
  end.

(** [JSONResponse(content)].  The constructor renders the body at once,
    with [json.dumps(content, ensure_ascii=False, allow_nan=False, ...)]
    and [.encode("utf-8")], and raises what they raise.  A [str] of the
    model is the UTF-8 encoding of its text, so it always encodes: a [str]
    with a lone surrogate, the one kind [encode] refuses, has no such
    encoding and is no value of the model. *)
Definition JSONResponse_of {B : Builtins} (content : pyval) : result JSONResponse :=
  match first_unrenderable content with
  | None => Ok (mkJSONResponse 200 content)
  | Some (BadFloat f) => Raise (Exn "ValueError" (float_error f))
  | Some (BadObject cls) =>
      Raise (TypeError ("Object of type " ++ cls ++ " is not JSON serializable"))
  end.

(** [AgentInvoke query] is
    [agent.invoke({messages: [HumanMessage(content=query)]})]. *)
Inductive event : Type :=
| AgentInvoke (query : pyval)
| Uuid4.

Definition reply (e : event) : Type :=
  match e with
  | AgentInvoke _ => result pyval
  | Uuid4 => string
  end.

Definition sig : signature := Sig event reply.

(** Lines 71-75: the text of the first part that has the key. *)
Fixpoint first_text_part (parts : list pyval) : result pyval :=
  match parts with
  | [] => Ok (PStr "")
  | part :: rest =>
      has_text <~ py_in "text" part ;;
      if has_text : bool then getitem part "text" else first_text_part rest
  end.

(** Lines 88-93: the content of the last message that has one. *)
Fixpoint last_content (msgs : list pyval) : pyval :=
  match msgs with
  | [] => PStr ""
  | msg :: rest =>
      match getattr_opt msg "content" with
      | Some c => if truthy c then c else last_content rest
      | None => last_content rest
      end
  end.

Definition error_content (id : pyval) (code : Z) (message : string) : pyval :=
  PDict [("jsonrpc", PStr "2.0");
         ("id", id);
         ("error", PDict [("code", PInt code); ("message", PStr message)])].

Definition text_part (response_text : pyval) : pyval :=
  PDict [("kind", PStr "text"); ("text", response_text)].

Definition success_content (id : pyval)
    (context_id task_id artifact_id message_id : string) (response_text : pyval)
    : pyval :=
  PDict [("jsonrpc", PStr "2.0");
         ("id", id);
         ("result",
          PDict [("artifacts",
                  PList [PDict [("artifactId", PStr artifact_id);
                                ("parts", PList [text_part response_text])]]);
                 ("contextId", PStr context_id);
                 ("history",
                  PList [PDict [("contextId", PStr context_id);
                                ("kind", PStr "message");
                                ("messageId", PStr message_id);
                                ("parts", PList [text_part response_text]);
                                ("role", PStr "agent");
                                ("taskId", PStr task_id)]])])].

(** The two replies, once built. *)
Definition error_response (id : pyval) (code : Z) (message : string) : JSONResponse :=
  mkJSONResponse 200 (error_content id code message).

Definition success_response (id : pyval)
    (context_id task_id artifact_id message_id : string) (response_text : pyval)
    : JSONResponse :=
  mkJSONResponse 200
    (success_content id context_id task_id artifact_id message_id response_text).

Section WithBuiltins.
Context {B : Builtins}.

(** The [try] block once [body] is bound. *)
Definition handle_body (body : pyval) : M sig JSONResponse :=
  params <- lift (get body "params" (PDict [])) ;;
  message <- lift (get params "message" (PDict [])) ;;
  parts <- lift (get message "parts" (PList [])) ;;
  items <- lift (py_iter parts) ;;
  query <- lift (first_text_part items) ;;
  if negb (truthy query) then
    id <- lift (get body "id" PNone) ;;
    lift (JSONResponse_of (error_content id (-32600) "No text content in message"))
  else
    result <- call_raising (S := sig) (AgentInvoke query) (fun x => x) ;;
    has_messages <- lift (py_in "messages" result) ;;
    response_text <- (if has_messages : bool
                      then msgs <- lift (getitem result "messages") ;;
                           reversed <- lift (py_reversed msgs) ;;
                           ret (last_content reversed)
                      else ret (PStr "")) ;;
    context_id <- call (S := sig) Uuid4 ;;
    task_id <- call (S := sig) Uuid4 ;;
    artifact_id <- call (S := sig) Uuid4 ;;
    message_id <- call (S := sig) Uuid4 ;;
    id <- lift (get body "id" PNone) ;;
    lift (JSONResponse_of
            (success_content id context_id task_id artifact_id message_id
               response_text)).

(** [handle_message].  In the handler of the [except] clause, [body] is in
    [dir()] exactly when [request.json()] had returned. *)
Definition handle_message (request : Request) : M sig JSONResponse :=
  match request_json request with
  | Raise e => lift (JSONResponse_of (error_content PNone (-32603) (exn_msg e)))
  | Ok body =>
      try_except (handle_body body)
        (fun e =>
           id <- lift (get body "id" PNone) ;;
           lift (JSONResponse_of (error_content id (-32603) (exn_msg e))))
  end.

End WithBuiltins.

End BullServer.

(** ** The tracing middleware: [src/tracing/setup.py] *)

Module Tracing.
Import Py Eff.
Local Open Scope py_scope.

(** A header name or value of an ASGI scope: [bytes], or already a [str]. *)
Inductive hval : Type :=
| HBytes (b : string)
| HStr (s : string).

(** The ASGI connection scope, as far as the middleware reads it. *)
Record Scope : Type := {
  type_ : string;
  path : option string;
  headers : option (list (hval * hval))
}.

Inductive SpanKind : Type := INTERNAL | SERVER | CLIENT | PRODUCER | CONSUMER.

Record SpanContext : Type := {
  trace_id : N;
  span_id : N;
  is_valid : bool
}.

(** The OpenTelemetry API and the wrapped application.  A context and a span
    are handles the API gives out; [EndSpan] is the exit of the [with]
    block, told whether the block raised. *)
Inductive event : Type :=
| App (scope : Scope)
| Extract (carrier : list (string * string))
| StartSpan (name : string) (context : N) (kind : SpanKind)
| SetAttribute (span : N) (key value : string)
| GetSpanContext (span : N)
| EndSpan (span : N) (raised : option exn)
| Print (msg : string).

Definition reply (e : event) : Type :=
  match e with
  | App _ => result unit
  | Extract _ => N
  | StartSpan _ _ _ => N
  | SetAttribute _ _ _ => unit
  | GetSpanContext _ => SpanContext
  | EndSpan _ _ => unit
  | Print _ => unit
  end.

Definition sig : signature := Sig event reply.

Record TracingMiddleware : Type := { service_name : string }.

Definition decode_if_bytes (h : hval) : result string :=
  match h with
  | HBytes b => decode b
  | HStr s => Ok s
  end.

(** Lines 149-153: the headers as a dict of [str]. *)
Fixpoint collect_headers (raw : list (hval * hval)) (headers : list (string * string))
    : result (list (string * string)) :=
  match raw with
  | [] => Ok headers
  | (key, value) :: raw' =>
      k <~ decode_if_bytes key ;;
      v <~ decode_if_bytes value ;;
      collect_headers raw' (dict_set headers k v)
  end.

(** [with self.tracer.start_as_current_span(name, context, kind) as span] *)
Definition with_span {A : Type} (name : string) (context : N) (kind : SpanKind)
    (block : N -> M sig A) : M sig A :=
  Vis (S := sig) (StartSpan name context kind)
    (fun span =>
       pbind (block span)
         (fun r =>
            Vis (S := sig)
              (EndSpan span match r with Ok _ => None | Raise e => Some e end)
              (fun _ => Ret r))).

Definition log_line (self : TracingMiddleware) (ctx : SpanContext)
    (headers : list (string * string)) : string :=
  let trace_id := format_0x 32 (trace_id ctx) in
  let span_id := format_0x 16 (span_id ctx) in
  let parent_span_id :=
    match lookup "traceparent" headers with Some v => v | None => "none" end in
  "  [" ++ service_name self ++ "] trace=" ++ slice_to 8 trace_id
  ++ "... span=" ++ slice_to 8 span_id ++ "... parent="
  ++ (if negb (String.eqb parent_span_id "none")
      then slice_to 20 parent_span_id else "root").

(** [scope.get(path, /)] and [scope.get(headers, [])] *)
Definition path_of (scope : Scope) : string :=
  match path scope with Some p => p | None => "/" end.

Definition raw_headers (scope : Scope) : list (hval * hval) :=
  match headers scope with Some h => h | None => [] end.

Definition __call__ (self : TracingMiddleware) (scope : Scope) : M sig unit :=
  if negb (String.eqb (type_ scope) "http") then
    call_raising (S := sig) (App scope) (fun x => x)
  else
    let path := path_of scope in
    if contains ".well-known" path then
      call_raising (S := sig) (App scope) (fun x => x)
    else
      headers <- lift (collect_headers (raw_headers scope) []) ;;
      parent_ctx <- call (S := sig) (Extract headers) ;;
      with_span (service_name self) parent_ctx SERVER
        (fun span =>
           call (S := sig) (SetAttribute span "service.name" (service_name self)) ;;
           call (S := sig) (SetAttribute span "http.path" path) ;;
           ctx <- call (S := sig) (GetSpanContext span) ;;
           (if is_valid ctx
            then call (S := sig) (Print (log_line self ctx headers))
            else ret tt) ;;
           call_raising (S := sig) (App scope) (fun x => x)).

End Tracing.

(** ** Setting up tracing: [setup_arize_tracing] in [src/tracing/setup.py] *)

Module TracingSetup.
Import Py Eff.
Local Open Scope py_scope.

(** What the function does to the process.  [Import] is an import statement
    inside the function; [Register] is [arize.otel.register] with
    [set_global_tracer_provider=True, batch=True, verbose=False];
    [NewTracerProvider] is [TracerProvider(resource=Resource.create(...))];
    [AddBatchSpanProcessor] is
    [provider.add_span_processor(BatchSpanProcessor(exporter))]; the two
    instrumentations are the import of the instrumentor and its
    [instrument()]. *)
Inductive event : Type :=
| SetGlobalTextmap (propagators : list string)
| Import (module_ : string)
| NewTracerProvider (resource : list (string * string))
| SetTracerProvider (provider : N)
| Register (space_id api_key project_name : string)
| NewOTLPSpanExporter (endpoint : string) (headers : list (string * string))
| AddBatchSpanProcessor (provider exporter : N)
| InstrumentHttpx
| InstrumentAiohttp
| Print (msg : string)
| GetTracer (name : string).

Definition reply (e : event) : Type :=
  match e with
  | SetGlobalTextmap _ => unit
  | Import _ => result unit
  | NewTracerProvider _ => N
  | SetTracerProvider _ => unit
  | Register _ _ _ => result unit
  | NewOTLPSpanExporter _ _ => N
  | AddBatchSpanProcessor _ _ => unit
  | InstrumentHttpx => result unit
  | InstrumentAiohttp => result unit
  | Print _ => unit
  | GetTracer _ => N
  end.

Definition sig : signature := Sig event reply.

(** [CompositePropagator([TraceContextTextMapPropagator(),
    W3CBaggagePropagator()])] *)
Definition w3c_propagators : list string :=
  ["TraceContextTextMapPropagator"; "W3CBaggagePropagator"].

(** [except ImportError] catches the class and its subclass. *)
Definition is_import_error (e : exn) : bool :=
  String.eqb (exn_class e) "ImportError"
  || String.eqb (exn_class e) "ModuleNotFoundError".

Definition try_except_import {A : Type} (body : M sig A) (handler : M sig A)
    : M sig A :=
  pbind body (fun r => match r with
                       | Ok a => Ret (Ok a)
                       | Raise e => if is_import_error e then handler
                                    else Ret (Raise e)
                       end).

(** [try: body except Exception: pass] *)
Definition swallow (body : M sig unit) : M sig unit :=
  try_except body (fun _ => ret tt).

(** [not v] for the value of [os.environ.get(k)]. *)
Definition unset (v : option string) : bool :=
  match v with
  | None => true
  | Some s => String.eqb s ""
  end.

Definition or_empty (v : option string) : string :=
  match v with Some s => s | None => "" end.

Definition basic_provider (resource : list (string * string)) : M sig unit :=
  provider <- call (S := sig) (NewTracerProvider resource) ;;
  call (S := sig) (SetTracerProvider provider).

(** [setup_arize_tracing], with the global [_initialized] passed in and its
    value after the call returned beside the tracer.  The global is assigned
    once, after everything that can raise. *)
Definition setup_arize_tracing (environ : list (string * string))
    (_initialized : bool) (service_name : string) : M sig (bool * N) :=
  if _initialized then
    tracer <- call (S := sig) (GetTracer service_name) ;;
    ret (_initialized, tracer)
  else
    let arize_api_key := lookup "ARIZE_API_KEY" environ in
    let arize_space_id := lookup "ARIZE_SPACE_ID" environ in
    let project_name :=
      match lookup "ARIZE_PROJECT_NAME" environ with
      | Some p => p
      | None => "financial-agents"
      end in
    call (S := sig) (SetGlobalTextmap w3c_propagators) ;;
    (if unset arize_api_key || unset arize_space_id then
       call (S := sig) (Print ("Warning: Arize credentials not set for " ++ service_name)) ;;
       call_raising (S := sig) (Import "opentelemetry.sdk.trace") (fun x => x) ;;
       call_raising (S := sig) (Import "opentelemetry.sdk.resources") (fun x => x) ;;
       basic_provider [("service.name", service_name)]
     else
       try_except_import
         (call_raising (S := sig) (Import "arize.otel") (fun x => x) ;;
          call_raising (S := sig)
            (Register (or_empty arize_space_id) (or_empty arize_api_key) project_name)
            (fun x => x))
         (call (S := sig)
            (Print ("Warning: arize-otel not available for " ++ service_name
                    ++ ", using basic tracer provider")) ;;
          call_raising (S := sig) (Import "opentelemetry.sdk.trace") (fun x => x) ;;
          call_raising (S := sig) (Import "opentelemetry.sdk.resources") (fun x => x) ;;
          try_except_import
            (call_raising (S := sig)
               (Import "opentelemetry.exporter.otlp.proto.grpc.trace_exporter")
               (fun x => x) ;;
             call_raising (S := sig) (Import "opentelemetry.sdk.trace.export")
               (fun x => x) ;;
             provider <- call (S := sig)
                           (NewTracerProvider
                              [("service.name", service_name);
                               ("arize.project.name", project_name)]) ;;
             otlp_exporter <- call (S := sig)
                                (NewOTLPSpanExporter
                                   "https://otlp.arize.com/v1/traces"
                                   [("authorization",
                                     "Bearer " ++ or_empty arize_api_key);
                                    ("api_key", or_empty arize_api_key);
                                    ("arize-space-id", or_empty arize_space_id);
                                    ("space_id", or_empty arize_space_id);
                                    ("arize-interface", "python-sdk")]) ;;
             call (S := sig) (AddBatchSpanProcessor provider otlp_exporter) ;;
             call (S := sig) (SetTracerProvider provider))
            (basic_provider [("service.name", service_name);
                             ("arize.project.name", project_name)])) ;;
       call (S := sig) (SetGlobalTextmap w3c_propagators)) ;;
    swallow (call_raising (S := sig) InstrumentHttpx (fun x => x)) ;;
    swallow (call_raising (S := sig) InstrumentAiohttp (fun x => x)) ;;
    call (S := sig) (Print ("Tracing: " ++ service_name)) ;;
    tracer <- call (S := sig) (GetTracer service_name) ;;
    ret (true, tracer).

End TracingSetup.

(** ** The command line client: [src/cli/main.py] *)

Module Cli.
Import Py Eff.
Local Open Scope py_scope.

(** What [client.post] does: a response, an instance of
    [httpx.TimeoutException], or another exception.  HTTPStatusError is not
    among them: httpx raises it from [raise_for_status] only. *)
Inductive post_outcome : Type :=
| Responded (r : Orchestrator.http_response)
| TimedOut (e : exn)
| Failed (e : exn).

Inductive event : Type :=
| StartSpan (name : string) (kind : Tracing.SpanKind)
| SetAttribute (span : N) (key : string) (value : pyval)
| GetSpanContext (span : N)
| Print (msg : string)
| Inject (carrier : list (string * string))
| Uuid4
| Post (url : string) (timeout : Z) (body : pyval) (headers : list (string * string))
| RecordException (span : N) (e : exn)
| EndSpan (span : N).

Definition reply (e : event) : Type :=
  match e with
  | StartSpan _ _ => N
  | SetAttribute _ _ _ => unit
  | GetSpanContext _ => Tracing.SpanContext
  | Print _ => unit
  | Inject _ => list (string * string)
  | Uuid4 => string
  | Post _ _ _ _ => post_outcome
  | RecordException _ _ => unit
  | EndSpan _ => unit
  end.

Definition sig : signature := Sig event reply.

(** [str.upper] and [json.dumps(v, indent=2)], taken from the interpreter. *)
Class Builtins : Type := {
  upper : string -> string;
  json_dumps : pyval -> string
}.

(** [str(n)] for an [int]. *)
Definition decimal (n : Z) : string := NilZero.string_of_int (Z.to_int n).

(** [len(v)] *)
Definition py_len (v : pyval) : result Z :=
  match v with
  | PStr s => Ok (Z.of_nat (List.length (chars s)))
  | PList l => Ok (Z.of_nat (List.length l))
  | PDict d => Ok (Z.of_nat (List.length d))
  | _ => Raise (TypeError ("object of type " ++ sq ++ type_name v ++ sq
                            ++ " has no len()"))
  end.

(** Lines 100-103 and 109-111: the first part with the key [text]. *)
Fixpoint find_text (parts : list pyval) : result (option pyval) :=
  match parts with
  | [] => Ok None
  | part :: rest =>
      has_text <~ py_in "text" part ;;
      if has_text : bool
      then t <~ getitem part "text" ;; Ok (Some t)
      else find_text rest
  end.

(** Lines 98-103: the first such part over all artifacts that have parts. *)
Fixpoint find_artifact_text (artifacts : list pyval) : result (option pyval) :=
  match artifacts with
  | [] => Ok None
  | artifact :: rest =>
      has_parts <~ py_in "parts" artifact ;;
      if has_parts : bool
      then p <~ getitem artifact "parts" ;;
           items <~ py_iter p ;;
           found <~ find_text items ;;
           match found with
           | Some t => Ok (Some t)
           | None => find_artifact_text rest
           end
      else find_artifact_text rest
  end.

(** Where the text of a reply was found. *)
Inductive found : Type :=
| InArtifacts (text : pyval)
| InStatus (text : pyval)
| Nowhere.

(** Lines 95-111. *)
Definition read_reply (res : pyval) : result found :=
  has_result <~ py_in "result" res ;;
  if has_result : bool then
    task <~ getitem res "result" ;;
    has_artifacts <~ py_in "artifacts" task ;;
    artifacts_ok <~ (if has_artifacts : bool
                     then a <~ getitem task "artifacts" ;; Ok (truthy a)
                     else Ok false) ;;
    in_artifacts <~ (if artifacts_ok : bool
                     then a <~ getitem task "artifacts" ;;
                          items <~ py_iter a ;;
                          find_artifact_text items
                     else Ok None) ;;
    match in_artifacts with
    | Some t => Ok (InArtifacts t)
    | None =>
        has_status <~ py_in "status" task ;;
        status_ok <~ (if has_status : bool
                      then st <~ getitem task "status" ;; py_in "message" st
                      else Ok false) ;;
        if status_ok : bool then
          st <~ getitem task "status" ;;
          msg <~ getitem st "message" ;;
          has_parts <~ py_in "parts" msg ;;
          if has_parts : bool then
            p <~ getitem msg "parts" ;;
            items <~ py_iter p ;;
            found <~ find_text items ;;
            match found with
            | Some t => Ok (InStatus t)
            | None => Ok Nowhere
            end
          else Ok Nowhere
        else Ok Nowhere
    end
  else Ok Nowhere.

Definition success (content : pyval) : pyval :=
  PDict [("success", PBool true); ("content", content)].

Definition failure (error : string) : pyval :=
  PDict [("success", PBool false); ("error", PStr error)].

Section WithBuiltins.
Context {B : Builtins}.

(** The [try] block once the response is there and its status is 2xx. *)
Definition read_response (span : N) (response : Orchestrator.http_response)
    : M sig pyval :=
  res <- lift (Orchestrator.json response) ;;
  where_ <- lift (read_reply res) ;;
  match where_ with
  | InArtifacts text =>
      n <- lift (py_len text) ;;
      call (S := sig) (SetAttribute span "response.length" (PInt n)) ;;
      ret (success text)
  | InStatus text => ret (success text)
  | Nowhere => ret (success (PStr (json_dumps res)))
  end.

(** [query_orchestrator].  The three [except] clauses are reached from the
    places that raise their class: the timeout from [client.post], the
    status error from [raise_for_status], everything else from the rest of
    the block. *)
Definition query_orchestrator (query orchestrator_url : string) : M sig pyval :=
  Vis (S := sig) (StartSpan "cli" Tracing.CLIENT)
    (fun span =>
       pbind
         (call (S := sig) (SetAttribute span "query" (PStr query)) ;;
          ctx <- call (S := sig) (GetSpanContext span) ;;
          let trace_id := format_0x 32 (Tracing.trace_id ctx) in
          call (S := sig) (Print ("  [cli] trace=" ++ slice_to 8 trace_id ++ "...")) ;;
          headers <- call (S := sig) (Inject [("Content-Type", "application/json")]) ;;
          message_id <- call (S := sig) Uuid4 ;;
          let payload := Orchestrator.a2a_payload "1" message_id query in
          outcome <- call (S := sig) (Post orchestrator_url 180 payload headers) ;;
          match outcome with
          | TimedOut _ =>
              call (S := sig) (SetAttribute span "error" (PStr "timeout")) ;;
              ret (failure "Request timed out. The analysis is taking longer than expected.")
          | Failed e =>
              call (S := sig) (RecordException span e) ;;
              ret (failure (exn_msg e))
          | Responded response =>
              if Orchestrator.is_success response then
                try_except (read_response span response)
                  (fun e =>
                     call (S := sig) (RecordException span e) ;;
                     ret (failure (exn_msg e)))
              else
                call (S := sig)
                  (SetAttribute span "error"
                     (PStr (Orchestrator.status_message response))) ;;
                ret (failure ("HTTP error: "
                              ++ decimal (Orchestrator.status_code response)))
          end)
         (fun r => Vis (S := sig) (EndSpan span) (fun _ => Ret r))).

(** Lines 173-180 of [analyze]: the query sent, from the options and, when
    both are missing or empty, from the prompt. *)
Definition given (option : option string) : bool :=
  match option with
  | Some s => negb (String.eqb s "")
  | None => false
  end.

Definition value (option : option string) : string :=
  match option with Some s => s | None => "" end.

Definition full_query (symbol query : option string) (prompted : string) : string :=
  if given symbol then
    "Provide a comprehensive analysis of " ++ upper (value symbol)
    ++ " stock, including both bullish opportunities and bearish risks."
  else if given query then value query
  else prompted.

End WithBuiltins.

End Cli.

(** ** The bear analyst: [src/bear_agent/agent.py] *)

Module BearAgent.
Import Py Eff.
Local Open Scope py_scope.

Definition BEAR_SYSTEM_PROMPT : string :=
  "You are a cautious, risk-focused financial analyst known as the " ++ dq ++ "Bear Risk Analyst" ++ dq ++
  ".

Your role is to identify potential risks, downside scenarios, and red flags that others might overlook. You take a skeptical, thorough approach to analysis.

ANALYSIS FRAMEWORK:
1. Always start with valuation risks - is the current price justified?
2. Identify competitive threats and market dynamics
3. Consider macro headwinds and sector-specific challenges
4. Evaluate sentiment indicators and positioning risks
5. Look for potential negative catalysts on the horizon

COMMUNICATION STYLE:
- Be thorough but fair in your assessment
- Quantify risks where possible
- Acknowledge when risks are well-known vs. underappreciated
- Don't be alarmist, but don't sugarcoat either
- Focus on actionable insights for risk management

TOOLS AVAILABLE:
- risk_scanner: Scan for downside risks and red flags
- downside_catalyst_finder: Identify potential negative catalysts
- exit_signal_monitor: Check for technical sell signals

Always use your tools to gather data before providing your analysis.".

(** A block of [response.content]: text, a tool use, or a block of another
    type, which has neither [text] nor a tool to run. *)
Inductive block : Type :=
| TextBlock (text : string)
| ToolUseBlock (id name : string) (input : pyval)
| OtherBlock (type_ cls : string).

(** [response.content[0].text] *)
Definition first_text (content : list block) : result string :=
  match content with
  | [] => Raise (IndexError "list index out of range")
  | TextBlock text :: _ => Ok text
  | ToolUseBlock _ _ _ :: _ =>
      Raise (Exn "AttributeError"
                 (sq ++ "ToolUseBlock" ++ sq ++ " object has no attribute "
                  ++ sq ++ "text" ++ sq))
  | OtherBlock _ cls :: _ =>
      Raise (Exn "AttributeError"
                 (sq ++ cls ++ sq ++ " object has no attribute " ++ sq ++ "text" ++ sq))
  end.

(** [MessagesCreate] is the awaited [self.client.messages.create] with
    [max_tokens], [system], [messages] and, on the first call, [tools];
    [ToolCall] is the tool of that name called with the arguments as
    keywords, and [str] of what it returns. *)
Inductive event : Type :=
| MessagesCreate (model : string) (max_tokens : Z) (system : string)
    (messages : list pyval) (tools : option pyval)
| ToolCall (tool_name : string) (arguments : pyval)
| Yield (e : Orchestrator.Event).

Definition reply (e : event) : Type :=
  match e with
  | MessagesCreate _ _ _ _ _ => result (list block)
  | ToolCall _ _ => result string
  | Yield _ => unit
  end.

Definition sig : signature := Sig event reply.

Record CustomBearAgent : Type := { model : string }.

Definition create_bear_agent : CustomBearAgent :=
  {| model := "claude-sonnet-4-20250514" |}.

(** The keys of [self.tools]. *)
Definition tool_names : list string :=
  ["risk_scanner"; "downside_catalyst_finder"; "exit_signal_monitor"].

Definition symbol_schema (description : string) : pyval :=
  PDict [("type", PStr "object");
         ("properties",
          PDict [("symbol",
                  PDict [("type", PStr "string");
                         ("description", PStr description)])]);
         ("required", PList [PStr "symbol"])].

Definition tools_schema : pyval :=
  PList [PDict [("name", PStr "risk_scanner");
                ("description",
                 PStr "Scan for downside risks and red flags for a given symbol.");
                ("input_schema",
                 symbol_schema "Stock ticker symbol (e.g., 'AAPL', 'NVDA')")];
         PDict [("name", PStr "downside_catalyst_finder");
                ("description",
                 PStr "Identify potential negative catalysts for a given symbol.");
                ("input_schema", symbol_schema "Stock ticker symbol")];
         PDict [("name", PStr "exit_signal_monitor");
                ("description",
                 PStr "Monitor for sell/exit signals for a given symbol.");
                ("input_schema", symbol_schema "Stock ticker symbol")]].

Definition _execute_tool (tool_name : string) (arguments : pyval) : M sig string :=
  if existsb (String.eqb tool_name) tool_names then
    try_except
      (call_raising (S := sig) (ToolCall tool_name arguments) (fun x => x))
      (fun e => ret ("Error executing " ++ tool_name ++ ": " ++ exn_msg e))
  else ret ("Tool " ++ tool_name ++ " not found").

(** The variables of the first pass over [response.content]. *)
Record pass : Type := {
  final_response : string;
  tool_calls_handled : bool;
  tool_results : list pyval;
  assistant_content : list pyval
}.

Definition text_item (text : string) : pyval :=
  PDict [("type", PStr "text"); ("text", PStr text)].

Definition tool_use_item (id name : string) (input : pyval) : pyval :=
  PDict [("type", PStr "tool_use"); ("id", PStr id); ("name", PStr name);
         ("input", input)].

Definition tool_result_item (id content : string) : pyval :=
  PDict [("type", PStr "tool_result"); ("tool_use_id", PStr id);
         ("content", PStr content)].

(** Lines 177-200. *)
Fixpoint first_pass (content : list block) (st : pass) : M sig pass :=
  match content with
  | [] => ret st
  | TextBlock text :: rest =>
      first_pass rest
        {| final_response := final_response st ++ text;
           tool_calls_handled := tool_calls_handled st;
           tool_results := tool_results st;
           assistant_content := (assistant_content st ++ [text_item text])%list |}
  | ToolUseBlock id name input :: rest =>
      tool_result <- _execute_tool name input ;;
      first_pass rest
        {| final_response := final_response st;
           tool_calls_handled := true;
           tool_results := (tool_results st ++ [tool_result_item id tool_result])%list;
           assistant_content :=
             (assistant_content st ++ [tool_use_item id name input])%list |}
  | OtherBlock _ _ :: rest => first_pass rest st
  end.

Definition user_message (content : pyval) : pyval :=
  PDict [("role", PStr "user"); ("content", content)].

Definition assistant_message (content : pyval) : pyval :=
  PDict [("role", PStr "assistant"); ("content", content)].

(** Lines 109-230: the analysis, or the text of what went wrong. *)
Definition analysis (self : CustomBearAgent) (query : pyval) : M sig string :=
  let messages := [user_message query] in
  try_except
    (response <- call_raising (S := sig)
                   (MessagesCreate (model self) 4096 BEAR_SYSTEM_PROMPT messages
                                   (Some tools_schema))
                   (fun x => x) ;;
     st <- first_pass response
             {| final_response := "";
                tool_calls_handled := false;
                tool_results := [];
                assistant_content := [] |} ;;
     final_response <-
       (if tool_calls_handled st then
          let messages :=
            (messages ++ [assistant_message (PList (assistant_content st));
                          user_message (PList (tool_results st))])%list in
          response <- call_raising (S := sig)
                        (MessagesCreate (model self) 4096 BEAR_SYSTEM_PROMPT messages
                                        None)
                        (fun x => x) ;;
          lift (first_text response)
        else ret (final_response st)) ;;
     ret (if String.eqb final_response "" then "Unable to generate analysis."
          else final_response))
    (fun e => ret ("Error generating response: " ++ exn_msg e)).

(** [run_async].  Its lines 90-99 are those of the orchestrator. *)
Definition run_async (self : CustomBearAgent) (parent_context : pyval) : M sig unit :=
  query <- lift (Orchestrator.user_query parent_context) ;;
  if negb (truthy query) then
    call (S := sig) (Yield (Orchestrator.mkEvent "agent" "No query provided")) ;;
    ret tt
  else
    final_response <- analysis self query ;;
    call (S := sig) (Yield (Orchestrator.mkEvent "agent" final_response)) ;;
    ret tt.

End BearAgent.

(** ** Vocabulary of the specification *)

Module Spec.
Import Py Eff.

(** [needle] occurs in [hay]. *)
Definition substring (needle hay : string) : Prop :=
  exists a b, hay = a ++ needle ++ b.

(** Textual keywords that route to both analysts without a model call. *)
Definition fast_path_keywords : list string :=
  ["analyze"; "analysis"; "both"; "bull and bear"; "pros and cons";
   "opportunities and risks"].

(** Shape (1) of a specialist's reply: [result.artifacts[0].parts[0]] is a
    part of kind text with a [text] field. *)
Definition artifact_text (body text : pyval) : Prop :=
  exists top r artifact more_artifacts part more_parts,
    body = PDict top /\
    lookup "result" top = Some (PDict r) /\
    lookup "artifacts" r = Some (PList (PDict artifact :: more_artifacts)) /\
    lookup "parts" artifact = Some (PList (PDict part :: more_parts)) /\
    lookup "kind" part = Some (PStr "text") /\
    lookup "text" part = Some text.

(** Shape (2): [result.status.message.parts[].text], without artifacts. *)
Definition status_message_body (text : string) : pyval :=
  PDict [("result",
          PDict [("status",
                  PDict [("message",
                          PDict [("parts", PList [PDict [("text", PStr text)]])])])])].

(** The ways an invocation of a specialist fails, read off the answer to
    the POST. *)
Inductive invocation_failed : result Orchestrator.http_response -> Prop :=
| transport_failure (e : exn) :
    invocation_failed (Raise e)
| status_failure (r : Orchestrator.http_response) :
    ~ (200 <= Orchestrator.status_code r <= 299)%Z ->
    invocation_failed (Ok r)
| body_not_json (r : Orchestrator.http_response) (e : exn) :
    Orchestrator.json r = Raise e ->
    invocation_failed (Ok r)
| fields_missing (r : Orchestrator.http_response) (body : pyval) :
    Orchestrator.json r = Ok body ->
    (forall text, ~ artifact_text body text) ->
    invocation_failed (Ok r).

(** No part of the user content carries a non-empty text. *)
Definition part_without_text (part : pyval) : Prop :=
  forall t, getattr_opt part "text" = Some t -> truthy t = false.

Inductive no_user_text : pyval -> Prop :=
| no_user_content (user_content : pyval) :
    truthy user_content = false ->
    no_user_text user_content
| no_text_in_parts (cls : string) (attrs : list (string * pyval)) (parts : list pyval) :
    lookup "parts" attrs = Some (PList parts) ->
    Forall part_without_text parts ->
    no_user_text (PObj cls attrs)
| no_text_of_its_own (cls : string) (attrs : list (string * pyval)) :
    lookup "parts" attrs = None ->
    (forall t, lookup "text" attrs = Some t -> truthy t = false) ->
    no_user_text (PObj cls attrs).

(** The session state holds no non-empty query. *)
Inductive no_state_query (parent_context : pyval) : Prop :=
| no_session :
    getattr_opt parent_context "session" = None ->
    no_state_query parent_context
| no_state (session : pyval) :
    getattr_opt parent_context "session" = Some session ->
    getattr_opt session "state" = None ->
    no_state_query parent_context
| no_query_in_state (session : pyval) (state : list (string * pyval)) :
    getattr_opt parent_context "session" = Some session ->
    getattr_opt session "state" = Some (PDict state) ->
    (forall q, lookup "query" state = Some q -> truthy q = false) ->
    no_state_query parent_context.

Definition no_query_text (parent_context : pyval) : Prop :=
  (exists user_content,
     getattr_opt parent_context "user_content" = Some user_content /\
     no_user_text user_content) /\
  no_state_query parent_context.

(** The parts of the message of a message/send envelope: [params], [message]
    and [parts] are where the protocol puts them or are left out. *)
Definition field_or (d : list (string * pyval)) (k : string) (default : pyval)
    : pyval :=
  match lookup k d with Some v => v | None => default end.

Definition message_parts (body : pyval) (parts : list pyval) : Prop :=
  exists top params message,
    body = PDict top /\
    field_or top "params" (PDict []) = PDict params /\
    field_or params "message" (PDict []) = PDict message /\
    field_or message "parts" (PList []) = PList parts.

Definition is_object (v : pyval) : Prop := exists d, v = PDict d.

(** A part, a JSON object, has no non-empty [text]. *)
Definition no_text_field (part : pyval) : Prop :=
  is_object part /\
  forall d t, part = PDict d -> lookup "text" d = Some t -> truthy t = false.

(** The parts the handler's loop visits: [params] and [message] are JSON
    objects or left out, and [parts], a list when left out, can be iterated. *)
Definition message_items (body : pyval) (items : list pyval) : Prop :=
  exists top params message,
    body = PDict top /\
    field_or top "params" (PDict []) = PDict params /\
    field_or params "message" (PDict []) = PDict message /\
    py_iter (field_or message "parts" (PList [])) = Ok items.

(** A part in which the handler finds no text: the test for the key fails
    (an object without it, a list or a string without the word), or the
    part is an object whose [text] is empty. *)
Definition without_text (part : pyval) : Prop :=
  py_in "text" part = Ok false \/
  exists d t, part = PDict d /\ lookup "text" d = Some t /\ truthy t = false.

(** A value the JSON response can carry: [json.dumps] finds nothing in it
    that it refuses. *)
Definition renders (v : pyval) : Prop := BullServer.first_unrenderable v = None.

(** The id a JSON-RPC reply echoes. *)
Definition request_id (body : pyval) : pyval :=
  match body with
  | PDict top => field_or top "id" PNone
  | _ => PNone
  end.

(** What a run of the orchestrator did, read off its trace: the URLs it
    posted to, the completions it asked for, the events it yielded. *)
Definition post_urls (t : trace Orchestrator.sig) : list string :=
  flat_map (fun x => match projT1 x with
                     | Orchestrator.Post url _ _ _ => [url]
                     | _ => []
                     end) t.

Definition completions (t : trace Orchestrator.sig) : list Z :=
  flat_map (fun x => match projT1 x with
                     | Orchestrator.MessagesCreate _ max_tokens _ => [max_tokens]
                     | _ => []
                     end) t.

Definition yielded (t : trace Orchestrator.sig) : list Orchestrator.Event :=
  flat_map (fun x => match projT1 x with
                     | Orchestrator.Yield e => [e]
                     | _ => []
                     end) t.

(** The three routing decisions. *)
Definition routing_decision (agents : list string) : Prop :=
  agents = ["bull_analyst"; "bear_analyst"] \/
  agents = ["bear_analyst"] \/
  agents = ["bull_analyst"].

(** A message of the agent's result without a non-empty content. *)
Definition no_content (m : pyval) : Prop :=
  forall x, getattr_opt m "content" = Some x -> truthy x = false.

(** The text the handler answers with, given what the agent returned. *)
Definition response_text_of (result text : pyval) : Prop :=
  (py_in "messages" result = Ok false /\ text = PStr "") \/
  (exists msgs reversed,
     py_in "messages" result = Ok true /\
     getitem result "messages" = Ok msgs /\
     py_reversed msgs = Ok reversed /\
     text = BullServer.last_content reversed).

(** The query the handler finds in a body. *)
Definition query_of (body query : pyval) : Prop :=
  exists params message parts items,
    get body "params" (PDict []) = Ok params /\
    get params "message" (PDict []) = Ok message /\
    get message "parts" (PList []) = Ok parts /\
    py_iter parts = Ok items /\
    BullServer.first_text_part items = Ok query.

(** What the agent was asked and what it answered, for an entry of a trace
    of the handler that is an invocation. *)
Definition invocation (x : entry BullServer.sig) : option (pyval * result pyval) :=
  match x with
  | existT _ e a =>
      match e return rep BullServer.sig e -> option (pyval * result pyval) with
      | BullServer.AgentInvoke query => fun a => Some (query, a)
      | BullServer.Uuid4 => fun _ => None
      end a
  end.

Definition invocations (t : trace BullServer.sig) : list (pyval * result pyval) :=
  flat_map (fun x => match invocation x with Some i => [i] | None => [] end) t.

(** A part, a JSON object, without the key [text]. *)
Definition no_text_key (part : pyval) : Prop :=
  exists d, part = PDict d /\ lookup "text" d = None.

(** An artifact, a JSON object, that carries no text: it has no parts, or
    none of its parts has the key. *)
Definition artifact_without_text (artifact : pyval) : Prop :=
  exists d, artifact = PDict d /\
            (lookup "parts" d = None \/
             exists parts, lookup "parts" d = Some (PList parts) /\
                           Forall no_text_key parts).

(** Shape (2) of a reply: the task has no artifacts, or an empty value for
    them, or artifacts none of which carries a text, and [text] is the text
    of the first part of [result.status.message.parts] that has one.  The
    reply, the task, the status and the message may hold any other keys. *)
Definition status_text (body text : pyval) : Prop :=
  exists top task status message skipped part rest,
    body = PDict top /\
    lookup "result" top = Some (PDict task) /\
    (forall a, lookup "artifacts" task = Some a ->
               truthy a = false \/
               exists artifacts, a = PList artifacts /\
                                 Forall artifact_without_text artifacts) /\
    lookup "status" task = Some (PDict status) /\
    lookup "message" status = Some (PDict message) /\
    lookup "parts" message = Some (PList (skipped ++ PDict part :: rest)%list) /\
    Forall no_text_key skipped /\
    lookup "text" part = Some text.

(** The steps of a setup that touch the global propagator or the global
    tracer provider, in order. *)
Inductive setup_step : Type := Propagator | Registered | ProviderSet.

Definition setup_steps (t : trace TracingSetup.sig) : list setup_step :=
  flat_map (fun x => match projT1 x with
                     | TracingSetup.SetGlobalTextmap _ => [Propagator]
                     | TracingSetup.Register _ _ _ => [Registered]
                     | TracingSetup.SetTracerProvider _ => [ProviderSet]
                     | _ => []
                     end) t.

(** The credentials a setup sends out, with the calls that carry them. *)
Definition credential_uses (t : trace TracingSetup.sig) : nat :=
  List.length
    (flat_map (fun x => match projT1 x with
                        | TracingSetup.Register _ _ _ => [tt]
                        | TracingSetup.NewOTLPSpanExporter _ _ => [tt]
                        | _ => []
                        end) t).

Definition credentials_set (environ : list (string * string)) : Prop :=
  exists key space,
    lookup "ARIZE_API_KEY" environ = Some key /\ key <> "" /\
    lookup "ARIZE_SPACE_ID" environ = Some space /\ space <> "".

(** The exceptions the imports and [register] of a setup raised. *)
Definition setup_failure (x : entry TracingSetup.sig) : list exn :=
  match x with
  | existT _ e a =>
      match e return rep TracingSetup.sig e -> list exn with
      | TracingSetup.Import _ =>
          fun a => match a with Raise err => [err] | Ok _ => [] end
      | TracingSetup.Register _ _ _ =>
          fun a => match a with Raise err => [err] | Ok _ => [] end
      | _ => fun _ => []
      end a
  end.

Definition setup_failures (t : trace TracingSetup.sig) : list exn :=
  flat_map setup_failure t.

(** A header name or value that the middleware can turn into a [str]. *)
Definition decodable (h : Tracing.hval) : Prop :=
  match h with
  | Tracing.HBytes b => utf8_valid b = true
  | Tracing.HStr _ => True
  end.

Definition header_decodable (kv : Tracing.hval * Tracing.hval) : Prop :=
  decodable (fst kv) /\ decodable (snd kv).

(** The bytes or text of a header name or value. *)
Definition hval_text (h : Tracing.hval) : string :=
  match h with
  | Tracing.HBytes b => b
  | Tracing.HStr s => s
  end.

(** All bytes below 128. *)
Fixpoint is_ascii (s : string) : bool :=
  match s with
  | EmptyString => true
  | String c s' => (N_of_ascii c <? 128)%N && is_ascii s'
  end.

(** The calls to the tracing API in a run of the middleware. *)
Definition spans_started (t : trace Tracing.sig) : nat :=
  List.length
    (flat_map (fun x => match projT1 x with
                        | Tracing.StartSpan _ _ _ => [tt]
                        | _ => []
                        end) t).

Definition app_calls (t : trace Tracing.sig) : nat :=
  List.length
    (flat_map (fun x => match projT1 x with
                        | Tracing.App _ => [tt]
                        | _ => []
                        end) t).

(** The POSTs of a run of the client, each with what it was answered. *)
Definition cli_post (x : entry Cli.sig)
    : list (string * Z * pyval * list (string * string) * Cli.post_outcome) :=
  match x with
  | existT _ e a =>
      match e return rep Cli.sig e -> list (string * Z * pyval * list (string * string)
                                            * Cli.post_outcome) with
      | Cli.Post url timeout body headers =>
          fun a => [(url, timeout, body, headers, a)]
      | _ => fun _ => []
      end a
  end.

Definition cli_posts (t : trace Cli.sig)
    : list (string * Z * pyval * list (string * string) * Cli.post_outcome) :=
  flat_map cli_post t.

(** The lower-casing leaves lower-case ASCII letters and blanks where they
    are, whatever stands around them. *)
Definition plain (c : ascii) : bool :=
  let n := N_of_ascii c in
  ((97 <=? n)%N && (n <=? 122)%N) || (n =? 32)%N.

Fixpoint all_plain (s : string) : bool :=
  match s with
  | EmptyString => true
  | String c s' => plain c && all_plain s'
  end.

Definition lower_keeps_plain_text (lower : string -> string) : Prop :=
  forall before word after,
    all_plain word = true ->
    exists before' after', lower (before ++ word ++ after) = before' ++ word ++ after'.

(** What the client returns, given how the POST went. *)
Definition answer_for {B : Cli.Builtins} (outcome : Cli.post_outcome) : pyval :=
  match outcome with
  | Cli.TimedOut _ =>
      Cli.failure "Request timed out. The analysis is taking longer than expected."
  | Cli.Failed e => Cli.failure (exn_msg e)
  | Cli.Responded response =>
      if Orchestrator.is_success response then
        match Orchestrator.json response with
        | Raise e => Cli.failure (exn_msg e)
        | Ok res =>
            match Cli.read_reply res with
            | Raise e => Cli.failure (exn_msg e)
            | Ok (Cli.InArtifacts text) =>
                match Cli.py_len text with
                | Ok _ => Cli.success text
                | Raise e => Cli.failure (exn_msg e)
                end
            | Ok (Cli.InStatus text) => Cli.success text
            | Ok Cli.Nowhere => Cli.success (PStr (Cli.json_dumps res))
            end
        end
      else Cli.failure ("HTTP error: " ++ Cli.decimal (Orchestrator.status_code response))
  end.

(** What a run of the bear analyst did: the completions it asked for, each
    with its messages, whether tools were offered and what came back; the
    tools it ran; the events it yielded. *)
Definition bear_completion (x : entry BearAgent.sig)
    : list (list pyval * option pyval * result (list BearAgent.block)) :=
  match x with
  | existT _ e a =>
      match e return rep BearAgent.sig e
                     -> list (list pyval * option pyval * result (list BearAgent.block))
      with
      | BearAgent.MessagesCreate _ _ _ messages tools =>
          fun a => [(messages, tools, a)]
      | _ => fun _ => []
      end a
  end.

Definition bear_completions (t : trace BearAgent.sig)
    : list (list pyval * option pyval * result (list BearAgent.block)) :=
  flat_map bear_completion t.

Definition bear_tools_run (t : trace BearAgent.sig) : list string :=
  flat_map (fun x => match projT1 x with
                     | BearAgent.ToolCall name _ => [name]
                     | _ => []
                     end) t.

Definition bear_yielded (t : trace BearAgent.sig) : list Orchestrator.Event :=
  flat_map (fun x => match projT1 x with
                     | BearAgent.Yield e => [e]
                     | _ => []
                     end) t.

(** Of the blocks of a reply: the texts joined, the ids of the tool uses,
    whether there is a tool use, and the content recorded for the
    assistant's turn. *)
Fixpoint texts (content : list BearAgent.block) : string :=
  match content with
  | [] => ""
  | BearAgent.TextBlock text :: rest => text ++ texts rest
  | _ :: rest => texts rest
  end.

Fixpoint tool_use_ids (content : list BearAgent.block) : list string :=
  match content with
  | [] => []
  | BearAgent.ToolUseBlock id _ _ :: rest => id :: tool_use_ids rest
  | _ :: rest => tool_use_ids rest
  end.

Fixpoint tool_use_names (content : list BearAgent.block) : list string :=
  match content with
  | [] => []
  | BearAgent.ToolUseBlock _ name _ :: rest => name :: tool_use_names rest
  | _ :: rest => tool_use_names rest
  end.

(** [tool_name in self.tools] *)
Definition known_tool (name : string) : bool :=
  existsb (String.eqb name) BearAgent.tool_names.

Definition has_tool_use (content : list BearAgent.block) : bool :=
  match tool_use_ids content with [] => false | _ => true end.

Fixpoint recorded (content : list BearAgent.block) : list pyval :=
  match content with
  | [] => []
  | BearAgent.TextBlock text :: rest => BearAgent.text_item text :: recorded rest
  | BearAgent.ToolUseBlock id name input :: rest =>
      BearAgent.tool_use_item id name input :: recorded rest
  | BearAgent.OtherBlock _ _ :: rest => recorded rest
  end.

(** The analysis yielded for a reply made of text only. *)
Definition text_answer (content : list BearAgent.block) : string :=
  match texts content with
  | "" => "Unable to generate analysis."
  | text => text
  end.

(** The analysis yielded after the second completion. *)
Definition final_answer (second_answer : result (list BearAgent.block)) : string :=
  match second_answer with
  | Raise e => "Error generating response: " ++ exn_msg e
  | Ok reply =>
      match BearAgent.first_text reply with
      | Raise e => "Error generating response: " ++ exn_msg e
      | Ok "" => "Unable to generate analysis."
      | Ok text => text
      end
  end.

(** The id a tool result answers. *)
Definition answered_id (tool_result : pyval) : option pyval :=
  match tool_result with
  | PDict d => lookup "tool_use_id" d
  | _ => None
  end.

End Spec.

(** ** Concrete inputs and runs *)

Module Scenario.
Import Py Eff.

Definition agent : Orchestrator.CustomOrchestratorAgent :=
  Orchestrator.create_orchestrator [].

Definition json_headers : list (string * string) :=
  [("Content-Type", "application/json")].

(** The bear analyst cannot be reached. *)
Definition unreachable_run : trace Orchestrator.sig :=
  [answered (S := Orchestrator.sig) Orchestrator.Uuid4 "id-1";
   answered (S := Orchestrator.sig) Orchestrator.Uuid4 "msg-1";
   answered (S := Orchestrator.sig)
     (Orchestrator.Post "http://localhost:8002/" 120
        (Orchestrator.a2a_payload "id-1" "msg-1" "What are the risks for AAPL?")
        json_headers)
     (Raise (Exn "ConnectError" "All connection attempts failed"));
   answered (S := Orchestrator.sig)
     (Orchestrator.Print
        "Error calling agent at http://localhost:8002/: All connection attempts failed")
     tt].

(** The model names the bear analyst, in capitals and with blanks around. *)
Definition bear_classification : trace Orchestrator.sig :=
  [answered (S := Orchestrator.sig)
     (Orchestrator.MessagesCreate "claude-sonnet-4-20250514" 50
        (Orchestrator.routing_prompt "What are the risks for AAPL?"))
     (Ok [Orchestrator.TextBlock " Bear_Analyst "])].

(** The fallback completion fails. *)
Definition failed_fallback : trace Orchestrator.sig :=
  [answered (S := Orchestrator.sig)
     (Orchestrator.MessagesCreate "claude-sonnet-4-20250514" 4096
        (Orchestrator.full_prompt "Tell me about AAPL"))
     (Raise (Exn "APIConnectionError" "Connection error."))].

(** An invocation context whose only part has an empty text. *)
Definition empty_context : pyval :=
  PObj "InvocationContext"
    [("user_content",
      PObj "Content" [("parts", PList [PObj "Part" [("text", PStr "")]]);
                      ("role", PStr "user")]);
     ("session", PObj "Session" [("state", PDict [])])].

(** An invocation context whose user content has no parts at all:
    [Content(role="user")], whose [parts] is [None]. *)
Definition no_parts_context : pyval :=
  PObj "InvocationContext"
    [("user_content", PObj "Content" [("parts", PNone); ("role", PStr "user")]);
     ("session", PObj "Session" [("state", PDict [])])].

(** A message/send request whose only part is a data part. *)
Definition data_only_body : pyval :=
  PDict [("jsonrpc", PStr "2.0");
         ("method", PStr "message/send");
         ("id", PStr "7");
         ("params",
          PDict [("message",
                  PDict [("messageId", PStr "m-1");
                         ("parts", PList [PDict [("kind", PStr "data")]]);
                         ("role", PStr "user")])])].

(** The wording of the interpreter the scenarios run on. *)
Definition json_texts : BullServer.Builtins :=
  {| BullServer.float_error :=
       fun _ => "Out of range float values are not JSON compliant" |}.

(** A message/send request whose only part is [null]. *)
Definition null_part_body : pyval :=
  PDict [("jsonrpc", PStr "2.0");
         ("method", PStr "message/send");
         ("id", PStr "7");
         ("params",
          PDict [("message",
                  PDict [("messageId", PStr "m-1");
                         ("parts", PList [PNone]);
                         ("role", PStr "user")])])].

(** The request with the data part under the id [NaN], which [json.loads]
    accepts. *)
Definition nan_id_body : pyval :=
  PDict [("jsonrpc", PStr "2.0");
         ("method", PStr "message/send");
         ("id", PFloat S754_nan);
         ("params",
          PDict [("message",
                  PDict [("messageId", PStr "m-1");
                         ("parts", PList [PDict [("kind", PStr "data")]]);
                         ("role", PStr "user")])])].

(** An HTTP request to the root path with a header value that is not
    UTF-8: the single byte 0xFF. *)
Definition latin1_header_scope : Tracing.Scope :=
  {| Tracing.type_ := "http";
     Tracing.path := Some "/";
     Tracing.headers :=
       Some [(Tracing.HBytes "x-client",
              Tracing.HBytes (String (ascii_of_nat 255) EmptyString))] |}.

(** An invocation context whose only part asks for an analysis. *)
Definition analyze_context : pyval :=
  PObj "InvocationContext"
    [("user_content",
      PObj "Content" [("parts", PList [PObj "Part" [("text", PStr "Analyze NVDA")]]);
                      ("role", PStr "user")]);
     ("session", PObj "Session" [("state", PDict [])])].

(** What the bull analyst's server answers on a result whose last message
    says that momentum is strong. *)
Definition bull_reply : pyval :=
  BullServer.content
    (BullServer.success_response (PStr "id-1") "ctx-1" "task-1" "art-1" "msg-9"
       (PStr "Momentum is strong")).

(** The bull analyst answers, the bear analyst cannot be reached. *)
Definition bull_only_run : trace Orchestrator.sig :=
  [answered (S := Orchestrator.sig) Orchestrator.Uuid4 "id-1";
   answered (S := Orchestrator.sig) Orchestrator.Uuid4 "msg-1";
   answered (S := Orchestrator.sig)
     (Orchestrator.Post "http://localhost:8001/" 120
        (Orchestrator.a2a_payload "id-1" "msg-1" "Analyze NVDA") json_headers)
     (Ok (Orchestrator.Response 200 "OK" (Ok bull_reply)));
   answered (S := Orchestrator.sig) Orchestrator.Uuid4 "id-2";
   answered (S := Orchestrator.sig) Orchestrator.Uuid4 "msg-2";
   answered (S := Orchestrator.sig)
     (Orchestrator.Post "http://localhost:8002/" 120
        (Orchestrator.a2a_payload "id-2" "msg-2" "Analyze NVDA") json_headers)
     (Raise (Exn "ConnectError" "All connection attempts failed"));
   answered (S := Orchestrator.sig)
     (Orchestrator.Print
        "Error calling agent at http://localhost:8002/: All connection attempts failed")
     tt;
   answered (S := Orchestrator.sig)
     (Orchestrator.Yield
        (Orchestrator.mkEvent "agent"
           ("## Bull Case" ++ nl ++ nl ++ "Momentum is strong")))
     tt].

(** Neither analyst can be reached, and the orchestrator answers itself. *)
Definition fallback_run : trace Orchestrator.sig :=
  [answered (S := Orchestrator.sig) Orchestrator.Uuid4 "id-1";
   answered (S := Orchestrator.sig) Orchestrator.Uuid4 "msg-1";
   answered (S := Orchestrator.sig)
     (Orchestrator.Post "http://localhost:8001/" 120
        (Orchestrator.a2a_payload "id-1" "msg-1" "Analyze NVDA") json_headers)
     (Raise (Exn "ConnectError" "All connection attempts failed"));
   answered (S := Orchestrator.sig)
     (Orchestrator.Print
        "Error calling agent at http://localhost:8001/: All connection attempts failed")
     tt;
   answered (S := Orchestrator.sig) Orchestrator.Uuid4 "id-2";
   answered (S := Orchestrator.sig) Orchestrator.Uuid4 "msg-2";
   answered (S := Orchestrator.sig)
     (Orchestrator.Post "http://localhost:8002/" 120
        (Orchestrator.a2a_payload "id-2" "msg-2" "Analyze NVDA") json_headers)
     (Raise (Exn "ConnectError" "All connection attempts failed"));
   answered (S := Orchestrator.sig)
     (Orchestrator.Print
        "Error calling agent at http://localhost:8002/: All connection attempts failed")
     tt;
   answered (S := Orchestrator.sig)
     (Orchestrator.MessagesCreate "claude-sonnet-4-20250514" 4096
        (Orchestrator.full_prompt "Analyze NVDA"))
     (Ok [Orchestrator.TextBlock "NVDA is fairly valued."]);
   answered (S := Orchestrator.sig)
     (Orchestrator.Yield (Orchestrator.mkEvent "agent" "NVDA is fairly valued."))
     tt].

(** The request the orchestrator sends to an analyst. *)
Definition analyze_request : BullServer.Request :=
  {| BullServer.request_json :=
       Ok (Orchestrator.a2a_payload "id-1" "msg-1" "Analyze NVDA") |}.

(** The state the bull analyst's graph ends in: the question, the answer,
    and a last message without content. *)
Definition analyst_result : pyval :=
  PDict [("messages",
          PList [PObj "HumanMessage" [("content", PStr "Analyze NVDA")];
                 PObj "AIMessage" [("content", PStr "Momentum is strong")];
                 PObj "AIMessage" [("content", PStr "")]])].

(** The handler invokes the agent and draws its four identifiers. *)
Definition served_run : trace BullServer.sig :=
  [answered (S := BullServer.sig) (BullServer.AgentInvoke (PStr "Analyze NVDA"))
     (Ok analyst_result);
   answered (S := BullServer.sig) BullServer.Uuid4 "ctx-1";
   answered (S := BullServer.sig) BullServer.Uuid4 "task-1";
   answered (S := BullServer.sig) BullServer.Uuid4 "art-1";
   answered (S := BullServer.sig) BullServer.Uuid4 "msg-9"].

(** The agent raises. *)
Definition overloaded_run : trace BullServer.sig :=
  [answered (S := BullServer.sig) (BullServer.AgentInvoke (PStr "Analyze NVDA"))
     (Raise (Exn "RuntimeError" "model overloaded"))].

(** A message whose parts are a data part, a part with an empty text and a
    part with the question. *)
Definition empty_text_first_body : pyval :=
  PDict [("jsonrpc", PStr "2.0");
         ("method", PStr "message/send");
         ("id", PStr "8");
         ("params",
          PDict [("message",
                  PDict [("messageId", PStr "m-2");
                         ("parts", PList [PDict [("kind", PStr "data")];
                                          PDict [("text", PStr "")];
                                          PDict [("text", PStr "Analyze NVDA")]]);
                         ("role", PStr "user")])])].

(** The environment of a process that has the credentials. *)
Definition arize_environ : list (string * string) :=
  [("ARIZE_API_KEY", "key-1"); ("ARIZE_SPACE_ID", "space-1")].

(** A setup with credentials: [register] installs the provider. *)
Definition registered_setup : trace TracingSetup.sig :=
  [answered (S := TracingSetup.sig)
     (TracingSetup.SetGlobalTextmap TracingSetup.w3c_propagators) tt;
   answered (S := TracingSetup.sig) (TracingSetup.Import "arize.otel") (Ok tt);
   answered (S := TracingSetup.sig)
     (TracingSetup.Register "space-1" "key-1" "financial-agents") (Ok tt);
   answered (S := TracingSetup.sig)
     (TracingSetup.SetGlobalTextmap TracingSetup.w3c_propagators) tt;
   answered (S := TracingSetup.sig) TracingSetup.InstrumentHttpx (Ok tt);
   answered (S := TracingSetup.sig) TracingSetup.InstrumentAiohttp (Ok tt);
   answered (S := TracingSetup.sig) (TracingSetup.Print "Tracing: bull-agent") tt;
   answered (S := TracingSetup.sig) (TracingSetup.GetTracer "bull-agent") 7%N].

(** A setup with credentials in which [register] raises. *)
Definition failed_register : trace TracingSetup.sig :=
  [answered (S := TracingSetup.sig)
     (TracingSetup.SetGlobalTextmap TracingSetup.w3c_propagators) tt;
   answered (S := TracingSetup.sig) (TracingSetup.Import "arize.otel") (Ok tt);
   answered (S := TracingSetup.sig)
     (TracingSetup.Register "space-1" "key-1" "financial-agents")
     (Raise (Exn "ConnectionError" "otlp.arize.com unreachable"))].

(** A setup without credentials, in a process without aiohttp. *)
Definition basic_setup : trace TracingSetup.sig :=
  [answered (S := TracingSetup.sig)
     (TracingSetup.SetGlobalTextmap TracingSetup.w3c_propagators) tt;
   answered (S := TracingSetup.sig)
     (TracingSetup.Print "Warning: Arize credentials not set for bull-agent") tt;
   answered (S := TracingSetup.sig) (TracingSetup.Import "opentelemetry.sdk.trace")
     (Ok tt);
   answered (S := TracingSetup.sig)
     (TracingSetup.Import "opentelemetry.sdk.resources") (Ok tt);
   answered (S := TracingSetup.sig)
     (TracingSetup.NewTracerProvider [("service.name", "bull-agent")]) 1%N;
   answered (S := TracingSetup.sig) (TracingSetup.SetTracerProvider 1) tt;
   answered (S := TracingSetup.sig) TracingSetup.InstrumentHttpx (Ok tt);
   answered (S := TracingSetup.sig) TracingSetup.InstrumentAiohttp
     (Raise (Exn "ModuleNotFoundError" "No module named aiohttp"));
   answered (S := TracingSetup.sig) (TracingSetup.Print "Tracing: bull-agent") tt;
   answered (S := TracingSetup.sig) (TracingSetup.GetTracer "bull-agent") 7%N].

(** Headers in which one name comes twice. *)
Definition repeated_headers : list (Tracing.hval * Tracing.hval) :=
  [(Tracing.HBytes "x-tenant", Tracing.HBytes "a");
   (Tracing.HBytes "traceparent", Tracing.HStr "00-0af7-b7ad-01");
   (Tracing.HBytes "x-tenant", Tracing.HBytes "b")].

(** An HTTP request to the root path that carries a trace parent. *)
Definition traced_scope : Tracing.Scope :=
  {| Tracing.type_ := "http";
     Tracing.path := Some "/";
     Tracing.headers :=
       Some [(Tracing.HBytes "traceparent", Tracing.HBytes "00-0af7-b7ad-01")] |}.

Definition bull_middleware : Tracing.TracingMiddleware :=
  {| Tracing.service_name := "bull-agent" |}.

Definition server_span_context : Tracing.SpanContext :=
  {| Tracing.trace_id := 2807; Tracing.span_id := 47021; Tracing.is_valid := true |}.

(** The middleware wraps the application, which raises. *)
Definition traced_run : trace Tracing.sig :=
  [answered (S := Tracing.sig)
     (Tracing.Extract [("traceparent", "00-0af7-b7ad-01")]) 3%N;
   answered (S := Tracing.sig) (Tracing.StartSpan "bull-agent" 3 Tracing.SERVER) 4%N;
   answered (S := Tracing.sig) (Tracing.SetAttribute 4 "service.name" "bull-agent") tt;
   answered (S := Tracing.sig) (Tracing.SetAttribute 4 "http.path" "/") tt;
   answered (S := Tracing.sig) (Tracing.GetSpanContext 4) server_span_context;
   answered (S := Tracing.sig)
     (Tracing.Print
        (Tracing.log_line bull_middleware server_span_context
           [("traceparent", "00-0af7-b7ad-01")]))
     tt;
   answered (S := Tracing.sig) (Tracing.App traced_scope)
     (Raise (Exn "RuntimeError" "handler failed"));
   answered (S := Tracing.sig)
     (Tracing.EndSpan 4 (Some (Exn "RuntimeError" "handler failed"))) tt].

(** Built-ins for the runs of the client: upper-casing on ASCII.  None of
    the scenarios reaches [json.dumps], which stays the interpreter's. *)
Definition ascii_upper (c : ascii) : ascii :=
  let n := N_of_ascii c in
  if (97 <=? n)%N && (n <=? 122)%N then ascii_of_N (n - 32) else c.

Fixpoint upper_ascii (s : string) : string :=
  match s with
  | EmptyString => EmptyString
  | String c s' => String (ascii_upper c) (upper_ascii s')
  end.

Definition cli_builtins : Cli.Builtins :=
  {| Cli.upper := upper_ascii; Cli.json_dumps := fun _ => "" |}.

Definition client_span_context : Tracing.SpanContext :=
  {| Tracing.trace_id := 2807; Tracing.span_id := 9; Tracing.is_valid := true |}.

Definition injected_headers : list (string * string) :=
  [("Content-Type", "application/json"); ("traceparent", "00-0af7-0009-01")].

(** The first six events of every run of the client. *)
Definition client_prelude (outcome : Cli.post_outcome) : trace Cli.sig :=
  [answered (S := Cli.sig) (Cli.StartSpan "cli" Tracing.CLIENT) 1%N;
   answered (S := Cli.sig) (Cli.SetAttribute 1 "query" (PStr "Analyze NVDA")) tt;
   answered (S := Cli.sig) (Cli.GetSpanContext 1) client_span_context;
   answered (S := Cli.sig)
     (Cli.Print ("  [cli] trace="
                 ++ slice_to 8 (format_0x 32 (Tracing.trace_id client_span_context))
                 ++ "..."))
     tt;
   answered (S := Cli.sig) (Cli.Inject [("Content-Type", "application/json")])
     injected_headers;
   answered (S := Cli.sig) Cli.Uuid4 "msg-1";
   answered (S := Cli.sig)
     (Cli.Post "http://localhost:8000/" 180
        (Orchestrator.a2a_payload "1" "msg-1" "Analyze NVDA") injected_headers)
     outcome].

(** The orchestrator answers with an artifact. *)
Definition answered_client_run : trace Cli.sig :=
  (client_prelude (Cli.Responded (Orchestrator.Response 200 "OK" (Ok bull_reply)))
   ++ [answered (S := Cli.sig) (Cli.SetAttribute 1 "response.length" (PInt 18)) tt;
       answered (S := Cli.sig) (Cli.EndSpan 1) tt])%list.

(** A reply whose text is in the status message of the task, after a data
    part, among the keys such a reply usually has. *)
Definition status_reply : pyval :=
  PDict [("jsonrpc", PStr "2.0");
         ("id", PStr "1");
         ("result",
          PDict [("id", PStr "task-1");
                 ("kind", PStr "task");
                 ("artifacts", PList []);
                 ("status",
                  PDict [("state", PStr "completed");
                         ("message",
                          PDict [("role", PStr "agent");
                                 ("parts",
                                  PList [PDict [("kind", PStr "data")];
                                         PDict [("kind", PStr "text");
                                                ("text", PStr "hi")]])])])])].

(** The orchestrator answers with a status message. *)
Definition status_client_run : trace Cli.sig :=
  (client_prelude (Cli.Responded (Orchestrator.Response 200 "OK" (Ok status_reply)))
   ++ [answered (S := Cli.sig) (Cli.EndSpan 1) tt])%list.

(** The orchestrator does not answer in time. *)
Definition timed_out_client_run : trace Cli.sig :=
  (client_prelude (Cli.TimedOut (Exn "ReadTimeout" "timed out"))
   ++ [answered (S := Cli.sig) (Cli.SetAttribute 1 "error" (PStr "timeout")) tt;
       answered (S := Cli.sig) (Cli.EndSpan 1) tt])%list.

(** A first reply of the model to the bear analyst: a text, a use of a tool
    the agent has and a use of one it has not. *)
Definition tool_reply : list BearAgent.block :=
  [BearAgent.TextBlock "Let me check.";
   BearAgent.ToolUseBlock "toolu_1" "risk_scanner" (PDict [("symbol", PStr "NVDA")]);
   BearAgent.ToolUseBlock "toolu_2" "price_oracle" (PDict [])].

Definition bear_first_call : BearAgent.event :=
  BearAgent.MessagesCreate "claude-sonnet-4-20250514" 4096 BearAgent.BEAR_SYSTEM_PROMPT
    [BearAgent.user_message (PStr "Analyze NVDA")] (Some BearAgent.tools_schema).

(** The bear analyst runs the tool it has and asks again. *)
Definition tool_run : trace BearAgent.sig :=
  [answered (S := BearAgent.sig) bear_first_call (Ok tool_reply);
   answered (S := BearAgent.sig)
     (BearAgent.ToolCall "risk_scanner" (PDict [("symbol", PStr "NVDA")]))
     (Ok "risk_score: 7");
   answered (S := BearAgent.sig)
     (BearAgent.MessagesCreate "claude-sonnet-4-20250514" 4096
        BearAgent.BEAR_SYSTEM_PROMPT
        [BearAgent.user_message (PStr "Analyze NVDA");
         BearAgent.assistant_message (PList (Spec.recorded tool_reply));
         BearAgent.user_message
           (PList [BearAgent.tool_result_item "toolu_1" "risk_score: 7";
                   BearAgent.tool_result_item "toolu_2" "Tool price_oracle not found"])]
        None)
     (Ok [BearAgent.TextBlock "Valuation is stretched"]);
   answered (S := BearAgent.sig)
     (BearAgent.Yield (Orchestrator.mkEvent "agent" "Valuation is stretched")) tt].

(** The model answers the bear analyst in two text blocks. *)
Definition text_reply : list BearAgent.block :=
  [BearAgent.TextBlock "Valuation "; BearAgent.TextBlock "is stretched"].

Definition text_run : trace BearAgent.sig :=
  [answered (S := BearAgent.sig) bear_first_call (Ok text_reply);
   answered (S := BearAgent.sig)
     (BearAgent.Yield (Orchestrator.mkEvent "agent" "Valuation is stretched")) tt].

(** The model cannot be reached. *)
Definition unreachable_model_run : trace BearAgent.sig :=
  [answered (S := BearAgent.sig) bear_first_call
     (Raise (Exn "APIConnectionError" "Connection error."));
   answered (S := BearAgent.sig)
     (BearAgent.Yield
        (Orchestrator.mkEvent "agent" "Error generating response: Connection error."))
     tt].

End Scenario.

(** ** Facts about the Python values and about programs *)

Module PyFacts.
Import Py Eff Spec.

Lemma prefix_app (n h : string) :
  String.prefix n h = true <-> exists b, h = n ++ b.
Proof.
  revert h; induction n as [|c n IH]; intros h.
  - split; [intros _; exists h; reflexivity | destruct h; reflexivity].
  - destruct h as [|c' h]; simpl.
    + split; [discriminate | intros [b Hb]; discriminate].
    + destruct (Ascii.ascii_dec c c') as [->|Hne].
      * rewrite IH. split; intros [b Hb]; exists b.
        -- now rewrite Hb.
        -- now inversion Hb.
      * split; [discriminate | intros [b Hb]; inversion Hb; congruence].
Qed.

Lemma contains_substring (n h : string) :
  contains n h = true <-> substring n h.
Proof.
  induction h as [|c h IH].
  - cbn [contains]. destruct (String.prefix n "") eqn:P.
    + split; [intros _|reflexivity].
      apply prefix_app in P. destruct P as [b Hb].
      destruct n; [|discriminate]. exists "", "". reflexivity.
    + split; [discriminate|]. intros (a & b & H).
      destruct a; [|discriminate]. simpl in H.
      assert (String.prefix n "" = true) by (apply prefix_app; eauto).
      congruence.
  - cbn [contains]. destruct (String.prefix n (String c h)) eqn:P.
    + split; [intros _|reflexivity].
      apply prefix_app in P. destruct P as [b Hb].
      exists "", b. exact Hb.
    + rewrite IH. split.
      * intros (a & b & H). exists (String c a), b. simpl. now rewrite H.
      * intros (a & b & H). destruct a as [|c' a].
        -- simpl in H. assert (String.prefix n (String c h) = true)
             by (apply prefix_app; eauto). congruence.
        -- simpl in H. inversion H. exists a, b. reflexivity.
Qed.

Lemma contains_false (n h : string) :
  contains n h = false <-> ~ substring n h.
Proof.
  rewrite <- contains_substring. destruct (contains n h); split; congruence.
Qed.

Lemma any_in_true (l : list string) (s : string) :
  any_in l s = true <-> exists kw, In kw l /\ substring kw s.
Proof.
  unfold any_in. rewrite existsb_exists.
  split; intros (kw & Hin & H); exists kw; split; auto;
    now apply contains_substring.
Qed.

Lemma any_in_false (l : list string) (s : string) :
  any_in l s = false <-> forall kw, In kw l -> ~ substring kw s.
Proof.
  split.
  - intros H kw Hin Hs.
    assert (any_in l s = true) by (apply any_in_true; eauto). congruence.
  - intros H. destruct (any_in l s) eqn:E; [|reflexivity].
    apply any_in_true in E. destruct E as (kw & Hin & Hs).
    exfalso. eapply H; eauto.
Qed.

(** Every program runs to an outcome in every environment, and that run is
    one of the executions [exec] describes. *)
Lemma run_exec {S : signature} {R : Type} (w : world S) (p : prog S R) :
  forall s, exec p (snd (run w s p)) (fst (run w s p)).
Proof.
  induction p as [r|e k IH]; intros s; simpl.
  - split; reflexivity.
  - destruct (respond w s e) as [a s'] eqn:Ea.
    specialize (IH a s').
    destruct (run w s' (k a)) as [r t] eqn:Er. simpl in *.
    exists a, t. split; [reflexivity|exact IH].
Qed.

Lemma exec_pbind {S : signature} {A B : Type}
    (p : prog S A) (f : A -> prog S B) (t : trace S) (r : B) :
  exec (pbind p f) t r <->
  exists t1 a t2, exec p t1 a /\ exec (f a) t2 r /\ t = (t1 ++ t2)%list.
Proof.
  revert t; induction p as [x|e k IH]; intros t; simpl.
  - split.
    + intros H. exists [], x, t. repeat split; auto.
    + intros (t1 & a & t2 & (-> & ->) & H & ->). exact H.
  - split.
    + intros (a & t' & -> & H). apply IH in H.
      destruct H as (t1 & x & t2 & H1 & H2 & ->).
      exists (answered e a :: t1), x, t2. repeat split; auto.
      exists a, t1. split; auto.
    + intros (t1 & x & t2 & (a & t' & -> & H1) & H2 & ->).
      exists a, (t' ++ t2)%list. split; [reflexivity|].
      apply IH. exists t', x, t2. repeat split; auto.
Qed.

Lemma exec_bind {S : signature} {A B : Type}
    (m : M S A) (f : A -> M S B) (t : trace S) (r : result B) :
  exec (bind m f) t r <->
  exists t1 a t2,
    exec m t1 a /\ t = (t1 ++ t2)%list /\
    match a with
    | Ok x => exec (f x) t2 r
    | Raise e => t2 = [] /\ r = Raise e
    end.
Proof.
  unfold bind. rewrite exec_pbind. split.
  - intros (t1 & a & t2 & H1 & H2 & ->). exists t1, a, t2.
    repeat split; auto. destruct a; auto.
  - intros (t1 & a & t2 & H1 & -> & H2). exists t1, a, t2.
    repeat split; auto. destruct a; auto.
Qed.

Lemma exec_try_except {S : signature} {A : Type}
    (body : M S A) (handler : exn -> M S A) (t : trace S) (r : result A) :
  exec (try_except body handler) t r <->
  exists t1 a t2,
    exec body t1 a /\ t = (t1 ++ t2)%list /\
    match a with
    | Ok x => t2 = [] /\ r = Ok x
    | Raise e => exec (handler e) t2 r
    end.
Proof.
  unfold try_except. rewrite exec_pbind. split.
  - intros (t1 & a & t2 & H1 & H2 & ->). exists t1, a, t2.
    repeat split; auto. destruct a; auto.
  - intros (t1 & a & t2 & H1 & -> & H2). exists t1, a, t2.
    repeat split; auto. destruct a; auto.
Qed.

(** Checks a concrete trace against a program, event by event. *)
Ltac replay :=
  cbn;
  repeat match goal with
         | |- exists _, _ => eexists; eexists; split; [reflexivity|cbn]
         end;
  split; reflexivity.

End PyFacts.

(** ** The orchestrator: routing, invocation, merging *)

Module OrchestratorFacts.
Import Py Eff Spec PyFacts Orchestrator.

(** Case analysis on whatever a [match] of a hypothesis or of the goal is
    stuck on. *)
Ltac split_match :=
  match goal with
  | H : context [match ?x with _ => _ end] |- _ => destruct x eqn:?
  | |- context [match ?x with _ => _ end] => destruct x eqn:?
  end.

Ltac crunch :=
  repeat (cbn in *; subst;
          match goal with
          | H : Ok _ = Ok _ |- _ => inversion H; clear H
          | H : Some _ = Some _ |- _ => inversion H; clear H
          | H : Raise _ = Ok _ |- _ => discriminate H
          | H : Ok _ = Raise _ |- _ => discriminate H
          | H : PStr _ = PStr _ |- _ => inversion H; clear H
          | _ => split_match
          end).

Lemma eqb_text (s : string) : String.eqb s "text" = true -> s = "text".
Proof. apply String.eqb_eq. Qed.

(** The extraction returns something else than the empty string only on
    shape (1), and then the text of that shape. *)
Lemma extract_text_shape (body v : pyval) :
  extract_text body = Ok v -> v = PStr "" \/ artifact_text body v.
Proof.
  unfold extract_text, rbind, py_in, getitem, getitem0, get, eq_str.
  intros H.
  destruct body as [| | | | |l|top|]; try discriminate H;
    try solve [crunch; auto].
  destruct (lookup "result" top) as [r|] eqn:Er; [|crunch; auto].
  destruct r as [| | | | s |l|r|]; try solve [crunch; auto].
  destruct (lookup "artifacts" r) as [a|] eqn:Ea; [|crunch; auto].
  destruct a as [| | | | s |[|artifact more]|d|]; try solve [crunch; auto].
  destruct artifact as [| | | | s |l|artifact|]; try solve [crunch; auto].
  destruct (lookup "parts" artifact) as [p|] eqn:Ep; [|crunch; auto].
  destruct p as [| | | | s |[|part more_parts]|d|]; try solve [crunch; auto].
  destruct part as [| | | | s |l|part|]; try solve [crunch; auto].
  destruct (lookup "kind" part) as [kind|] eqn:Ek; [|crunch; auto].
  destruct kind as [| | | | kind | | |]; try solve [crunch; auto].
  destruct (String.eqb kind "text") eqn:Et; [|crunch; auto].
  apply eqb_text in Et; subst kind.
  destruct (lookup "text" part) as [text|] eqn:Ex; [|crunch; auto].
  assert (v = text) by (crunch; reflexivity). subst v.
  right. exists top, r, artifact, more, part, more_parts. auto 10.
Qed.

Lemma extract_text_artifact (body text : pyval) :
  artifact_text body text -> extract_text body = Ok text.
Proof.
  intros (top & r & artifact & more & part & more_parts
          & -> & Hr & Ha & Hp & Hk & Ht).
  unfold extract_text, rbind, py_in, getitem, getitem0, get, eq_str.
  rewrite Hr. cbn. rewrite Ha. cbn. rewrite Hp. cbn. rewrite Hk. cbn.
  rewrite Ht. reflexivity.
Qed.

(** *** Invoking a specialist *)

(** C1, at the failing input.  A reply of shape (2), with its text under
    [result.status.message.parts], carries no artifacts: the client returns
    the empty string for it, whatever the text. *)
Theorem status_message_reply_is_dropped
    (agent_url query id message_id text status_msg : string) :
  extract_text (status_message_body text) = Ok (PStr "") /\
  exec (_call_agent_via_a2a agent_url query)
    [answered (S := sig) Uuid4 id;
     answered (S := sig) Uuid4 message_id;
     answered (S := sig)
       (Post agent_url 120 (a2a_payload id message_id query)
             [("Content-Type", "application/json")])
       (Ok (Response 200 status_msg (Ok (status_message_body text))))]
    (Ok (PStr "")).
Proof.
  split; [reflexivity|].
  cbn. exists id. eexists. split; [reflexivity|].
  exists message_id. eexists. split; [reflexivity|].
  eexists. eexists. split; [reflexivity|].
  cbn. split; reflexivity.
Qed.

(** C5.  An invocation never raises, and every failure (the POST raising,
    a status outside 2xx, a body that is not JSON, a JSON body without the
    fields of shape (1)) makes it return the empty string. *)
Theorem failed_invocation_is_empty
    (agent_url query : string) (t : trace sig) (r : result pyval) :
  exec (_call_agent_via_a2a agent_url query) t r ->
  (exists v, r = Ok v) /\
  exists id message_id answer t',
    t = answered (S := sig) Uuid4 id
        :: answered (S := sig) Uuid4 message_id
        :: answered (S := sig)
             (Post agent_url 120 (a2a_payload id message_id query)
                   [("Content-Type", "application/json")])
             answer
        :: t' /\
    (invocation_failed answer -> r = Ok (PStr "")).
Proof.
  cbn. intros (id & t1 & -> & message_id & t2 & -> & answer & t3 & -> & H).
  assert (G : (exists v, r = Ok v) /\ (invocation_failed answer -> r = Ok (PStr ""))).
  { destruct answer as [resp|e]; cbn in H.
    - unfold raise_for_status in H.
      destruct (is_success resp) eqn:Es; cbn in H.
      + destruct (json resp) as [body|e] eqn:Ej; cbn in H.
        * destruct (extract_text body) as [v|e] eqn:Ex; cbn in H.
          -- destruct H as [-> ->]. split; [eauto|].
             intros F.
             inversion F as [|r' Hst|r' e' Hj|r' body' Hj Hno]; subst.
             ++ unfold is_success in Es. lia.
             ++ congruence.
             ++ assert (body' = body) by congruence. subst body'.
                apply extract_text_shape in Ex. destruct Ex as [->|Ex]; auto.
                exfalso. eapply Hno; eauto.
          -- destruct H as ([] & t' & _ & _ & ->). split; eauto.
        * destruct H as ([] & t' & _ & _ & ->). split; eauto.
      + destruct H as ([] & t' & _ & _ & ->). split; eauto.
    - destruct H as ([] & t' & _ & _ & ->). split; eauto. }
  destruct G as [G1 G2]. split; [exact G1|].
  exists id, message_id, answer, t3. split; [reflexivity|exact G2].
Qed.

(** Shape (1) is returned as it is. *)
Lemma artifact_reply_is_returned
    (agent_url query id message_id status_msg : string) (body text : pyval) :
  artifact_text body text ->
  exec (_call_agent_via_a2a agent_url query)
    [answered (S := sig) Uuid4 id;
     answered (S := sig) Uuid4 message_id;
     answered (S := sig)
       (Post agent_url 120 (a2a_payload id message_id query)
             [("Content-Type", "application/json")])
       (Ok (Response 200 status_msg (Ok body)))]
    (Ok text).
Proof.
  intros H. apply extract_text_artifact in H.
  cbn. exists id. eexists. split; [reflexivity|].
  exists message_id. eexists. split; [reflexivity|].
  eexists. eexists. split; [reflexivity|].
  cbn. rewrite H. cbn. split; reflexivity.
Qed.

(** *** Routing *)

Section Routing.
Context {B : Builtins}.
Variable self : CustomOrchestratorAgent.

(** C2.  A query whose lower-casing contains a fast-path keyword is routed
    to both analysts by a program that emits no event at all: no world, and
    so no model, can change the decision. *)
Theorem fast_path_selects_both (query : string) :
  (exists kw, In kw fast_path_keywords /\ substring kw (lower query)) ->
  _determine_agents self query = Ret (Ok ["bull_analyst"; "bear_analyst"]) /\
  forall (w : world sig) (s : wstate w),
    run w s (_determine_agents self query)
    = (Ok ["bull_analyst"; "bear_analyst"], []).
Proof.
  intros (kw & Hin & Hs).
  assert (E : _determine_agents self query = Ret (Ok ["bull_analyst"; "bear_analyst"])).
  { unfold _determine_agents.
    destruct (any_in ["analyze"; "analysis"] (lower query)) eqn:E1; [reflexivity|].
    destruct (any_in ["both"; "bull and bear"; "pros and cons";
                      "opportunities and risks"] (lower query)) eqn:E2;
      [reflexivity|].
    exfalso.
    rewrite any_in_false in E1, E2.
    unfold fast_path_keywords in Hin. cbn [In] in Hin.
    destruct Hin as [<-|[<-|Hin]];
      [eapply E1; [left; reflexivity|exact Hs]
      |eapply E1; [right; left; reflexivity|exact Hs]|].
    eapply E2; [|exact Hs]. cbn [In]. tauto. }
  split; [exact E|]. intros w s. rewrite E. reflexivity.
Qed.

(** C4.  Without a fast-path keyword there is one classification call; its
    reply, stripped and lower-cased, decides by the first of both, bear,
    bull that occurs in it, and both when none does or when the call
    fails. *)
Theorem classification_reply_decides
    (query : string) (t : trace sig) (r : result (list string)) :
  (forall kw, In kw fast_path_keywords -> ~ substring kw (lower query)) ->
  exec (_determine_agents self query) t r ->
  exists answer t',
    t = answered (S := sig)
          (MessagesCreate (model self) 50 (routing_prompt query)) answer :: t' /\
    (t' = [] \/ exists msg, t' = [answered (S := sig) (Print msg) tt]) /\
    match answer with
    | Raise _ => r = Ok ["bull_analyst"; "bear_analyst"]
    | Ok content =>
        match first_text content with
        | Raise _ => r = Ok ["bull_analyst"; "bear_analyst"]
        | Ok text =>
            let reply := lower (strip text) in
            (substring "both" reply ->
             r = Ok ["bull_analyst"; "bear_analyst"]) /\
            (~ substring "both" reply -> substring "bear" reply ->
             r = Ok ["bear_analyst"]) /\
            (~ substring "both" reply -> ~ substring "bear" reply ->
             substring "bull" reply ->
             r = Ok ["bull_analyst"]) /\
            (~ substring "both" reply -> ~ substring "bear" reply ->
             ~ substring "bull" reply ->
             r = Ok ["bull_analyst"; "bear_analyst"])
        end
    end.
Proof.
  intros Hno. unfold _determine_agents.
  assert (E1 : any_in ["analyze"; "analysis"] (lower query) = false).
  { apply any_in_false. intros kw Hin. apply Hno.
    unfold fast_path_keywords. cbn [In] in *. tauto. }
  assert (E2 : any_in ["both"; "bull and bear"; "pros and cons";
                       "opportunities and risks"] (lower query) = false).
  { apply any_in_false. intros kw Hin. apply Hno.
    unfold fast_path_keywords. cbn [In] in *. tauto. }
  rewrite E1, E2. cbn.
  intros (answer & t' & -> & H).
  exists answer, t'. split; [reflexivity|].
  destruct answer as [content|e]; cbn in H.
  - destruct (first_text content) as [text|e]; cbn in H.
    + rewrite <- !contains_false, <- !contains_substring.
      destruct (contains "both" (lower (strip text))) eqn:C1;
        [|destruct (contains "bear" (lower (strip text))) eqn:C2;
          [|destruct (contains "bull" (lower (strip text))) eqn:C3]];
        cbn in H; destruct H as [-> ->];
        (split; [left; reflexivity|]); cbn;
        repeat split; intros; congruence.
    + destruct H as ([] & t'' & -> & -> & ->). split; [right; eauto|reflexivity].
  - destruct H as ([] & t'' & -> & -> & ->). split; [right; eauto|reflexivity].
Qed.

(** *** Merging *)

(** With both texts the merged response is the Bull section, a rule and
    the Bear section, in this order; with one text it is that side's
    section alone. *)
Lemma combined_response_merges (query bull bear : string) :
  bull <> "" -> bear <> "" ->
  combined_response self query (PStr bull) (PStr bear)
  = ret ("## Bull Case" ++ nl ++ nl ++ bull ++ nl ++ nl ++ "---" ++ nl ++ nl
         ++ "## Bear Case" ++ nl ++ nl ++ bear) /\
  combined_response self query (PStr bull) (PStr "")
  = ret ("## Bull Case" ++ nl ++ nl ++ bull) /\
  combined_response self query (PStr "") (PStr bear)
  = ret ("## Bear Case" ++ nl ++ nl ++ bear).
Proof.
  intros Hb Hr. unfold combined_response. cbn [truthy format_value].
  apply String.eqb_neq in Hb, Hr. rewrite Hb, Hr. cbn.
  repeat split; reflexivity.
Qed.

(** With both texts empty there is exactly one completion, on the system
    prompt followed by the query; its text is returned as it is, a failure
    of it becomes an error message, and nothing is raised. *)
Lemma combined_response_falls_back
    (query : string) (t : trace sig) (r : result string) :
  exec (combined_response self query (PStr "") (PStr "")) t r ->
  exists answer,
    t = [answered (S := sig)
           (MessagesCreate (model self) 4096
              (ORCHESTRATOR_SYSTEM_PROMPT ++ nl ++ nl ++ "User Query: " ++ query
               ++ nl ++ nl ++ "Provide a financial analysis based on the query."))
           answer] /\
    (forall text more, answer = Ok (TextBlock text :: more) -> r = Ok text) /\
    (forall e, answer = Raise e ->
               r = Ok ("Error generating response: " ++ exn_msg e)) /\
    exists s, r = Ok s.
Proof.
  unfold combined_response. cbn.
  intros (answer & t' & -> & H). exists answer.
  destruct answer as [[|[text|cls] more]|e]; cbn in H; destruct H as [-> ->];
    (split; [reflexivity|]); repeat split; intros; try discriminate; eauto.
  - congruence.
  - congruence.
Qed.

(** *** No query *)

Lemma first_part_text_empty (parts : list pyval) :
  Forall part_without_text parts -> first_part_text parts = PStr "".
Proof.
  induction 1 as [|part parts Hp _ IH]; [reflexivity|].
  cbn. destruct (getattr_opt part "text") as [t|] eqn:E; [|exact IH].
  rewrite (Hp t E). exact IH.
Qed.

Lemma user_query_falsy (parent_context user_content : pyval) :
  getattr_opt parent_context "user_content" = Some user_content ->
  no_user_text user_content ->
  exists q, user_query parent_context = Ok q /\ truthy q = false.
Proof.
  intros Hc Hn. unfold user_query, getattr. rewrite Hc. cbn.
  destruct Hn as [uc Hf|cls attrs parts Hp Hall|cls attrs Hp Ht].
  - rewrite Hf. eauto.
  - cbn. unfold hasattr, getattr, getattr_opt. rewrite Hp. cbn.
    rewrite (first_part_text_empty _ Hall). eauto.
  - cbn. unfold hasattr, getattr, getattr_opt. rewrite Hp.
    destruct (lookup "text" attrs) as [t|] eqn:E; eauto.
Qed.

Lemma session_query_falsy (parent_context q : pyval) :
  truthy q = false ->
  no_state_query parent_context ->
  exists q', session_query parent_context q = Ok q' /\ truthy q' = false.
Proof.
  intros Hq Hn. unfold session_query. rewrite Hq.
  unfold hasattr, getattr.
  destruct Hn as [Hs|session Hs Hst|session state Hs Hst Hl]; rewrite Hs; cbn.
  - eauto.
  - rewrite Hst. cbn. eauto.
  - rewrite Hst. cbn.
    destruct (lookup "query" state) as [v|] eqn:E; eauto.
Qed.

(** A context whose user content is empty, or has a list of parts none with
    a text, or has no parts and no text, makes [run_async] yield the notice
    and stop: the program has this one event, so neither a model call nor a
    POST to a specialist happens in any environment. *)
Lemma no_query_yields_notice (parent_context : pyval) :
  no_query_text parent_context ->
  run_async self parent_context
  = Vis (S := sig) (Yield (mkEvent "agent" "No query provided"))
        (fun _ => Ret (Ok tt)) /\
  forall (w : world sig) (s : wstate w),
    run w s (run_async self parent_context)
    = (Ok tt, [answered (S := sig) (Yield (mkEvent "agent" "No query provided")) tt]).
Proof.
  intros [(user_content & Hc & Hu) Hs].
  destruct (user_query_falsy _ _ Hc Hu) as (q & Eq & Fq).
  destruct (session_query_falsy _ _ Fq Hs) as (q' & Eq' & Fq').
  assert (E : run_async self parent_context
              = Vis (S := sig) (Yield (mkEvent "agent" "No query provided"))
                    (fun _ => Ret (Ok tt))).
  { unfold run_async. rewrite Eq. cbn. rewrite Eq'. cbn. rewrite Fq'.
    reflexivity. }
  split; [exact E|]. intros w s. rewrite E. cbn.
  destruct (respond w s (Yield (mkEvent "agent" "No query provided"))) as [[] s'].
  reflexivity.
Qed.

(** C10, at the failing input.  The user content is a [Content] whose
    [parts] is [None], the default of the class, and the session state
    holds no query: no query text can be extracted.  [run_async] raises the
    TypeError of the loop over the parts; it yields no event. *)
Theorem none_parts_is_not_noticed :
  getattr_opt Scenario.no_parts_context "user_content"
  = Some (PObj "Content" [("parts", PNone); ("role", PStr "user")]) /\
  (forall session state q,
     getattr_opt Scenario.no_parts_context "session" = Some session ->
     getattr_opt session "state" = Some (PDict state) ->
     lookup "query" state = Some q -> truthy q = false) /\
  run_async self Scenario.no_parts_context
  = Ret (Raise (TypeError (sq ++ "NoneType" ++ sq ++ " object is not iterable"))) /\
  forall (w : world sig) (s : wstate w),
    run w s (run_async self Scenario.no_parts_context)
    = (Raise (TypeError (sq ++ "NoneType" ++ sq ++ " object is not iterable")), []).
Proof.
  split; [reflexivity|]. split.
  - intros session state q Hs Hst Hq. cbn in Hs. inversion Hs. subst session.
    cbn in Hst. inversion Hst. subst state. discriminate Hq.
  - split; [reflexivity|]. intros w s. reflexivity.
Qed.

End Routing.

(** *** The theorems at concrete inputs *)

Lemma failed_invocation_is_empty_witness :
  exec (_call_agent_via_a2a "http://localhost:8002/" "What are the risks for AAPL?")
       Scenario.unreachable_run (Ok (PStr "")) /\
  exists id message_id answer t',
    Scenario.unreachable_run
    = answered (S := sig) Uuid4 id
      :: answered (S := sig) Uuid4 message_id
      :: answered (S := sig)
           (Post "http://localhost:8002/" 120
                 (a2a_payload id message_id "What are the risks for AAPL?")
                 [("Content-Type", "application/json")])
           answer
      :: t' /\
    (invocation_failed answer -> Ok (PStr "") = Ok (PStr "")).
Proof.
  assert (H : exec (_call_agent_via_a2a "http://localhost:8002/"
                      "What are the risks for AAPL?")
                   Scenario.unreachable_run (Ok (PStr ""))).
  { cbn. eexists. eexists. split; [reflexivity|].
    eexists. eexists. split; [reflexivity|].
    eexists. eexists. split; [reflexivity|].
    cbn. exists tt. eexists. split; [reflexivity|]. split; reflexivity. }
  split; [exact H|].
  exact (proj2 (failed_invocation_is_empty _ _ _ _ H)).
Defined.

Lemma fast_path_selects_both_witness :
  (exists kw, In kw fast_path_keywords /\
              substring kw (@lower ascii_builtins "Please Analyze NVDA")) /\
  @_determine_agents ascii_builtins Scenario.agent "Please Analyze NVDA"
  = Ret (Ok ["bull_analyst"; "bear_analyst"]).
Proof.
  assert (H : exists kw, In kw fast_path_keywords /\
                         substring kw (@lower ascii_builtins "Please Analyze NVDA")).
  { exists "analyze". split; [left; reflexivity|].
    exists "please ", " nvda". reflexivity. }
  split; [exact H|].
  exact (proj1 (@fast_path_selects_both ascii_builtins Scenario.agent
                  "Please Analyze NVDA" H)).
Defined.

Lemma classification_reply_decides_witness :
  (forall kw, In kw fast_path_keywords ->
              ~ substring kw (@lower ascii_builtins "What are the risks for AAPL?")) /\
  exec (@_determine_agents ascii_builtins Scenario.agent "What are the risks for AAPL?")
       Scenario.bear_classification (Ok ["bear_analyst"]) /\
  exists answer t',
    Scenario.bear_classification
    = answered (S := sig)
        (MessagesCreate (model Scenario.agent) 50
           (routing_prompt "What are the risks for AAPL?")) answer :: t' /\
    (t' = [] \/ exists msg, t' = [answered (S := sig) (Print msg) tt]) /\
    match answer with
    | Raise _ => Ok ["bear_analyst"] = Ok ["bull_analyst"; "bear_analyst"]
    | Ok content =>
        match first_text content with
        | Raise _ => Ok ["bear_analyst"] = Ok ["bull_analyst"; "bear_analyst"]
        | Ok text =>
            let reply := @lower ascii_builtins (@strip ascii_builtins text) in
            (substring "both" reply ->
             Ok ["bear_analyst"] = Ok ["bull_analyst"; "bear_analyst"]) /\
            (~ substring "both" reply -> substring "bear" reply ->
             Ok ["bear_analyst"] = Ok ["bear_analyst"]) /\
            (~ substring "both" reply -> ~ substring "bear" reply ->
             substring "bull" reply ->
             Ok ["bear_analyst"] = Ok ["bull_analyst"]) /\
            (~ substring "both" reply -> ~ substring "bear" reply ->
             ~ substring "bull" reply ->
             Ok ["bear_analyst"] = Ok ["bull_analyst"; "bear_analyst"])
        end
    end.
Proof.
  assert (H1 : forall kw, In kw fast_path_keywords ->
                 ~ substring kw (@lower ascii_builtins "What are the risks for AAPL?")).
  { intros kw Hin. apply contains_false. unfold fast_path_keywords in Hin.
    repeat (destruct Hin as [<-|Hin]; [vm_compute; reflexivity|]).
    destruct Hin. }
  assert (H2 : exec (@_determine_agents ascii_builtins Scenario.agent
                       "What are the risks for AAPL?")
                    Scenario.bear_classification (Ok ["bear_analyst"])).
  { cbn. eexists. eexists. split; [reflexivity|]. cbn. split; reflexivity. }
  split; [exact H1|]. split; [exact H2|].
  exact (@classification_reply_decides ascii_builtins Scenario.agent _ _ _ H1 H2).
Defined.

Lemma no_query_yields_notice_witness :
  no_query_text Scenario.empty_context /\
  @run_async ascii_builtins Scenario.agent Scenario.empty_context
  = Vis (S := sig) (Yield (mkEvent "agent" "No query provided"))
        (fun _ => Ret (Ok tt)).
Proof.
  assert (H : no_query_text Scenario.empty_context).
  { split.
    - eexists. split; [reflexivity|].
      eapply no_text_in_parts; [reflexivity|].
      constructor; [|constructor].
      intros t Ht. cbn in Ht. inversion Ht. reflexivity.
    - eapply no_query_in_state; [reflexivity|reflexivity|].
      intros q Hq. discriminate Hq. }
  split; [exact H|].
  exact (proj1 (@no_query_yields_notice ascii_builtins Scenario.agent _ H)).
Defined.

End OrchestratorFacts.

(** ** The LangGraph specialist's server *)

Module BullServerFacts.
Import Py Eff Spec PyFacts BullServer.

Lemma first_text_part_falsy (parts : list pyval) :
  Forall no_text_field parts ->
  exists q, first_text_part parts = Ok q /\ truthy q = false.
Proof.
  induction 1 as [|part parts [[d ->] Hp] _ IH]; cbn.
  - eauto.
  - destruct (lookup "text" d) as [t|] eqn:E; cbn.
    + exists t. split; [reflexivity|]. eapply Hp; eauto.
    + exact IH.
Qed.

#[local] Arguments JSONResponse_of : simpl never.
#[local] Arguments error_content : simpl never.
#[local] Arguments success_content : simpl never.

(** An error reply is built as soon as its id renders. *)
Lemma error_response_built {B : Builtins} (id : pyval) (code : Z) (message : string) :
  renders id ->
  JSONResponse_of (error_content id code message)
  = Ok (error_response id code message).
Proof.
  unfold renders, JSONResponse_of, error_content. intros H.
  cbn. rewrite H. reflexivity.
Qed.

(** It is not built when the id does not render. *)
Lemma error_response_refused {B : Builtins} (id : pyval) (code : Z) (message : string) :
  ~ renders id ->
  exists e, JSONResponse_of (error_content id code message) = Raise e.
Proof.
  unfold renders, JSONResponse_of, error_content. intros H. cbn.
  destruct (first_unrenderable id) as [[f|cls]|]; [eauto|eauto|].
  exfalso. apply H. reflexivity.
Qed.

(** Whatever the constructor returns has the content it was given. *)
Lemma JSONResponse_of_content {B : Builtins} (c : pyval) (resp : JSONResponse) :
  JSONResponse_of c = Ok resp -> resp = mkJSONResponse 200 c.
Proof.
  unfold JSONResponse_of.
  destruct (first_unrenderable c) as [[f|cls]|]; intros H; inversion H. reflexivity.
Qed.

Lemma first_text_part_without_text (items : list pyval) :
  Forall without_text items ->
  exists q, first_text_part items = Ok q /\ truthy q = false.
Proof.
  induction 1 as [|part items [Hin|(d & t & -> & Hd & Ht)] _ IH]; cbn.
  - eauto.
  - rewrite Hin. exact IH.
  - rewrite Hd. cbn. eauto.
Qed.

Section Handler.
Context {B : Builtins}.

(** C8, as amended.  A message/send envelope whose parts can be visited and
    tested for the key [text], none with a non-empty text, and whose id the
    response can carry is answered, with status 200, by the JSON-RPC error
    -32600 that echoes the id of the request; the agent is not invoked. *)
Theorem missing_text_is_invalid_request
    (request : Request) (body : pyval) (items : list pyval) :
  request_json request = Ok body ->
  message_items body items ->
  Forall without_text items ->
  renders (request_id body) ->
  let answer :=
    mkJSONResponse 200
      (PDict [("jsonrpc", PStr "2.0");
              ("id", request_id body);
              ("error", PDict [("code", PInt (-32600));
                               ("message", PStr "No text content in message")])]) in
  handle_message request = Ret (Ok answer) /\
  forall (w : world sig) (s : wstate w),
    run w s (handle_message request) = (Ok answer, []).
Proof.
  intros Hj (top & params & message & -> & Hp & Hm & Hparts) Hall Hid answer.
  destruct (first_text_part_without_text items Hall) as (q & Eq & Fq).
  assert (E : handle_message request = Ret (Ok answer)).
  { unfold handle_message. rewrite Hj.
    unfold handle_body, get. unfold field_or in Hp, Hm, Hparts.
    cbn. rewrite Hp. cbn. rewrite Hm. cbn. rewrite Hparts. cbn.
    rewrite Eq. cbn. rewrite Fq. cbn.
    change (match lookup "id" top with Some x => x | None => PNone end)
      with (request_id (PDict top)).
    rewrite (error_response_built _ _ _ Hid). reflexivity. }
  split; [exact E|]. intros w s. rewrite E. reflexivity.
Qed.

End Handler.

Lemma missing_text_is_invalid_request_witness :
  message_items Scenario.data_only_body [PDict [("kind", PStr "data")]] /\
  Forall without_text [PDict [("kind", PStr "data")]] /\
  renders (request_id Scenario.data_only_body) /\
  @handle_message Scenario.json_texts {| request_json := Ok Scenario.data_only_body |}
  = Ret (Ok (mkJSONResponse 200
               (PDict [("jsonrpc", PStr "2.0");
                       ("id", PStr "7");
                       ("error",
                        PDict [("code", PInt (-32600));
                               ("message", PStr "No text content in message")])]))).
Proof.
  assert (H1 : message_items Scenario.data_only_body [PDict [("kind", PStr "data")]]).
  { eexists. eexists. eexists. repeat split; reflexivity. }
  assert (H2 : Forall without_text [PDict [("kind", PStr "data")]]).
  { constructor; [|constructor]. left. reflexivity. }
  assert (H3 : renders (request_id Scenario.data_only_body)) by reflexivity.
  split; [exact H1|]. split; [exact H2|]. split; [exact H3|].
  exact (proj1 (@missing_text_is_invalid_request Scenario.json_texts
                  {| request_json := Ok Scenario.data_only_body |}
                  Scenario.data_only_body _ eq_refl H1 H2 H3)).
Defined.

(** C8, as the spec states it, fails on a part that is no JSON object: the
    only part of the message is [null], so no part has a non-empty text,
    and the answer is the error -32603 of the catch-all, with the text of
    the TypeError that the test for the key raised, not the error -32600. *)
Lemma null_part_is_internal_error :
  message_items Scenario.null_part_body [PNone] /\
  (forall part, In part [PNone] ->
     forall d t, part = PDict d -> lookup "text" d = Some t -> truthy t = false) /\
  @handle_message Scenario.json_texts {| request_json := Ok Scenario.null_part_body |}
  = Ret (Ok (error_response (PStr "7") (-32603)
               ("argument of type " ++ sq ++ "NoneType" ++ sq ++ " is not iterable"))) /\
  forall message,
    @handle_message Scenario.json_texts {| request_json := Ok Scenario.null_part_body |}
    <> Ret (Ok (error_response (PStr "7") (-32600) message)).
Proof.
  split; [eexists; eexists; eexists; repeat split; reflexivity|].
  split; [intros part [<-|[]] d t H; discriminate H|].
  split; [reflexivity|].
  intros message H. discriminate H.
Qed.

(** Under the id [NaN] the handler raises: the response of the [try] block
    cannot be built, and neither can the one of the [except] clause. *)
Lemma nan_id_raises :
  message_items Scenario.nan_id_body [PDict [("kind", PStr "data")]] /\
  @handle_message Scenario.json_texts {| request_json := Ok Scenario.nan_id_body |}
  = Ret (Raise (Exn "ValueError" "Out of range float values are not JSON compliant")).
Proof.
  split; [eexists; eexists; eexists; repeat split; reflexivity|reflexivity].
Qed.

End BullServerFacts.

(** ** The tracing middleware *)

Module TracingFacts.
Import Py Eff Spec PyFacts Tracing.

#[local] Arguments log_line : simpl never.

(** An HTTP request on a discovery path goes to the application and nothing
    else happens: no context is extracted, no span is started. *)
Lemma well_known_bypasses_tracing (self : TracingMiddleware) (scope : Scope) :
  type_ scope = "http" ->
  substring ".well-known" (path_of scope) ->
  __call__ self scope = Vis (S := sig) (App scope) (fun x => Ret x).
Proof.
  intros Ht Hs. unfold __call__. rewrite Ht. cbn.
  apply contains_substring in Hs. rewrite Hs.
  reflexivity.
Qed.

(** Any other HTTP request whose header names and values decode runs the
    application between the start and the end of a span of kind SERVER,
    child of the extracted context. *)
Lemma decodable_request_is_wrapped
    (self : TracingMiddleware) (scope : Scope) (hdrs : list (string * string))
    (t : trace sig) (r : result unit) :
  type_ scope = "http" ->
  ~ substring ".well-known" (path_of scope) ->
  collect_headers (raw_headers scope) [] = Ok hdrs ->
  exec (__call__ self scope) t r ->
  exists parent_ctx span ctx log,
    t = ([answered (S := sig) (Extract hdrs) parent_ctx;
          answered (S := sig) (StartSpan (service_name self) parent_ctx SERVER) span;
          answered (S := sig) (SetAttribute span "service.name" (service_name self)) tt;
          answered (S := sig) (SetAttribute span "http.path" (path_of scope)) tt;
          answered (S := sig) (GetSpanContext span) ctx]
         ++ log
         ++ [answered (S := sig) (App scope) r;
             answered (S := sig)
               (EndSpan span match r with Ok _ => None | Raise e => Some e end) tt])%list /\
    (log = [] \/ exists msg, log = [answered (S := sig) (Print msg) tt]).
Proof.
  intros Ht Hs Hh. unfold __call__. rewrite Ht. cbn.
  apply contains_false in Hs. rewrite Hs. rewrite Hh. cbn.
  intros (parent_ctx & t1 & -> & span & t2 & -> & [] & t3 & -> & [] & t4 & ->
          & ctx & t5 & -> & H).
  exists parent_ctx, span, ctx.
  destruct (is_valid ctx); cbn in H.
  - destruct H as ([] & t6 & -> & a & t7 & -> & H).
    exists [answered (S := sig) (Print (log_line self ctx hdrs)) tt].
    destruct a as [[]|e]; cbn in H; destruct H as ([] & t8 & -> & -> & ->);
      (split; [reflexivity|right; eauto]).
  - destruct H as (a & t7 & -> & H).
    destruct a as [[]|e]; cbn in H; destruct H as ([] & t8 & -> & -> & ->);
      exists []; split; auto.
Qed.

(** C9, at the failing input.  An HTTP request to the root path, which is
    no discovery path, with a header value that is not UTF-8: decoding the
    headers raises before any span is started, and the application is not
    called either. *)
Theorem undecodable_header_is_not_traced (self : TracingMiddleware) :
  type_ Scenario.latin1_header_scope = "http" /\
  ~ substring ".well-known" (path_of Scenario.latin1_header_scope) /\
  __call__ self Scenario.latin1_header_scope
  = Ret (Raise (Exn "UnicodeDecodeError" "'utf-8' codec can't decode bytes")) /\
  forall (w : world sig) (s : wstate w),
    run w s (__call__ self Scenario.latin1_header_scope)
    = (Raise (Exn "UnicodeDecodeError" "'utf-8' codec can't decode bytes"), []).
Proof.
  split; [reflexivity|].
  split; [apply contains_false; reflexivity|].
  split; [reflexivity|]. intros w s. reflexivity.
Qed.

End TracingFacts.

(** ** Whole runs of the orchestrator *)

Module OrchestratorRuns.
Import Py Eff Spec PyFacts Orchestrator OrchestratorFacts.

Lemma post_urls_app (t1 t2 : trace sig) :
  post_urls (t1 ++ t2)%list = (post_urls t1 ++ post_urls t2)%list.
Proof. apply flat_map_app. Qed.

Lemma completions_app (t1 t2 : trace sig) :
  completions (t1 ++ t2)%list = (completions t1 ++ completions t2)%list.
Proof. apply flat_map_app. Qed.

Lemma yielded_app (t1 t2 : trace sig) :
  yielded (t1 ++ t2)%list = (yielded t1 ++ yielded t2)%list.
Proof. apply flat_map_app. Qed.

(** One invocation of a specialist is one POST, to the URL it was given, and
    ends in a value. *)
Lemma invocation_run (agent_url query : string) (t : trace sig) (r : result pyval) :
  exec (_call_agent_via_a2a agent_url query) t r ->
  (exists v, r = Ok v) /\
  post_urls t = [agent_url] /\ completions t = [] /\ yielded t = [].
Proof.
  cbn. intros (id & t1 & -> & message_id & t2 & -> & answer & t3 & -> & H).
  assert (Handled : forall msg,
            (exists (a : unit) (t' : trace sig),
               t3 = answered (S := sig) (Print msg) a :: t' /\
               t' = [] /\ r = Ok (PStr "")) ->
            (exists v, r = Ok v) /\
            post_urls
              (answered (S := sig) Uuid4 id
               :: answered (S := sig) Uuid4 message_id
               :: answered (S := sig)
                    (Post agent_url 120 (a2a_payload id message_id query)
                          [("Content-Type", "application/json")]) answer
               :: t3) = [agent_url] /\
            completions
              (answered (S := sig) Uuid4 id
               :: answered (S := sig) Uuid4 message_id
               :: answered (S := sig)
                    (Post agent_url 120 (a2a_payload id message_id query)
                          [("Content-Type", "application/json")]) answer
               :: t3) = [] /\
            yielded
              (answered (S := sig) Uuid4 id
               :: answered (S := sig) Uuid4 message_id
               :: answered (S := sig)
                    (Post agent_url 120 (a2a_payload id message_id query)
                          [("Content-Type", "application/json")]) answer
               :: t3) = []).
  { intros msg (a & t' & Ht3 & Ht' & Hr). subst. cbn. eauto. }
  destruct answer as [resp|e]; cbn in H; [|eapply Handled; exact H].
  unfold raise_for_status in H.
  destruct (is_success resp); cbn in H; [|eapply Handled; exact H].
  destruct (json resp) as [body|e]; cbn in H; [|eapply Handled; exact H].
  destruct (extract_text body) as [v|e]; cbn in H; [|eapply Handled; exact H].
  destruct H as [Ht3 Hr]. subst. cbn. eauto.
Qed.

Section Runs.
Context {B : Builtins}.
Variable self : CustomOrchestratorAgent.

(** Every execution of [_determine_agents]: a decision, reached without
    any event on the fast path, else after one completion of at most 50
    tokens, with one line printed when that failed. *)
Lemma determine_agents_run
    (query : string) (t : trace sig) (r : result (list string)) :
  exec (_determine_agents self query) t r ->
  (exists agents, r = Ok agents /\ routing_decision agents) /\
  (t = [] \/
   exists answer log,
     t = answered (S := sig)
           (MessagesCreate (model self) 50 (routing_prompt query)) answer :: log /\
     (log = [] \/ exists msg, log = [answered (S := sig) (Print msg) tt])).
Proof.
  unfold _determine_agents, routing_decision.
  destruct (any_in ["analyze"; "analysis"] (lower query));
    [intros [-> ->]; cbn; eauto 10|].
  destruct (any_in _ (lower query));
    [intros [-> ->]; cbn; eauto 10|].
  cbn. intros (answer & t' & -> & H).
  assert (Shape : forall log,
            log = [] \/ (exists msg, log = [answered (S := sig) (Print msg) tt]) ->
            answered (S := sig) (MessagesCreate (model self) 50 (routing_prompt query))
              answer :: log = [] \/
            exists answer' log',
              answered (S := sig) (MessagesCreate (model self) 50 (routing_prompt query))
                answer :: log
              = answered (S := sig)
                  (MessagesCreate (model self) 50 (routing_prompt query)) answer'
                :: log' /\
              (log' = [] \/ exists msg, log' = [answered (S := sig) (Print msg) tt])).
  { intros log Hlog. right. exists answer, log. split; [reflexivity|exact Hlog]. }
  destruct answer as [content|e]; cbn in H.
  - destruct (first_text content) as [text|e]; cbn in H.
    + destruct (contains "both" (lower (strip text)));
        [|destruct (contains "bear" (lower (strip text)));
          [|destruct (contains "bull" (lower (strip text)))]];
        cbn in H; destruct H as [-> ->];
        (split; [eexists; split; [reflexivity|]; cbn; auto|apply Shape; auto]).
    + destruct H as ([] & t'' & -> & -> & ->).
      split; [eexists; split; [reflexivity|]; cbn; auto|apply Shape; eauto].
  - destruct H as ([] & t'' & -> & -> & ->).
    split; [eexists; split; [reflexivity|]; cbn; auto|apply Shape; eauto].
Qed.

(** X1.  Routing always decides: whatever the model answers or raises,
    [_determine_agents] returns one of the three decisions, asks for at most
    one completion and neither posts nor yields anything. *)
Theorem routing_always_decides
    (query : string) (t : trace sig) (r : result (list string)) :
  exec (_determine_agents self query) t r ->
  (exists agents, r = Ok agents /\ routing_decision agents) /\
  (completions t = [] \/ completions t = [50%Z]) /\
  post_urls t = [] /\ yielded t = [].
Proof.
  intros H. apply determine_agents_run in H.
  destruct H as (Hd & [ -> | (answer & log & -> & [ -> | (msg & ->) ]) ]);
    (split; [exact Hd|]); cbn; auto.
Qed.

(** As soon as one specialist answered, no completion is asked for: the
    merged response is computed without any event. *)
Lemma answered_specialist_needs_no_fallback
    (query : string) (bull_response bear_response : pyval) :
  truthy bull_response = true \/ truthy bear_response = true ->
  exists s, combined_response self query bull_response bear_response = Ret (Ok s).
Proof.
  unfold combined_response.
  destruct (truthy bull_response), (truthy bear_response);
    intros [H|H]; try discriminate H; cbn; eexists; reflexivity.
Qed.

Lemma combined_response_run
    (query : string) (bull_response bear_response : pyval)
    (t : trace sig) (r : result string) :
  exec (combined_response self query bull_response bear_response) t r ->
  (exists s, r = Ok s) /\
  (completions t = [] \/ completions t = [4096%Z]) /\
  post_urls t = [] /\ yielded t = [].
Proof.
  unfold combined_response.
  destruct (truthy bull_response), (truthy bear_response); cbn;
    try (intros [-> ->]; cbn; eauto 10).
  intros (answer & t' & -> & H).
  destruct answer as [content|e]; cbn in H;
    [destruct (first_text content); cbn in H|];
    destruct H as [-> ->]; cbn; eauto 10.
Qed.

(** X2.  A run on a query: nothing is raised, exactly one event is yielded
    and it ends the run, each specialist is posted to at most once and the
    bull analyst before the bear analyst, and at most two completions are
    asked for, the classification before the fallback. *)
Theorem run_async_on_a_query
    (parent_context user_text : pyval) (query : string)
    (t : trace sig) (r : result unit) :
  user_query parent_context = Ok user_text ->
  session_query parent_context user_text = Ok (PStr query) ->
  query <> "" ->
  exec (run_async self parent_context) t r ->
  r = Ok tt /\
  (exists t' response,
     t = (t' ++ [answered (S := sig) (Yield (mkEvent "agent" response)) tt])%list /\
     yielded t' = []) /\
  (post_urls t = [bull_agent_url self; bear_agent_url self] \/
   post_urls t = [bull_agent_url self] \/
   post_urls t = [bear_agent_url self]) /\
  (exists n m, completions t = (n ++ m)%list /\
               (n = [] \/ n = [50%Z]) /\ (m = [] \/ m = [4096%Z])).
Proof.
  intros Hu Hs Hq. unfold run_async. rewrite Hu. cbn. rewrite Hs. cbn.
  apply String.eqb_neq in Hq. rewrite Hq. cbn [negb].
  rewrite exec_bind.
  intros (t1 & a1 & t1' & H1 & -> & H).
  apply determine_agents_run in H1.
  destruct H1 as ((agents & -> & Hd) & Hshape).
  assert (Hobs : (completions t1 = [] \/ completions t1 = [50%Z]) /\
                 post_urls t1 = [] /\ yielded t1 = []).
  { destruct Hshape as [ -> | (answer & log & -> & [ -> | (msg & ->) ]) ];
      cbn; auto. }
  destruct Hobs as (Hc1 & Hp1 & Hy1).
  rewrite exec_bind in H. destruct H as (t2 & a2 & t2' & H2 & -> & H).
  assert (G2 : (exists v, a2 = Ok v) /\
               (post_urls t2 = (if selected "bull_analyst" agents
                                then [bull_agent_url self] else []))
               /\ completions t2 = [] /\ yielded t2 = []).
  { destruct (selected "bull_analyst" agents).
    - apply invocation_run in H2. exact H2.
    - destruct H2 as [-> ->]. cbn. eauto. }
  destruct G2 as ((bull & ->) & Hp2 & Hc2 & Hy2).
  rewrite exec_bind in H. destruct H as (t3 & a3 & t3' & H3 & -> & H).
  assert (G3 : (exists v, a3 = Ok v) /\
               (post_urls t3 = (if selected "bear_analyst" agents
                                then [bear_agent_url self] else []))
               /\ completions t3 = [] /\ yielded t3 = []).
  { destruct (selected "bear_analyst" agents).
    - apply invocation_run in H3. exact H3.
    - destruct H3 as [-> ->]. cbn. eauto. }
  destruct G3 as ((bear & ->) & Hp3 & Hc3 & Hy3).
  rewrite exec_bind in H. destruct H as (t4 & a4 & t4' & H4 & -> & H).
  apply combined_response_run in H4.
  destruct H4 as ((response & ->) & Hc4 & Hp4 & Hy4).
  cbn in H. destruct H as ([] & t5 & -> & -> & ->).
  split; [reflexivity|]. split; [|split].
  - exists (t1 ++ t2 ++ t3 ++ t4)%list, response.
    split; [now rewrite <- !app_assoc|].
    rewrite !yielded_app, Hy1, Hy2, Hy3, Hy4. reflexivity.
  - rewrite !post_urls_app, Hp1, Hp2, Hp3, Hp4. cbn.
    destruct Hd as [ -> | [ -> | -> ] ]; cbn; auto.
  - exists (completions t1), (completions t4).
    rewrite !completions_app, Hc2, Hc3. cbn.
    rewrite app_nil_r. auto.
Qed.

(** The stages of a run on a query: the routing, the invocation of each
    analyst that was selected, the merging, and the one event that carries
    the merged response. *)
Lemma run_async_stages
    (parent_context user_text : pyval) (query : string)
    (t : trace sig) (r : result unit) :
  user_query parent_context = Ok user_text ->
  session_query parent_context user_text = Ok (PStr query) ->
  query <> "" ->
  exec (run_async self parent_context) t r ->
  exists agents t_route t_bull t_bear t_merge bull_response bear_response response,
    t = (t_route ++ t_bull ++ t_bear ++ t_merge
         ++ [answered (S := sig) (Yield (mkEvent "agent" response)) tt])%list /\
    r = Ok tt /\
    exec (_determine_agents self query) t_route (Ok agents) /\
    exec (if selected "bull_analyst" agents
          then _call_agent_via_a2a (bull_agent_url self) query
          else ret (PStr ""))
         t_bull (Ok bull_response) /\
    exec (if selected "bear_analyst" agents
          then _call_agent_via_a2a (bear_agent_url self) query
          else ret (PStr ""))
         t_bear (Ok bear_response) /\
    exec (combined_response self query bull_response bear_response)
         t_merge (Ok response).
Proof.
  intros Hu Hs Hq. unfold run_async. rewrite Hu. cbn. rewrite Hs. cbn.
  apply String.eqb_neq in Hq. rewrite Hq. cbn [negb].
  rewrite exec_bind.
  intros (t1 & a1 & t1' & H1 & -> & H).
  destruct (determine_agents_run _ _ _ H1) as ((agents & -> & _) & _).
  rewrite exec_bind in H. destruct H as (t2 & a2 & t2' & H2 & -> & H).
  assert (G2 : exists v, a2 = Ok v).
  { destruct (selected "bull_analyst" agents).
    - apply invocation_run in H2. exact (proj1 H2).
    - destruct H2 as [_ ->]. eauto. }
  destruct G2 as (bull & ->).
  rewrite exec_bind in H. destruct H as (t3 & a3 & t3' & H3 & -> & H).
  assert (G3 : exists v, a3 = Ok v).
  { destruct (selected "bear_analyst" agents).
    - apply invocation_run in H3. exact (proj1 H3).
    - destruct H3 as [_ ->]. eauto. }
  destruct G3 as (bear & ->).
  rewrite exec_bind in H. destruct H as (t4 & a4 & t4' & H4 & -> & H).
  destruct (combined_response_run _ _ _ _ _ H4) as ((response & ->) & _).
  cbn in H. destruct H as ([] & t5 & -> & -> & ->).
  exists agents, t1, t2, t3, t4, bull, bear, response.
  repeat split; auto.
Qed.

(** C3.  In every run of [run_async] on a query the text of the one event
    yielded is the merge of what the two invocations returned: with both
    texts the Bull section, a rule and the Bear section, in this order;
    with one text that side's section alone; and no completion is asked
    for in between. *)
Theorem merged_response_format
    (parent_context user_text : pyval) (query : string)
    (t : trace sig) (r : result unit) :
  user_query parent_context = Ok user_text ->
  session_query parent_context user_text = Ok (PStr query) ->
  query <> "" ->
  exec (run_async self parent_context) t r ->
  exists agents t_route t_bull t_bear t_merge bull_response bear_response response,
    t = (t_route ++ t_bull ++ t_bear ++ t_merge
         ++ [answered (S := sig) (Yield (mkEvent "agent" response)) tt])%list /\
    exec (_determine_agents self query) t_route (Ok agents) /\
    exec (if selected "bull_analyst" agents
          then _call_agent_via_a2a (bull_agent_url self) query
          else ret (PStr ""))
         t_bull (Ok bull_response) /\
    exec (if selected "bear_analyst" agents
          then _call_agent_via_a2a (bear_agent_url self) query
          else ret (PStr ""))
         t_bear (Ok bear_response) /\
    forall bull bear,
      bull_response = PStr bull -> bear_response = PStr bear ->
      (bull <> "" -> bear <> "" ->
       t_merge = [] /\
       response = "## Bull Case" ++ nl ++ nl ++ bull ++ nl ++ nl ++ "---" ++ nl ++ nl
                  ++ "## Bear Case" ++ nl ++ nl ++ bear) /\
      (bull <> "" -> bear = "" ->
       t_merge = [] /\ response = "## Bull Case" ++ nl ++ nl ++ bull) /\
      (bull = "" -> bear <> "" ->
       t_merge = [] /\ response = "## Bear Case" ++ nl ++ nl ++ bear).
Proof.
  intros Hu Hs Hq H.
  destruct (run_async_stages _ _ _ _ _ Hu Hs Hq H)
    as (agents & t1 & t2 & t3 & t4 & b & c & response
        & -> & _ & H1 & H2 & H3 & H4).
  exists agents, t1, t2, t3, t4, b, c, response.
  split; [reflexivity|]. split; [exact H1|]. split; [exact H2|]. split; [exact H3|].
  intros bull bear -> ->.
  split; [|split].
  - intros Hb Hc.
    rewrite (proj1 (combined_response_merges self query bull bear Hb Hc)) in H4.
    destruct H4 as [-> E]. inversion E. auto.
  - intros Hb ->.
    assert (K : "x" <> "") by discriminate.
    rewrite (proj1 (proj2 (combined_response_merges self query bull "x" Hb K))) in H4.
    destruct H4 as [-> E]. inversion E. auto.
  - intros -> Hc.
    assert (K : "x" <> "") by discriminate.
    rewrite (proj2 (proj2 (combined_response_merges self query "x" bear K Hc))) in H4.
    destruct H4 as [-> E]. inversion E. auto.
Qed.

(** C6.  In every run of [run_async] on a query in which both invocations
    returned the empty text, exactly one completion is asked for between
    the invocations and the event, on the system prompt followed by the
    query; the event yielded carries its text as it is, or the error
    message when it raised; and the run itself raises nothing. *)
Theorem fallback_when_both_empty
    (parent_context user_text : pyval) (query : string)
    (t : trace sig) (r : result unit) :
  user_query parent_context = Ok user_text ->
  session_query parent_context user_text = Ok (PStr query) ->
  query <> "" ->
  exec (run_async self parent_context) t r ->
  exists agents t_route t_bull t_bear t_merge bull_response bear_response response,
    t = (t_route ++ t_bull ++ t_bear ++ t_merge
         ++ [answered (S := sig) (Yield (mkEvent "agent" response)) tt])%list /\
    r = Ok tt /\
    exec (_determine_agents self query) t_route (Ok agents) /\
    exec (if selected "bull_analyst" agents
          then _call_agent_via_a2a (bull_agent_url self) query
          else ret (PStr ""))
         t_bull (Ok bull_response) /\
    exec (if selected "bear_analyst" agents
          then _call_agent_via_a2a (bear_agent_url self) query
          else ret (PStr ""))
         t_bear (Ok bear_response) /\
    (bull_response = PStr "" -> bear_response = PStr "" ->
     exists answer,
       t_merge
       = [answered (S := sig)
            (MessagesCreate (model self) 4096
               (ORCHESTRATOR_SYSTEM_PROMPT ++ nl ++ nl ++ "User Query: " ++ query
                ++ nl ++ nl ++ "Provide a financial analysis based on the query."))
            answer] /\
       (forall text more, answer = Ok (TextBlock text :: more) -> response = text) /\
       (forall e, answer = Raise e ->
                  response = "Error generating response: " ++ exn_msg e)).
Proof.
  intros Hu Hs Hq H.
  destruct (run_async_stages _ _ _ _ _ Hu Hs Hq H)
    as (agents & t1 & t2 & t3 & t4 & b & c & response
        & -> & -> & H1 & H2 & H3 & H4).
  exists agents, t1, t2, t3, t4, b, c, response.
  split; [reflexivity|]. split; [reflexivity|].
  split; [exact H1|]. split; [exact H2|]. split; [exact H3|].
  intros -> ->.
  destruct (combined_response_falls_back self query _ _ H4)
    as (answer & -> & Htext & Hraise & _).
  exists answer. split; [reflexivity|]. split.
  - intros text more E. specialize (Htext text more E). now inversion Htext.
  - intros e E. specialize (Hraise e E). now inversion Hraise.
Qed.

End Runs.

Lemma merged_response_format_witness :
  user_query Scenario.analyze_context = Ok (PStr "Analyze NVDA") /\
  session_query Scenario.analyze_context (PStr "Analyze NVDA")
  = Ok (PStr "Analyze NVDA") /\
  "Analyze NVDA" <> "" /\
  exec (@run_async ascii_builtins Scenario.agent Scenario.analyze_context)
       Scenario.bull_only_run (Ok tt) /\
  exists agents t_route t_bull t_bear t_merge bull_response bear_response response,
    Scenario.bull_only_run
    = (t_route ++ t_bull ++ t_bear ++ t_merge
       ++ [answered (S := sig) (Yield (mkEvent "agent" response)) tt])%list /\
    exec (@_determine_agents ascii_builtins Scenario.agent "Analyze NVDA")
         t_route (Ok agents) /\
    exec (if selected "bull_analyst" agents
          then _call_agent_via_a2a (bull_agent_url Scenario.agent) "Analyze NVDA"
          else ret (PStr ""))
         t_bull (Ok bull_response) /\
    exec (if selected "bear_analyst" agents
          then _call_agent_via_a2a (bear_agent_url Scenario.agent) "Analyze NVDA"
          else ret (PStr ""))
         t_bear (Ok bear_response) /\
    forall bull bear,
      bull_response = PStr bull -> bear_response = PStr bear ->
      (bull <> "" -> bear <> "" ->
       t_merge = [] /\
       response = "## Bull Case" ++ nl ++ nl ++ bull ++ nl ++ nl ++ "---" ++ nl ++ nl
                  ++ "## Bear Case" ++ nl ++ nl ++ bear) /\
      (bull <> "" -> bear = "" ->
       t_merge = [] /\ response = "## Bull Case" ++ nl ++ nl ++ bull) /\
      (bull = "" -> bear <> "" ->
       t_merge = [] /\ response = "## Bear Case" ++ nl ++ nl ++ bear).
Proof.
  assert (H1 : user_query Scenario.analyze_context = Ok (PStr "Analyze NVDA"))
    by reflexivity.
  assert (H2 : session_query Scenario.analyze_context (PStr "Analyze NVDA")
               = Ok (PStr "Analyze NVDA")) by reflexivity.
  assert (H3 : "Analyze NVDA" <> "") by discriminate.
  assert (H4 : exec (@run_async ascii_builtins Scenario.agent Scenario.analyze_context)
                    Scenario.bull_only_run (Ok tt)) by replay.
  split; [exact H1|]. split; [exact H2|]. split; [exact H3|]. split; [exact H4|].
  exact (@merged_response_format ascii_builtins Scenario.agent _ _ _ _ _ H1 H2 H3 H4).
Defined.

Lemma fallback_when_both_empty_witness :
  user_query Scenario.analyze_context = Ok (PStr "Analyze NVDA") /\
  session_query Scenario.analyze_context (PStr "Analyze NVDA")
  = Ok (PStr "Analyze NVDA") /\
  "Analyze NVDA" <> "" /\
  exec (@run_async ascii_builtins Scenario.agent Scenario.analyze_context)
       Scenario.fallback_run (Ok tt) /\
  exists agents t_route t_bull t_bear t_merge bull_response bear_response response,
    Scenario.fallback_run
    = (t_route ++ t_bull ++ t_bear ++ t_merge
       ++ [answered (S := sig) (Yield (mkEvent "agent" response)) tt])%list /\
    Ok tt = Ok tt /\
    exec (@_determine_agents ascii_builtins Scenario.agent "Analyze NVDA")
         t_route (Ok agents) /\
    exec (if selected "bull_analyst" agents
          then _call_agent_via_a2a (bull_agent_url Scenario.agent) "Analyze NVDA"
          else ret (PStr ""))
         t_bull (Ok bull_response) /\
    exec (if selected "bear_analyst" agents
          then _call_agent_via_a2a (bear_agent_url Scenario.agent) "Analyze NVDA"
          else ret (PStr ""))
         t_bear (Ok bear_response) /\
    (bull_response = PStr "" -> bear_response = PStr "" ->
     exists answer,
       t_merge
       = [answered (S := sig)
            (MessagesCreate (model Scenario.agent) 4096
               (ORCHESTRATOR_SYSTEM_PROMPT ++ nl ++ nl ++ "User Query: "
                ++ "Analyze NVDA"
                ++ nl ++ nl ++ "Provide a financial analysis based on the query."))
            answer] /\
       (forall text more, answer = Ok (TextBlock text :: more) -> response = text) /\
       (forall e, answer = Raise e ->
                  response = "Error generating response: " ++ exn_msg e)).
Proof.
  assert (H1 : user_query Scenario.analyze_context = Ok (PStr "Analyze NVDA"))
    by reflexivity.
  assert (H2 : session_query Scenario.analyze_context (PStr "Analyze NVDA")
               = Ok (PStr "Analyze NVDA")) by reflexivity.
  assert (H3 : "Analyze NVDA" <> "") by discriminate.
  assert (H4 : exec (@run_async ascii_builtins Scenario.agent Scenario.analyze_context)
                    Scenario.fallback_run (Ok tt)) by replay.
  split; [exact H1|]. split; [exact H2|]. split; [exact H3|]. split; [exact H4|].
  exact (@fallback_when_both_empty ascii_builtins Scenario.agent _ _ _ _ _ H1 H2 H3 H4).
Defined.

Lemma routing_always_decides_witness :
  exec (@_determine_agents ascii_builtins Scenario.agent "What are the risks for AAPL?")
       Scenario.bear_classification (Ok ["bear_analyst"]) /\
  (exists agents, Ok ["bear_analyst"] = Ok agents /\ routing_decision agents) /\
  (completions Scenario.bear_classification = []
   \/ completions Scenario.bear_classification = [50%Z]) /\
  post_urls Scenario.bear_classification = [] /\
  yielded Scenario.bear_classification = [].
Proof.
  assert (H : exec (@_determine_agents ascii_builtins Scenario.agent
                      "What are the risks for AAPL?")
                   Scenario.bear_classification (Ok ["bear_analyst"])) by replay.
  split; [exact H|].
  exact (@routing_always_decides ascii_builtins Scenario.agent _ _ _ H).
Defined.

Lemma run_async_on_a_query_witness :
  user_query Scenario.analyze_context = Ok (PStr "Analyze NVDA") /\
  session_query Scenario.analyze_context (PStr "Analyze NVDA")
  = Ok (PStr "Analyze NVDA") /\
  "Analyze NVDA" <> "" /\
  exec (@run_async ascii_builtins Scenario.agent Scenario.analyze_context)
       Scenario.bull_only_run (Ok tt) /\
  Ok tt = Ok tt /\
  (exists t' response,
     Scenario.bull_only_run
     = (t' ++ [answered (S := sig) (Yield (mkEvent "agent" response)) tt])%list /\
     yielded t' = []) /\
  (post_urls Scenario.bull_only_run
   = [bull_agent_url Scenario.agent; bear_agent_url Scenario.agent] \/
   post_urls Scenario.bull_only_run = [bull_agent_url Scenario.agent] \/
   post_urls Scenario.bull_only_run = [bear_agent_url Scenario.agent]) /\
  (exists n m, completions Scenario.bull_only_run = (n ++ m)%list /\
               (n = [] \/ n = [50%Z]) /\ (m = [] \/ m = [4096%Z])).
Proof.
  assert (H1 : user_query Scenario.analyze_context = Ok (PStr "Analyze NVDA"))
    by reflexivity.
  assert (H2 : session_query Scenario.analyze_context (PStr "Analyze NVDA")
               = Ok (PStr "Analyze NVDA")) by reflexivity.
  assert (H3 : "Analyze NVDA" <> "") by discriminate.
  assert (H4 : exec (@run_async ascii_builtins Scenario.agent Scenario.analyze_context)
                    Scenario.bull_only_run (Ok tt)) by replay.
  split; [exact H1|]. split; [exact H2|]. split; [exact H3|]. split; [exact H4|].
  exact (@run_async_on_a_query ascii_builtins Scenario.agent _ _ _ _ _ H1 H2 H3 H4).
Defined.

End OrchestratorRuns.

(** ** Whole runs of the LangGraph specialist's handler *)

Module BullServerRuns.
Import Py Eff Spec PyFacts BullServer BullServerFacts.

Lemma last_content_skips (skipped rest : list pyval) (msg c : pyval) :
  Forall no_content skipped ->
  getattr_opt msg "content" = Some c ->
  truthy c = true ->
  last_content (skipped ++ msg :: rest) = c.
Proof.
  intros Hall Hc Ht. induction Hall as [|m skipped Hm _ IH]; cbn.
  - rewrite Hc, Ht. reflexivity.
  - destruct (getattr_opt m "content") as [x|] eqn:E; [|exact IH].
    rewrite (Hm x E). exact IH.
Qed.

(** The four identifiers drawn before the success envelope is built. *)
Ltac four_uuids H :=
  destruct H as (? & ? & -> & ? & ? & -> & ? & ? & -> & ? & ? & -> & H).

(** No query is read off the body. *)
Ltac no_query :=
  let K := fresh "K" in
  intros ? (? & ? & ? & ? & K);
  repeat match type of K with
         | Ok _ = Ok _ /\ _ =>
             let E := fresh "E" in destruct K as [E K]; inversion E; clear E; subst
         | _ /\ _ => let E := fresh "E" in destruct K as [E K]
         end;
  congruence.

Section Handler.
Context {B : Builtins}.

(** Every execution of the [try] block.  Either nothing happens: no
    non-empty query is read off the body, and the block ends in an
    exception or in the error -32600.  Or the agent is invoked, once and
    first, on the query; when it raises so does the block, and when the
    block returns it has drawn four identifiers and built the success
    envelope from the text of the result. *)
Lemma handle_body_run (body : pyval) (t : trace sig) (a : result JSONResponse) :
  exec (handle_body body) t a ->
  (t = [] /\
   (forall query, query_of body query -> truthy query = false) /\
   forall resp, a = Ok resp ->
     exists query id,
       query_of body query /\ truthy query = false /\
       get body "id" PNone = Ok id /\
       resp = error_response id (-32600) "No text content in message") \/
  (exists query answer rest,
     t = answered (S := sig) (AgentInvoke query) answer :: rest /\
     query_of body query /\ truthy query = true /\
     invocations rest = [] /\
     match answer with
     | Raise e => rest = [] /\ a = Raise e
     | Ok result =>
         forall resp, a = Ok resp ->
           exists id context_id task_id artifact_id message_id response_text,
             rest = [answered (S := sig) Uuid4 context_id;
                     answered (S := sig) Uuid4 task_id;
                     answered (S := sig) Uuid4 artifact_id;
                     answered (S := sig) Uuid4 message_id] /\
             response_text_of result response_text /\
             get body "id" PNone = Ok id /\
             resp = success_response id context_id task_id artifact_id message_id
                      response_text
     end).
Proof.
  unfold handle_body, query_of.
  destruct (get body "params" (PDict [])) as [params|e] eqn:E1; cbn;
    [|intros [-> ->]; left; split; [reflexivity|];
      split; [no_query|intros resp H; discriminate H]].
  destruct (get params "message" (PDict [])) as [message|e] eqn:E2; cbn;
    [|intros [-> ->]; left; split; [reflexivity|];
      split; [no_query|intros resp H; discriminate H]].
  destruct (get message "parts" (PList [])) as [parts|e] eqn:E3; cbn;
    [|intros [-> ->]; left; split; [reflexivity|];
      split; [no_query|intros resp H; discriminate H]].
  destruct (py_iter parts) as [items|e] eqn:E4; cbn;
    [|intros [-> ->]; left; split; [reflexivity|];
      split; [no_query|intros resp H; discriminate H]].
  destruct (first_text_part items) as [query|e] eqn:E5; cbn;
    [|intros [-> ->]; left; split; [reflexivity|];
      split; [no_query|intros resp H; discriminate H]].
  assert (Q : exists params0 message0 parts0 items0,
            Ok params = Ok params0 /\
            get params0 "message" (PDict []) = Ok message0 /\
            get message0 "parts" (PList []) = Ok parts0 /\
            py_iter parts0 = Ok items0 /\
            first_text_part items0 = Ok query)
    by (exists params, message, parts, items; auto).
  destruct (truthy query) eqn:Tq; cbn -[JSONResponse_of success_content error_content].
  - intros (answer & t1 & -> & H). right. exists query, answer, t1.
    split; [reflexivity|]. split; [exact Q|].
    split; [first [reflexivity|exact Tq]|].
    destruct answer as [result|e]; cbn -[JSONResponse_of success_content] in H;
      [|destruct H as [-> ->]; split; [reflexivity|split; reflexivity]].
    assert (G : forall response_text,
              response_text_of result response_text ->
              (exists (context_id : string) (t2 : trace sig),
                 t1 = answered (S := sig) Uuid4 context_id :: t2 /\
                 exists (task_id : string) (t3 : trace sig),
                   t2 = answered (S := sig) Uuid4 task_id :: t3 /\
                   exists (artifact_id : string) (t4 : trace sig),
                     t3 = answered (S := sig) Uuid4 artifact_id :: t4 /\
                     exists (message_id : string) (t5 : trace sig),
                       t4 = answered (S := sig) Uuid4 message_id :: t5 /\
                       exec
                         (bind (lift (get body "id" PNone))
                            (fun id =>
                               lift (JSONResponse_of
                                       (success_content id context_id task_id
                                          artifact_id message_id response_text))))
                         t5 a) ->
              invocations t1 = [] /\
              forall resp, a = Ok resp ->
                exists id context_id task_id artifact_id message_id response_text0,
                  t1 = [answered (S := sig) Uuid4 context_id;
                        answered (S := sig) Uuid4 task_id;
                        answered (S := sig) Uuid4 artifact_id;
                        answered (S := sig) Uuid4 message_id] /\
                  response_text_of result response_text0 /\
                  get body "id" PNone = Ok id /\
                  resp = success_response id context_id task_id artifact_id
                           message_id response_text0).
    { intros response_text Hrt K. four_uuids K.
      cbn -[JSONResponse_of success_content] in K.
      destruct (get body "id" PNone) as [id|e] eqn:E7;
        cbn -[JSONResponse_of success_content] in K.
      - destruct K as [-> K]. split; [reflexivity|].
        intros resp Hr. subst a. apply JSONResponse_of_content in Hr.
        exists id. do 4 eexists. exists response_text.
        split; [reflexivity|]. split; [exact Hrt|]. split; [reflexivity|exact Hr].
      - destruct K as [-> ->]. split; [reflexivity|].
        intros resp Hr. discriminate Hr. }
    destruct (py_in "messages" result) as [has|e] eqn:E6;
      cbn -[JSONResponse_of success_content] in H;
      [|destruct H as [-> ->]; split; [reflexivity|intros resp K; discriminate K]].
    destruct has; cbn -[JSONResponse_of success_content] in H.
    + destruct (getitem result "messages") as [msgs|e] eqn:E8;
        cbn -[JSONResponse_of success_content] in H;
        [|destruct H as [-> ->]; split; [reflexivity|intros resp K; discriminate K]].
      destruct (py_reversed msgs) as [reversed|e] eqn:E9;
        cbn -[JSONResponse_of success_content] in H;
        [|destruct H as [-> ->]; split; [reflexivity|intros resp K; discriminate K]].
      eapply G; [|exact H]. right. exists msgs, reversed. auto.
    + eapply G; [|exact H]. left. auto.
  - intros H. left.
    assert (Hno : forall q,
              (exists params0 message0 parts0 items0,
                 Ok params = Ok params0 /\
                 get params0 "message" (PDict []) = Ok message0 /\
                 get message0 "parts" (PList []) = Ok parts0 /\
                 py_iter parts0 = Ok items0 /\
                 first_text_part items0 = Ok q) -> truthy q = false).
    { intros q (p0 & m0 & ps0 & i0 & K1 & K2 & K3 & K4 & K5).
      inversion K1; subst p0. rewrite E2 in K2. inversion K2; subst m0.
      rewrite E3 in K3. inversion K3; subst ps0.
      rewrite E4 in K4. inversion K4; subst i0.
      rewrite E5 in K5. inversion K5; subst q. exact Tq. }
    destruct (get body "id" PNone) as [id|e] eqn:E7;
      cbn -[JSONResponse_of error_content] in H.
    + destruct H as [-> ->]. split; [reflexivity|]. split; [exact Hno|].
      intros resp Hr. apply JSONResponse_of_content in Hr.
      exists query, id. split; [exact Q|]. auto.
    + destruct H as [-> ->]. split; [reflexivity|]. split; [exact Hno|].
      intros resp Hr. discriminate Hr.
Qed.

(** What the [try] block returns: the error -32600 without any event, or
    the success envelope after one invocation of the agent and four fresh
    identifiers. *)
Lemma handle_body_outcomes (body : pyval) (t : trace sig) (resp : JSONResponse) :
  exec (handle_body body) t (Ok resp) ->
  exists query id,
    query_of body query /\ get body "id" PNone = Ok id /\
    ((truthy query = false /\ t = [] /\
      resp = error_response id (-32600) "No text content in message") \/
     (truthy query = true /\
      exists result context_id task_id artifact_id message_id response_text,
        t = [answered (S := sig) (AgentInvoke query) (Ok result);
             answered (S := sig) Uuid4 context_id;
             answered (S := sig) Uuid4 task_id;
             answered (S := sig) Uuid4 artifact_id;
             answered (S := sig) Uuid4 message_id] /\
        response_text_of result response_text /\
        resp = success_response id context_id task_id artifact_id message_id
                 response_text)).
Proof.
  intros H. apply handle_body_run in H.
  destruct H as [(-> & _ & H)|(query & answer & rest & -> & Hq & Tq & _ & H)].
  - destruct (H resp eq_refl) as (query & id & Hq & Tq & Hid & ->).
    exists query, id. split; [exact Hq|]. split; [exact Hid|]. left. auto.
  - destruct answer as [result|e]; [|destruct H as [_ H]; discriminate H].
    destruct (H resp eq_refl) as (id & c & k & a & m & text & -> & Hrt & Hid & ->).
    exists query, id. split; [exact Hq|]. split; [exact Hid|]. right.
    split; [exact Tq|]. exists result, c, k, a, m, text. auto.
Qed.

(** The [except] clause on an object whose id renders. *)
Lemma handler_run (top : list (string * pyval)) (e : exn)
    (t : trace sig) (r : result JSONResponse) :
  renders (field_or top "id" PNone) ->
  exec (bind (lift (get (PDict top) "id" PNone))
          (fun id => lift (JSONResponse_of (error_content id (-32603) (exn_msg e)))))
       t r ->
  t = [] /\ r = Ok (error_response (field_or top "id" PNone) (-32603) (exn_msg e)).
Proof.
  intros Hid H. cbn -[JSONResponse_of error_content] in H.
  change (match lookup "id" top with Some x => x | None => PNone end)
    with (field_or top "id" PNone) in H.
  rewrite (error_response_built _ _ _ Hid) in H. exact H.
Qed.

(** X3.  A request is always answered unless its body is JSON of another
    kind than an object, or carries an id that no JSON response can hold:
    every execution of [handle_message] returns a response with status 200
    that has either an error or a result, whatever the parts are and
    whatever the agent does.  It echoes the id of the body, and has a null
    id when the body was not JSON at all. *)
Theorem request_is_always_answered
    (request : Request) (t : trace sig) (r : result JSONResponse) :
  (forall body, request_json request = Ok body ->
                is_object body /\ renders (request_id body)) ->
  exec (handle_message request) t r ->
  exists resp reply,
    r = Ok resp /\ status_code resp = 200%Z /\
    content resp = PDict reply /\
    lookup "jsonrpc" reply = Some (PStr "2.0") /\
    lookup "id" reply
    = Some match request_json request with
           | Ok body => request_id body
           | Raise _ => PNone
           end /\
    ((exists error, lookup "error" reply = Some error /\ lookup "result" reply = None) \/
     (exists result, lookup "result" reply = Some result /\ lookup "error" reply = None)).
Proof.
  intros Hobj. unfold handle_message.
  destruct (request_json request) as [body|e0].
  - destruct (Hobj body eq_refl) as [[top ->] Hid]. rewrite exec_try_except.
    intros (t1 & a & t2 & H1 & -> & H2).
    destruct a as [resp|e].
    + destruct H2 as [-> ->].
      apply handle_body_outcomes in H1.
      destruct H1 as (query & id & _ & Eid & [(_ & _ & ->)|(_ & H)]).
      * cbn in Eid. inversion Eid. eexists. eexists.
        repeat split; try reflexivity. left. eexists. split; reflexivity.
      * destruct H as (result & c & k & a & m & text & _ & _ & ->).
        cbn in Eid. inversion Eid. eexists. eexists.
        repeat split; try reflexivity. right. eexists. split; reflexivity.
    + apply (handler_run top e _ _ Hid) in H2.
      destruct H2 as [-> ->]. eexists. eexists.
      repeat split; try reflexivity. left. eexists. split; reflexivity.
  - intros [-> ->]. eexists. eexists.
    repeat split; try reflexivity. left. eexists. split; reflexivity.
Qed.

(** X4.  A body that is JSON but no object makes the handler itself raise:
    the [except] clause evaluates [body.get] again.  No JSON-RPC error is
    returned for it. *)
Theorem non_object_body_raises (request : Request) (body : pyval) :
  request_json request = Ok body ->
  (forall top, body <> PDict top) ->
  handle_message request = Ret (Raise (AttributeError body "get")).
Proof.
  intros Hj Hn. unfold handle_message. rewrite Hj.
  destruct body; try reflexivity. exfalso. eapply Hn. reflexivity.
Qed.

(** X5.  When the agent raises, the answer is the error -32603 carrying the
    message of the exception and the id of the request, provided a JSON
    response can hold that id, and the handler draws no identifier. *)
Theorem agent_failure_is_internal_error
    (request : Request) (top : list (string * pyval)) (query : pyval) (e : exn)
    (t : trace sig) (r : result JSONResponse) :
  request_json request = Ok (PDict top) ->
  renders (field_or top "id" PNone) ->
  exec (handle_message request) t r ->
  In (query, Raise e) (invocations t) ->
  List.length t = 1 /\
  r = Ok (error_response (field_or top "id" PNone) (-32603) (exn_msg e)).
Proof.
  intros Hj Hid. unfold handle_message. rewrite Hj. rewrite exec_try_except.
  intros (t1 & a & t2 & H1 & -> & H2).
  assert (T2 : t2 = []).
  { destruct a as [resp|e']; [exact (proj1 H2)|].
    exact (proj1 (handler_run top e' _ _ Hid H2)). }
  subst t2. rewrite app_nil_r.
  apply handle_body_run in H1.
  destruct H1 as [(-> & _)|(q & answer & rest & -> & _ & _ & Hrest & H1)];
    [intros []|].
  change (invocations (answered (S := sig) (AgentInvoke q) answer :: rest))
    with ((q, answer) :: invocations rest).
  rewrite Hrest. intros [K|[]]. inversion K. subst q answer.
  destruct H1 as [-> ->].
  split; [reflexivity|]. exact (proj2 (handler_run top e _ _ Hid H2)).
Qed.

(** X6.  The envelope the orchestrator sends reaches the agent unchanged:
    on the payload built for a non-empty query the handler first invokes
    the agent on exactly that query; on an empty query it answers the error
    -32600 under the id of the payload and invokes nothing. *)
Theorem orchestrator_payload_reaches_agent
    (id message_id query : string) (t : trace sig) (r : result JSONResponse) :
  exec (handle_message
          {| request_json := Ok (Orchestrator.a2a_payload id message_id query) |})
       t r ->
  (query = "" ->
   t = [] /\
   r = Ok (error_response (PStr id) (-32600) "No text content in message")) /\
  (query <> "" ->
   exists answer, invocations t = [(PStr query, answer)]).
Proof.
  intros H. split.
  - intros ->. cbn in H. destruct H as [-> ->]. split; reflexivity.
  - intros Hq. unfold handle_message in H. cbn [request_json] in H.
    rewrite exec_try_except in H. destruct H as (t1 & a & t2 & H1 & -> & H2).
    assert (Hid : renders (field_or
                             [("jsonrpc", PStr "2.0"); ("method", PStr "message/send");
                              ("id", PStr id);
                              ("params",
                               PDict [("message",
                                       PDict [("messageId", PStr message_id);
                                              ("parts",
                                               PList [PDict [("text", PStr query)]]);
                                              ("role", PStr "user")])])]
                             "id" PNone)) by reflexivity.
    assert (T2 : t2 = []).
    { destruct a as [resp|e']; [exact (proj1 H2)|].
      exact (proj1 (handler_run _ e' _ _ Hid H2)). }
    subst t2. rewrite app_nil_r.
    assert (Q : query_of (Orchestrator.a2a_payload id message_id query) (PStr query)).
    { do 4 eexists. repeat split; reflexivity. }
    assert (F : forall q, query_of (Orchestrator.a2a_payload id message_id query) q ->
                          q = PStr query).
    { intros q (params & message & parts & items & E1 & E2 & E3 & E4 & E5).
      cbn in E1. inversion E1. subst params.
      cbn in E2. inversion E2. subst message.
      cbn in E3. inversion E3. subst parts.
      cbn in E4. inversion E4. subst items.
      cbn in E5. inversion E5. reflexivity. }
    apply handle_body_run in H1.
    destruct H1 as [(-> & Hno & _)|(q & answer & rest & -> & Hqo & _ & Hrest & _)].
    + exfalso. apply Hq. specialize (Hno _ Q). cbn in Hno.
      apply Bool.negb_false_iff in Hno. now apply String.eqb_eq in Hno.
    + exists answer. rewrite (F _ Hqo).
      change (invocations (answered (S := sig) (AgentInvoke (PStr query)) answer :: rest))
        with ((PStr query, answer) :: invocations rest).
      rewrite Hrest. reflexivity.
Qed.

(** X7.  The reply travels back.  Every response the handler returns for an
    object body is one of two.  It is an error reply, and the orchestrator's
    client reads the empty string from it.  Or it is the success envelope
    built after the one invocation of the agent, and the client reads from
    it, without raising, exactly the text the handler took from the
    agent's result. *)
Theorem reply_read_by_orchestrator
    (request : Request) (top : list (string * pyval))
    (t : trace sig) (resp : JSONResponse) :
  request_json request = Ok (PDict top) ->
  exec (handle_message request) t (Ok resp) ->
  (exists code message,
     resp = error_response (field_or top "id" PNone) code message /\
     Orchestrator.extract_text (content resp) = Ok (PStr "")) \/
  (exists query result text context_id task_id artifact_id message_id,
     invocations t = [(query, Ok result)] /\
     response_text_of result text /\
     resp = success_response (field_or top "id" PNone)
              context_id task_id artifact_id message_id text /\
     Orchestrator.extract_text (content resp) = Ok text).
Proof.
  intros Hj. unfold handle_message. rewrite Hj. rewrite exec_try_except.
  intros (t1 & a & t2 & H1 & -> & H2).
  destruct a as [resp'|e].
  - destruct H2 as [-> H2]. inversion H2. subst resp'. rewrite app_nil_r.
    apply handle_body_outcomes in H1.
    destruct H1 as (q & id & _ & Eid & [(_ & -> & ->)|(_ & H)]);
      cbn in Eid; inversion Eid; subst id.
    + left. exists (-32600)%Z, "No text content in message".
      split; reflexivity.
    + destruct H as (result & c & k & a & m & text & -> & Hrt & ->).
      right. exists q, result, text, c, k, a, m.
      split; [reflexivity|]. split; [exact Hrt|]. split; reflexivity.
  - cbn -[JSONResponse_of error_content] in H2. destruct H2 as [-> H2].
    symmetry in H2. apply JSONResponse_of_content in H2. subst resp.
    left. exists (-32603)%Z, (exn_msg e). split; reflexivity.
Qed.

(** X8.  The text answered is the content of the last message of the
    agent's result that has a non-empty one. *)
Theorem answer_is_last_content
    (state : list (string * pyval)) (before after : list pyval) (msg c text : pyval) :
  lookup "messages" state = Some (PList (before ++ msg :: after)) ->
  getattr_opt msg "content" = Some c ->
  truthy c = true ->
  Forall no_content after ->
  response_text_of (PDict state) text ->
  text = c.
Proof.
  intros Hm Hc Ht Hall [[H _]|(msgs & reversed & _ & Hg & Hr & ->)].
  - cbn in H. rewrite Hm in H. discriminate H.
  - cbn in Hg. rewrite Hm in Hg. inversion Hg. subst msgs.
    cbn in Hr. inversion Hr. subst reversed.
    rewrite rev_app_distr. cbn [rev]. rewrite <- app_assoc. cbn [app].
    apply last_content_skips; auto. now apply Forall_rev.
Qed.

(** X9.  The first part that has the key [text] decides: when its text is
    empty the request is refused with -32600, whatever the parts after it
    hold, provided a JSON response can hold the id of the request. *)
Theorem empty_first_text_hides_the_rest
    (request : Request) (body : pyval) (skipped rest : list pyval)
    (d : list (string * pyval)) (t : pyval) :
  request_json request = Ok body ->
  message_parts body (skipped ++ PDict d :: rest) ->
  Forall no_text_key skipped ->
  lookup "text" d = Some t ->
  truthy t = false ->
  renders (request_id body) ->
  handle_message request
  = Ret (Ok (error_response (request_id body) (-32600) "No text content in message")).
Proof.
  intros Hj (top & params & message & -> & Hp & Hm & Hparts) Hall Hd Ht Hid.
  assert (E : first_text_part (skipped ++ PDict d :: rest) = Ok t).
  { clear Hparts. induction Hall as [|part skipped (dp & -> & Hn) _ IH]; cbn.
    - rewrite Hd. reflexivity.
    - rewrite Hn. exact IH. }
  unfold handle_message. rewrite Hj.
  unfold handle_body, get. unfold field_or in Hp, Hm, Hparts.
  cbn -[JSONResponse_of error_content]. rewrite Hp.
  cbn -[JSONResponse_of error_content]. rewrite Hm.
  cbn -[JSONResponse_of error_content]. rewrite Hparts.
  cbn -[JSONResponse_of error_content].
  rewrite E. cbn -[JSONResponse_of error_content].
  rewrite Ht. cbn -[JSONResponse_of error_content].
  change (match lookup "id" top with Some x => x | None => PNone end)
    with (request_id (PDict top)).
  rewrite (error_response_built _ _ _ Hid). reflexivity.
Qed.

End Handler.

Lemma analyze_request_answers :
  forall body, request_json Scenario.analyze_request = Ok body ->
               is_object body /\ renders (request_id body).
Proof.
  intros body H. inversion H. split; [eexists; reflexivity|reflexivity].
Qed.

Lemma request_is_always_answered_witness :
  (forall body, request_json Scenario.analyze_request = Ok body ->
                is_object body /\ renders (request_id body)) /\
  exec (@handle_message Scenario.json_texts Scenario.analyze_request)
       Scenario.served_run
       (Ok (success_response (PStr "id-1") "ctx-1" "task-1" "art-1" "msg-9"
              (PStr "Momentum is strong"))) /\
  exists resp reply,
    Ok (success_response (PStr "id-1") "ctx-1" "task-1" "art-1" "msg-9"
          (PStr "Momentum is strong")) = Ok resp /\
    status_code resp = 200%Z /\
    content resp = PDict reply /\
    lookup "jsonrpc" reply = Some (PStr "2.0") /\
    lookup "id" reply = Some (PStr "id-1") /\
    ((exists error, lookup "error" reply = Some error /\ lookup "result" reply = None) \/
     (exists result, lookup "result" reply = Some result /\ lookup "error" reply = None)).
Proof.
  assert (H2 : exec (@handle_message Scenario.json_texts Scenario.analyze_request)
                    Scenario.served_run
                    (Ok (success_response (PStr "id-1") "ctx-1" "task-1" "art-1"
                           "msg-9" (PStr "Momentum is strong")))) by replay.
  split; [exact analyze_request_answers|]. split; [exact H2|].
  exact (@request_is_always_answered Scenario.json_texts Scenario.analyze_request _ _
           analyze_request_answers H2).
Defined.

Lemma non_object_body_raises_witness :
  request_json {| request_json := Ok (PList []) |} = Ok (PList []) /\
  (forall top, PList [] <> PDict top) /\
  @handle_message Scenario.json_texts {| request_json := Ok (PList []) |}
  = Ret (Raise (AttributeError (PList []) "get")).
Proof.
  assert (H1 : request_json {| request_json := Ok (PList []) |} = Ok (PList []))
    by reflexivity.
  assert (H2 : forall top, PList [] <> PDict top) by (intros top; discriminate).
  split; [exact H1|]. split; [exact H2|].
  exact (@non_object_body_raises Scenario.json_texts _ _ H1 H2).
Defined.

Lemma agent_failure_is_internal_error_witness :
  request_json Scenario.analyze_request
  = Ok (Orchestrator.a2a_payload "id-1" "msg-1" "Analyze NVDA") /\
  renders (PStr "id-1") /\
  exec (@handle_message Scenario.json_texts Scenario.analyze_request)
       Scenario.overloaded_run
       (Ok (error_response (PStr "id-1") (-32603) "model overloaded")) /\
  In (PStr "Analyze NVDA", Raise (Exn "RuntimeError" "model overloaded"))
     (invocations Scenario.overloaded_run) /\
  List.length Scenario.overloaded_run = 1 /\
  Ok (error_response (PStr "id-1") (-32603) "model overloaded")
  = Ok (error_response (PStr "id-1") (-32603) "model overloaded").
Proof.
  assert (H1 : request_json Scenario.analyze_request
               = Ok (Orchestrator.a2a_payload "id-1" "msg-1" "Analyze NVDA"))
    by reflexivity.
  assert (H0 : renders (PStr "id-1")) by reflexivity.
  assert (H2 : exec (@handle_message Scenario.json_texts Scenario.analyze_request)
                    Scenario.overloaded_run
                    (Ok (error_response (PStr "id-1") (-32603) "model overloaded")))
    by replay.
  assert (H3 : In (PStr "Analyze NVDA", Raise (Exn "RuntimeError" "model overloaded"))
                  (invocations Scenario.overloaded_run)) by (left; reflexivity).
  split; [exact H1|]. split; [exact H0|]. split; [exact H2|]. split; [exact H3|].
  exact (@agent_failure_is_internal_error Scenario.json_texts
           Scenario.analyze_request _ _ _ _ _ H1 H0 H2 H3).
Defined.

Lemma orchestrator_payload_reaches_agent_witness :
  exec (@handle_message Scenario.json_texts
          {| request_json := Ok (Orchestrator.a2a_payload "id-1" "msg-1" "Analyze NVDA") |})
       Scenario.served_run
       (Ok (success_response (PStr "id-1") "ctx-1" "task-1" "art-1" "msg-9"
              (PStr "Momentum is strong"))) /\
  ("Analyze NVDA" = "" ->
   Scenario.served_run = [] /\
   Ok (success_response (PStr "id-1") "ctx-1" "task-1" "art-1" "msg-9"
         (PStr "Momentum is strong"))
   = Ok (error_response (PStr "id-1") (-32600) "No text content in message")) /\
  ("Analyze NVDA" <> "" ->
   exists answer, invocations Scenario.served_run = [(PStr "Analyze NVDA", answer)]).
Proof.
  assert (H : exec (@handle_message Scenario.json_texts
                      {| request_json :=
                           Ok (Orchestrator.a2a_payload "id-1" "msg-1" "Analyze NVDA") |})
                   Scenario.served_run
                   (Ok (success_response (PStr "id-1") "ctx-1" "task-1" "art-1" "msg-9"
                          (PStr "Momentum is strong")))) by replay.
  split; [exact H|].
  exact (@orchestrator_payload_reaches_agent Scenario.json_texts
           "id-1" "msg-1" "Analyze NVDA" _ _ H).
Defined.

Lemma reply_read_by_orchestrator_witness :
  request_json Scenario.analyze_request
  = Ok (Orchestrator.a2a_payload "id-1" "msg-1" "Analyze NVDA") /\
  exec (@handle_message Scenario.json_texts Scenario.analyze_request)
       Scenario.served_run
       (Ok (success_response (PStr "id-1") "ctx-1" "task-1" "art-1" "msg-9"
              (PStr "Momentum is strong"))) /\
  ((exists code message,
      success_response (PStr "id-1") "ctx-1" "task-1" "art-1" "msg-9"
        (PStr "Momentum is strong")
      = error_response (PStr "id-1") code message /\
      Orchestrator.extract_text Scenario.bull_reply = Ok (PStr "")) \/
   (exists query result text context_id task_id artifact_id message_id,
      invocations Scenario.served_run = [(query, Ok result)] /\
      response_text_of result text /\
      success_response (PStr "id-1") "ctx-1" "task-1" "art-1" "msg-9"
        (PStr "Momentum is strong")
      = success_response (PStr "id-1") context_id task_id artifact_id message_id text /\
      Orchestrator.extract_text Scenario.bull_reply = Ok text)).
Proof.
  assert (H1 : request_json Scenario.analyze_request
               = Ok (Orchestrator.a2a_payload "id-1" "msg-1" "Analyze NVDA"))
    by reflexivity.
  assert (H2 : exec (@handle_message Scenario.json_texts Scenario.analyze_request)
                    Scenario.served_run
                    (Ok (success_response (PStr "id-1") "ctx-1" "task-1" "art-1"
                           "msg-9" (PStr "Momentum is strong")))) by replay.
  split; [exact H1|]. split; [exact H2|].
  exact (@reply_read_by_orchestrator Scenario.json_texts
           Scenario.analyze_request _ _ _ H1 H2).
Defined.

Lemma answer_is_last_content_witness :
  lookup "messages"
    [("messages",
      PList ([PObj "HumanMessage" [("content", PStr "Analyze NVDA")]]
             ++ PObj "AIMessage" [("content", PStr "Momentum is strong")]
             :: [PObj "AIMessage" [("content", PStr "")]])%list)]
  = Some (PList ([PObj "HumanMessage" [("content", PStr "Analyze NVDA")]]
                 ++ PObj "AIMessage" [("content", PStr "Momentum is strong")]
                 :: [PObj "AIMessage" [("content", PStr "")]])%list) /\
  getattr_opt (PObj "AIMessage" [("content", PStr "Momentum is strong")]) "content"
  = Some (PStr "Momentum is strong") /\
  truthy (PStr "Momentum is strong") = true /\
  Forall no_content [PObj "AIMessage" [("content", PStr "")]] /\
  response_text_of Scenario.analyst_result (PStr "Momentum is strong") /\
  PStr "Momentum is strong" = PStr "Momentum is strong".
Proof.
  assert (H1 : lookup "messages"
                 [("messages",
                   PList ([PObj "HumanMessage" [("content", PStr "Analyze NVDA")]]
                          ++ PObj "AIMessage" [("content", PStr "Momentum is strong")]
                          :: [PObj "AIMessage" [("content", PStr "")]])%list)]
               = Some (PList ([PObj "HumanMessage" [("content", PStr "Analyze NVDA")]]
                              ++ PObj "AIMessage" [("content", PStr "Momentum is strong")]
                              :: [PObj "AIMessage" [("content", PStr "")]])%list))
    by reflexivity.
  assert (H2 : getattr_opt (PObj "AIMessage" [("content", PStr "Momentum is strong")])
                 "content" = Some (PStr "Momentum is strong")) by reflexivity.
  assert (H3 : truthy (PStr "Momentum is strong") = true) by reflexivity.
  assert (H4 : Forall no_content [PObj "AIMessage" [("content", PStr "")]]).
  { constructor; [|constructor]. intros x Hx. cbn in Hx. inversion Hx. reflexivity. }
  assert (H5 : response_text_of Scenario.analyst_result (PStr "Momentum is strong")).
  { right. eexists. eexists. repeat split; reflexivity. }
  split; [exact H1|]. split; [exact H2|]. split; [exact H3|]. split; [exact H4|].
  split; [exact H5|].
  exact (answer_is_last_content _ _ _ _ _ _ H1 H2 H3 H4 H5).
Defined.

Lemma empty_first_text_hides_the_rest_witness :
  request_json {| request_json := Ok Scenario.empty_text_first_body |}
  = Ok Scenario.empty_text_first_body /\
  message_parts Scenario.empty_text_first_body
    ([PDict [("kind", PStr "data")]]
     ++ PDict [("text", PStr "")] :: [PDict [("text", PStr "Analyze NVDA")]])%list /\
  Forall no_text_key [PDict [("kind", PStr "data")]] /\
  lookup "text" [("text", PStr "")] = Some (PStr "") /\
  truthy (PStr "") = false /\
  renders (request_id Scenario.empty_text_first_body) /\
  @handle_message Scenario.json_texts
    {| request_json := Ok Scenario.empty_text_first_body |}
  = Ret (Ok (error_response (PStr "8") (-32600) "No text content in message")).
Proof.
  assert (H1 : request_json {| request_json := Ok Scenario.empty_text_first_body |}
               = Ok Scenario.empty_text_first_body) by reflexivity.
  assert (H2 : message_parts Scenario.empty_text_first_body
                 ([PDict [("kind", PStr "data")]]
                  ++ PDict [("text", PStr "")]
                  :: [PDict [("text", PStr "Analyze NVDA")]])%list).
  { eexists. eexists. eexists. repeat split; reflexivity. }
  assert (H3 : Forall no_text_key [PDict [("kind", PStr "data")]]).
  { constructor; [|constructor]. eexists. split; reflexivity. }
  assert (H4 : lookup "text" [("text", PStr "")] = Some (PStr "")) by reflexivity.
  assert (H5 : truthy (PStr "") = false) by reflexivity.
  assert (H6 : renders (request_id Scenario.empty_text_first_body)) by reflexivity.
  split; [exact H1|]. split; [exact H2|]. split; [exact H3|]. split; [exact H4|].
  split; [exact H5|]. split; [exact H6|].
  exact (@empty_first_text_hides_the_rest Scenario.json_texts
           _ _ _ _ _ _ H1 H2 H3 H4 H5 H6).
Defined.

End BullServerRuns.

(** ** Setting up tracing *)

Module TracingSetupFacts.
Import Py Eff Spec PyFacts TracingSetup.

(** Unfolds an execution: names every answer, splits on the answers that
    can be an exception. *)
Ltac explode H :=
  cbn in H;
  repeat
    (match type of H with
     | exists a : result unit, _ =>
         let a := fresh "a" in destruct H as [a H]; destruct a as [[]|?]
     | exists a : unit, _ =>
         let a := fresh "a" in destruct H as [a H]; destruct a
     | exists _, _ =>
         let a := fresh "a" in destruct H as [a H]
     | _ = _ :: _ /\ _ =>
         let E := fresh "E" in destruct H as [E H]; subst
     | context [if is_import_error ?e then _ else _] =>
         destruct (is_import_error e) eqn:?
     end; cbn in H).

Ltac finish H :=
  let E := fresh "E" in
  destruct H as [E H]; subst; try discriminate H; try (inversion H; subst).

Lemma credentials_unset (environ : list (string * string)) :
  unset (lookup "ARIZE_API_KEY" environ) || unset (lookup "ARIZE_SPACE_ID" environ)
  = false <-> credentials_set environ.
Proof.
  unfold credentials_set, unset. split.
  - destruct (lookup "ARIZE_API_KEY" environ) as [key|]; [|discriminate].
    destruct (lookup "ARIZE_SPACE_ID" environ) as [space|];
      [|rewrite orb_true_r; discriminate].
    intros H. apply orb_false_elim in H. destruct H as [H1 H2].
    apply String.eqb_neq in H1, H2. exists key, space. auto.
  - intros (key & space & -> & Hk & -> & Hs).
    apply String.eqb_neq in Hk, Hs. rewrite Hk, Hs. reflexivity.
Qed.

(** A setup that returns has set the flag. *)
Lemma setup_sets_flag
    (environ : list (string * string)) (service_name : string)
    (t : trace sig) (flag : bool) (tracer : N) :
  exec (setup_arize_tracing environ false service_name) t (Ok (flag, tracer)) ->
  flag = true.
Proof.
  unfold setup_arize_tracing.
  destruct (unset (lookup "ARIZE_API_KEY" environ)
            || unset (lookup "ARIZE_SPACE_ID" environ)).
  - intros H. explode H; finish H; reflexivity.
  - intros H. explode H; finish H; reflexivity.
Qed.

(** X10.  A setup that returns has set the flag, set the propagator before
    installing any tracer provider, and, when it went through the
    credentials, set the propagator once more after the last installation.
    Without credentials it installs the basic provider and neither registers
    nor builds an exporter. *)
Theorem setup_sets_propagator_first
    (environ : list (string * string)) (service_name : string)
    (t : trace sig) (flag : bool) (tracer : N) :
  exec (setup_arize_tracing environ false service_name) t (Ok (flag, tracer)) ->
  flag = true /\
  (credentials_set environ ->
   setup_steps t = [Propagator; Registered; Propagator] \/
   setup_steps t = [Propagator; ProviderSet; Propagator] \/
   setup_steps t = [Propagator; Registered; ProviderSet; Propagator]) /\
  (~ credentials_set environ ->
   setup_steps t = [Propagator; ProviderSet] /\ credential_uses t = 0).
Proof.
  unfold setup_arize_tracing.
  destruct (unset (lookup "ARIZE_API_KEY" environ)
            || unset (lookup "ARIZE_SPACE_ID" environ)) eqn:U.
  - intros H.
    assert (N : ~ credentials_set environ)
      by (intros C; apply credentials_unset in C; congruence).
    explode H; finish H;
      (split; [reflexivity|]); (split; [intros C; contradiction|]);
      intros _; split; reflexivity.
  - intros H. apply credentials_unset in U.
    explode H; finish H;
      (split; [reflexivity|]); (split; [|intros C; contradiction]);
      intros _; cbn; auto.
Qed.

(** X11.  Once a setup has returned, a further setup, for any service name, only
    fetches the tracer of that name: the propagator, the provider and the
    instrumentation are not touched again. *)
Theorem setup_is_idempotent
    (environ : list (string * string)) (service_name other_name : string)
    (t : trace sig) (flag : bool) (tracer : N) :
  exec (setup_arize_tracing environ false service_name) t (Ok (flag, tracer)) ->
  setup_arize_tracing environ flag other_name
  = Vis (S := sig) (GetTracer other_name) (fun tracer' => Ret (Ok (true, tracer'))).
Proof.
  intros H. apply setup_sets_flag in H. subst flag. reflexivity.
Qed.

(** X12.  A setup raises only what an import or [register] raised: a failing
    instrumentation of httpx or aiohttp never fails the setup. *)
Theorem setup_raises_only_import_or_register
    (environ : list (string * string)) (service_name : string)
    (t : trace sig) (e : exn) :
  exec (setup_arize_tracing environ false service_name) t (Raise e) ->
  In e (setup_failures t).
Proof.
  unfold setup_arize_tracing.
  destruct (unset (lookup "ARIZE_API_KEY" environ)
            || unset (lookup "ARIZE_SPACE_ID" environ)).
  - intros H. explode H; finish H; cbn; auto 10.
  - intros H. explode H; finish H; cbn; auto 10.
Qed.

(** X13.  Without credentials nothing that carries them is called, in any
    execution, finished or failed. *)
Theorem no_credentials_no_export
    (environ : list (string * string)) (service_name : string)
    (t : trace sig) (r : result (bool * N)) :
  ~ credentials_set environ ->
  exec (setup_arize_tracing environ false service_name) t r ->
  credential_uses t = 0.
Proof.
  intros N. unfold setup_arize_tracing.
  destruct (unset (lookup "ARIZE_API_KEY" environ)
            || unset (lookup "ARIZE_SPACE_ID" environ)) eqn:U.
  - intros H. explode H; destruct H as [-> _]; reflexivity.
  - apply credentials_unset in U. contradiction.
Qed.

Lemma arize_credentials_set : credentials_set Scenario.arize_environ.
Proof.
  exists "key-1", "space-1".
  split; [reflexivity|]. split; [discriminate|]. split; [reflexivity|discriminate].
Qed.

Lemma no_credentials_in_empty_environ : ~ credentials_set [].
Proof. intros (key & space & H & _). discriminate H. Qed.

Lemma setup_sets_propagator_first_witness :
  exec (setup_arize_tracing Scenario.arize_environ false "bull-agent")
       Scenario.registered_setup (Ok (true, 7%N)) /\
  true = true /\
  (credentials_set Scenario.arize_environ ->
   setup_steps Scenario.registered_setup = [Propagator; Registered; Propagator] \/
   setup_steps Scenario.registered_setup = [Propagator; ProviderSet; Propagator] \/
   setup_steps Scenario.registered_setup
   = [Propagator; Registered; ProviderSet; Propagator]) /\
  (~ credentials_set Scenario.arize_environ ->
   setup_steps Scenario.registered_setup = [Propagator; ProviderSet] /\
   credential_uses Scenario.registered_setup = 0).
Proof.
  assert (H : exec (setup_arize_tracing Scenario.arize_environ false "bull-agent")
                   Scenario.registered_setup (Ok (true, 7%N))) by replay.
  split; [exact H|].
  exact (setup_sets_propagator_first _ _ _ _ _ H).
Defined.

Lemma setup_is_idempotent_witness :
  exec (setup_arize_tracing [] false "bull-agent") Scenario.basic_setup (Ok (true, 7%N)) /\
  setup_arize_tracing [] true "bear-agent"
  = Vis (S := sig) (GetTracer "bear-agent") (fun tracer' => Ret (Ok (true, tracer'))).
Proof.
  assert (H : exec (setup_arize_tracing [] false "bull-agent") Scenario.basic_setup
                   (Ok (true, 7%N))) by replay.
  split; [exact H|].
  exact (setup_is_idempotent [] "bull-agent" "bear-agent" _ _ _ H).
Defined.

Lemma setup_raises_only_import_or_register_witness :
  exec (setup_arize_tracing Scenario.arize_environ false "bull-agent")
       Scenario.failed_register
       (Raise (Exn "ConnectionError" "otlp.arize.com unreachable")) /\
  In (Exn "ConnectionError" "otlp.arize.com unreachable")
     (setup_failures Scenario.failed_register).
Proof.
  assert (H : exec (setup_arize_tracing Scenario.arize_environ false "bull-agent")
                   Scenario.failed_register
                   (Raise (Exn "ConnectionError" "otlp.arize.com unreachable")))
    by replay.
  split; [exact H|].
  exact (setup_raises_only_import_or_register _ _ _ _ H).
Defined.

Lemma no_credentials_no_export_witness :
  ~ credentials_set [] /\
  exec (setup_arize_tracing [] false "bull-agent") Scenario.basic_setup (Ok (true, 7%N)) /\
  credential_uses Scenario.basic_setup = 0.
Proof.
  assert (H : exec (setup_arize_tracing [] false "bull-agent") Scenario.basic_setup
                   (Ok (true, 7%N))) by replay.
  split; [exact no_credentials_in_empty_environ|]. split; [exact H|].
  exact (no_credentials_no_export [] _ _ _ no_credentials_in_empty_environ H).
Defined.

End TracingSetupFacts.

(** ** Whole runs of the tracing middleware *)

Module TracingRuns.
Import Py Eff Spec PyFacts Tracing.

#[local] Arguments log_line : simpl never.

(** A scope that is not HTTP (lifespan, websocket) goes to the application
    untouched and untraced. *)
Lemma other_scopes_pass_through (self : TracingMiddleware) (scope : Scope) :
  type_ scope <> "http" ->
  __call__ self scope = Vis (S := sig) (App scope) (fun x => Ret x).
Proof.
  intros H. unfold __call__. apply String.eqb_neq in H. rewrite H. reflexivity.
Qed.

Lemma lookup_dict_set_same {A : Type} (d : list (string * A)) (k : string) (v : A) :
  lookup k (dict_set d k v) = Some v.
Proof.
  induction d as [|[k' v'] d IH]; cbn.
  - now rewrite String.eqb_refl.
  - destruct (String.eqb k k') eqn:E; cbn; rewrite E; auto.
Qed.

Lemma lookup_dict_set_other {A : Type} (d : list (string * A)) (k k' : string) (v : A) :
  k' <> k -> lookup k' (dict_set d k v) = lookup k' d.
Proof.
  intros Hne. induction d as [|[k0 v0] d IH]; cbn.
  - apply String.eqb_neq in Hne. now rewrite Hne.
  - destruct (String.eqb k k0) eqn:E; cbn.
    + apply String.eqb_eq in E. subst k0.
      apply String.eqb_neq in Hne. now rewrite Hne.
    + destruct (String.eqb k' k0); auto.
Qed.

Lemma decodable_headers_collect
    (raw : list (hval * hval)) (acc : list (string * string)) :
  Forall header_decodable raw ->
  exists headers, collect_headers raw acc = Ok headers.
Proof.
  intros Hall. revert acc.
  induction Hall as [|[key value] raw [Hk Hv] _ IH]; intros acc.
  - exists acc. reflexivity.
  - cbn [collect_headers].
    destruct key as [kb|ks], value as [vb|vs]; cbn in Hk, Hv;
      cbn [decode_if_bytes]; unfold decode; rewrite ?Hk, ?Hv; cbn [rbind];
      apply IH.
Qed.

(** X14.  When every header name and value decodes, so do the headers, and
    the dict handed to [extract] holds, for each name, the value of its
    last occurrence in the request. *)
Theorem headers_last_occurrence_wins
    (raw : list (hval * hval)) (acc : list (string * string)) :
  Forall header_decodable raw ->
  exists headers,
    collect_headers raw acc = Ok headers /\
    forall name,
      lookup name headers
      = match lookup name (rev (map (fun kv => (hval_text (fst kv), hval_text (snd kv))) raw)) with
        | Some v => Some v
        | None => lookup name acc
        end.
Proof.
  intros Hall. revert acc.
  induction Hall as [|[key value] raw [Hk Hv] _ IH]; intros acc.
  - exists acc. split; [reflexivity|]. intros name. reflexivity.
  - cbn [collect_headers].
    assert (Ek : decode_if_bytes key = Ok (hval_text key)).
    { destruct key as [b|s0]; cbn in *; [unfold decode; now rewrite Hk|reflexivity]. }
    assert (Ev : decode_if_bytes value = Ok (hval_text value)).
    { destruct value as [b|s0]; cbn in *; [unfold decode; now rewrite Hv|reflexivity]. }
    rewrite Ek, Ev. cbn [rbind].
    destruct (IH (dict_set acc (hval_text key) (hval_text value))) as (headers & E & L).
    exists headers. split; [exact E|]. intros name. rewrite L.
    cbn [map rev fst snd].
    assert (A : forall (l : list (string * string)) k v,
              lookup name (l ++ [(k, v)])%list
              = match lookup name l with
                | Some x => Some x
                | None => if String.eqb name k then Some v else None
                end).
    { induction l as [|[k0 v0] l IHl]; intros k v; cbn.
      - destruct (String.eqb name k); reflexivity.
      - destruct (String.eqb name k0); auto. }
    rewrite A.
    destruct (lookup name (rev (map _ raw))) as [x|]; [reflexivity|].
    destruct (String.eqb name (hval_text key)) eqn:E1.
    + apply String.eqb_eq in E1. subst name. apply lookup_dict_set_same.
    + apply String.eqb_neq in E1. now apply lookup_dict_set_other.
Qed.

(** X15.  Undecodable bytes anywhere in the headers, name or value, make
    the decoding raise UnicodeDecodeError. *)
Theorem headers_with_undecodable_bytes_raise
    (raw : list (hval * hval)) (acc : list (string * string)) :
  ~ Forall header_decodable raw ->
  exists e, collect_headers raw acc = Raise e /\ exn_class e = "UnicodeDecodeError".
Proof.
  revert acc. induction raw as [|[key value] raw IH]; intros acc Hn.
  - exfalso. apply Hn. constructor.
  - cbn [collect_headers].
    destruct key as [kb|ks]; cbn [decode_if_bytes]; unfold decode.
    + destruct (utf8_valid kb) eqn:Vk; cbn [rbind]; [|eauto].
      destruct value as [vb|vs]; cbn [decode_if_bytes]; unfold decode.
      * destruct (utf8_valid vb) eqn:Vv; cbn [rbind]; [|eauto].
        apply IH. intros Hall. apply Hn. constructor; [split; assumption|exact Hall].
      * cbn [rbind]. apply IH. intros Hall. apply Hn.
        constructor; [split; [assumption|exact I]|exact Hall].
    + cbn [rbind].
      destruct value as [vb|vs]; cbn [decode_if_bytes]; unfold decode.
      * destruct (utf8_valid vb) eqn:Vv; cbn [rbind]; [|eauto].
        apply IH. intros Hall. apply Hn.
        constructor; [split; [exact I|assumption]|exact Hall].
      * cbn [rbind]. apply IH. intros Hall. apply Hn.
        constructor; [split; exact I|exact Hall].
Qed.

(** ASCII bytes always decode. *)
Lemma ascii_is_utf8 (s : string) : is_ascii s = true -> utf8_valid s = true.
Proof.
  unfold utf8_valid. induction s as [|c s IH]; cbn; [reflexivity|].
  intros H. apply andb_prop in H. destruct H as [Hc Hs].
  rewrite Hc. auto.
Qed.

(** X16.  Every HTTP request outside the discovery paths whose headers are
    ASCII is traced: one span of kind SERVER is started, the application runs
    once inside it, the span is ended whether the application returned or
    raised, and the outcome of the application is the outcome of the
    middleware. *)
Theorem ascii_request_is_traced
    (self : TracingMiddleware) (scope : Scope) (t : trace sig) (r : result unit) :
  type_ scope = "http" ->
  ~ substring ".well-known" (path_of scope) ->
  Forall (fun kv => is_ascii (hval_text (fst kv)) = true /\
                    is_ascii (hval_text (snd kv)) = true) (raw_headers scope) ->
  exec (__call__ self scope) t r ->
  spans_started t = 1 /\ app_calls t = 1 /\
  exists parent_ctx span before,
    t = (before
         ++ [answered (S := sig) (App scope) r;
             answered (S := sig)
               (EndSpan span match r with Ok _ => None | Raise e => Some e end) tt])%list /\
    In (answered (S := sig) (StartSpan (service_name self) parent_ctx SERVER) span)
       before.
Proof.
  intros Ht Hs Hascii.
  assert (Hd : Forall header_decodable (raw_headers scope)).
  { eapply Forall_impl; [|exact Hascii]. intros [k v] [Hk Hv]. cbn in *.
    split; [destruct k|destruct v]; cbn in *; auto using ascii_is_utf8. }
  destruct (decodable_headers_collect _ [] Hd) as (hdrs & E).
  unfold __call__. rewrite Ht. cbn.
  apply contains_false in Hs. rewrite Hs. rewrite E. cbn.
  intros (parent_ctx & t1 & -> & span & t2 & -> & [] & t3 & -> & [] & t4 & ->
          & ctx & t5 & -> & H).
  destruct (is_valid ctx); cbn in H.
  - destruct H as ([] & t6 & -> & a & t7 & -> & H).
    destruct a as [[]|e]; cbn in H; destruct H as ([] & t8 & -> & -> & ->);
      (split; [reflexivity|]); (split; [reflexivity|]);
      exists parent_ctx, span;
      eexists [_; _; _; _; _; _]; (split; [reflexivity|]); cbn; auto.
  - destruct H as (a & t7 & -> & H).
    destruct a as [[]|e]; cbn in H; destruct H as ([] & t8 & -> & -> & ->);
      (split; [reflexivity|]); (split; [reflexivity|]);
      exists parent_ctx, span;
      eexists [_; _; _; _; _]; (split; [reflexivity|]); cbn; auto.
Qed.

Lemma repeated_headers_decodable : Forall header_decodable Scenario.repeated_headers.
Proof. repeat constructor. Qed.

Lemma headers_last_occurrence_wins_witness :
  Forall header_decodable Scenario.repeated_headers /\
  exists headers,
    collect_headers Scenario.repeated_headers [] = Ok headers /\
    forall name,
      lookup name headers
      = match lookup name
                (rev (map (fun kv => (hval_text (fst kv), hval_text (snd kv)))
                          Scenario.repeated_headers)) with
        | Some v => Some v
        | None => lookup name []
        end.
Proof.
  split; [exact repeated_headers_decodable|].
  exact (headers_last_occurrence_wins _ [] repeated_headers_decodable).
Defined.

Lemma latin1_header_undecodable :
  ~ Forall header_decodable (raw_headers Scenario.latin1_header_scope).
Proof.
  intros H. inversion H as [|kv raw [_ Hv] _]. discriminate Hv.
Qed.

Lemma headers_with_undecodable_bytes_raise_witness :
  ~ Forall header_decodable (raw_headers Scenario.latin1_header_scope) /\
  exists e,
    collect_headers (raw_headers Scenario.latin1_header_scope) [] = Raise e /\
    exn_class e = "UnicodeDecodeError".
Proof.
  split; [exact latin1_header_undecodable|].
  exact (headers_with_undecodable_bytes_raise _ [] latin1_header_undecodable).
Defined.

Lemma ascii_request_is_traced_witness :
  type_ Scenario.traced_scope = "http" /\
  ~ substring ".well-known" (path_of Scenario.traced_scope) /\
  Forall (fun kv => is_ascii (hval_text (fst kv)) = true /\
                    is_ascii (hval_text (snd kv)) = true)
         (raw_headers Scenario.traced_scope) /\
  exec (__call__ Scenario.bull_middleware Scenario.traced_scope) Scenario.traced_run
       (Raise (Exn "RuntimeError" "handler failed")) /\
  spans_started Scenario.traced_run = 1 /\ app_calls Scenario.traced_run = 1 /\
  exists parent_ctx span before,
    Scenario.traced_run
    = (before
       ++ [answered (S := sig) (App Scenario.traced_scope)
             (Raise (Exn "RuntimeError" "handler failed"));
           answered (S := sig)
             (EndSpan span (Some (Exn "RuntimeError" "handler failed"))) tt])%list /\
    In (answered (S := sig)
          (StartSpan (service_name Scenario.bull_middleware) parent_ctx SERVER) span)
       before.
Proof.
  assert (H1 : type_ Scenario.traced_scope = "http") by reflexivity.
  assert (H2 : ~ substring ".well-known" (path_of Scenario.traced_scope))
    by (apply contains_false; reflexivity).
  assert (H3 : Forall (fun kv => is_ascii (hval_text (fst kv)) = true /\
                                 is_ascii (hval_text (snd kv)) = true)
                      (raw_headers Scenario.traced_scope))
    by (repeat constructor).
  assert (H4 : exec (__call__ Scenario.bull_middleware Scenario.traced_scope)
                    Scenario.traced_run
                    (Raise (Exn "RuntimeError" "handler failed"))) by replay.
  split; [exact H1|]. split; [exact H2|]. split; [exact H3|]. split; [exact H4|].
  exact (ascii_request_is_traced _ _ _ _ H1 H2 H3 H4).
Defined.

End TracingRuns.

(** ** Whole runs of the command line client *)

Module CliFacts.
Import Py Eff Spec PyFacts Cli.

(** Names what is left of an execution. *)
Ltac unwind H :=
  repeat match type of H with
         | exists _ : unit, _ => destruct H as [[] H]
         | exists _, _ => destruct H as [? H]
         | _ /\ _ => let E := fresh "E" in destruct H as [E H]; subst
         end;
  subst.

Section Client.
Context {B : Builtins}.

Lemma client_run (query url : string) (t : trace sig) (r : result pyval) :
  exec (query_orchestrator query url) t r ->
  exists span ctx headers message_id outcome middle,
    t = ([answered (S := sig) (StartSpan "cli" Tracing.CLIENT) span;
          answered (S := sig) (SetAttribute span "query" (PStr query)) tt;
          answered (S := sig) (GetSpanContext span) ctx;
          answered (S := sig)
            (Print ("  [cli] trace="
                    ++ slice_to 8 (format_0x 32 (Tracing.trace_id ctx)) ++ "..."))
            tt;
          answered (S := sig) (Inject [("Content-Type", "application/json")]) headers;
          answered (S := sig) Uuid4 message_id;
          answered (S := sig)
            (Post url 180 (Orchestrator.a2a_payload "1" message_id query) headers)
            outcome]
         ++ middle ++ [answered (S := sig) (EndSpan span) tt])%list /\
    cli_posts middle = [] /\
    r = Ok (answer_for outcome).
Proof.
  unfold query_orchestrator. cbn.
  intros (span & t1 & -> & [] & t2 & -> & ctx & t3 & -> & [] & t4 & ->
          & headers & t5 & -> & message_id & t6 & -> & outcome & t7 & -> & H).
  exists span, ctx, headers, message_id, outcome.
  unfold answer_for.
  destruct outcome as [response|e|e]; cbn in H.
  - destruct (Orchestrator.is_success response); cbn in H.
    + unfold read_response in H. cbn in H.
      destruct (Orchestrator.json response) as [res|e]; cbn in H.
      * destruct (read_reply res) as [[text|text|]|e]; cbn in H.
        -- destruct (py_len text) as [n|e]; cbn in H; unwind H;
             eexists [_]; repeat split.
        -- unwind H. exists []. repeat split.
        -- unwind H. exists []. repeat split.
        -- unwind H. eexists [_]. repeat split.
      * unwind H. eexists [_]. repeat split.
    + unwind H. eexists [_]. repeat split.
  - unwind H. eexists [_]. repeat split.
  - unwind H. eexists [_]. repeat split.
Qed.

(** X17.  The client never raises: it returns a dict that says success or
    failure.  Its run is one span named cli of kind CLIENT, started first
    and ended last, with a single POST in between, to the URL given, with a
    timeout of 180 seconds, the envelope of the query and exactly the
    headers [inject] returned. *)
Theorem client_posts_once_inside_its_span
    (query url : string) (t : trace sig) (r : result pyval) :
  exec (query_orchestrator query url) t r ->
  ((exists content, r = Ok (success content)) \/
   (exists error, r = Ok (failure error))) /\
  (exists span inside,
     t = (answered (S := sig) (StartSpan "cli" Tracing.CLIENT) span :: inside
          ++ [answered (S := sig) (EndSpan span) tt])%list) /\
  (exists headers message_id outcome,
     In (answered (S := sig) (Inject [("Content-Type", "application/json")]) headers) t /\
     cli_posts t = [(url, 180%Z, Orchestrator.a2a_payload "1" message_id query,
                     headers, outcome)]).
Proof.
  intros H. apply client_run in H.
  destruct H as (span & ctx & headers & message_id & outcome & middle & -> & Hm & ->).
  split; [|split].
  - unfold answer_for.
    destruct outcome as [response|e|e]; eauto.
    destruct (Orchestrator.is_success response); eauto.
    destruct (Orchestrator.json response) as [res|e]; eauto.
    destruct (read_reply res) as [[text|text|]|e]; eauto.
    destruct (py_len text); eauto.
  - exists span.
    exists ([answered (S := sig) (SetAttribute span "query" (PStr query)) tt;
             answered (S := sig) (GetSpanContext span) ctx;
             answered (S := sig)
               (Print ("  [cli] trace="
                       ++ slice_to 8 (format_0x 32 (Tracing.trace_id ctx)) ++ "..."))
               tt;
             answered (S := sig) (Inject [("Content-Type", "application/json")])
               headers;
             answered (S := sig) Uuid4 message_id;
             answered (S := sig)
               (Post url 180 (Orchestrator.a2a_payload "1" message_id query) headers)
               outcome] ++ middle)%list.
    cbn [app]. reflexivity.
  - exists headers, message_id, outcome. split.
    + cbn. auto 10.
    + unfold cli_posts. cbn [app flat_map cli_post].
      rewrite flat_map_app. fold (cli_posts middle). rewrite Hm. reflexivity.
Qed.

(** X18.  A timeout is reported by its own message, a status outside 2xx by its
    code, any other failure of the POST by the text of the exception. *)
Theorem client_reports_failures
    (query url : string) (t : trace sig) (r : result pyval)
    (u : string) (timeout : Z) (body : pyval) (headers : list (string * string))
    (outcome : post_outcome) :
  exec (query_orchestrator query url) t r ->
  In (u, timeout, body, headers, outcome) (cli_posts t) ->
  match outcome with
  | TimedOut _ =>
      r = Ok (failure "Request timed out. The analysis is taking longer than expected.")
  | Failed e => r = Ok (failure (exn_msg e))
  | Responded response =>
      ~ (200 <= Orchestrator.status_code response <= 299)%Z ->
      r = Ok (failure ("HTTP error: " ++ decimal (Orchestrator.status_code response)))
  end.
Proof.
  intros H. apply client_run in H.
  destruct H as (span & ctx & hdrs & message_id & outcome' & middle & -> & Hm & ->).
  unfold cli_posts. cbn [app flat_map cli_post].
  rewrite flat_map_app. fold (cli_posts middle). rewrite Hm. cbn.
  intros [E|[]]. inversion E. subst.
  destruct outcome as [response|e|e]; cbn; auto.
  intros Hs. unfold Orchestrator.is_success.
  destruct ((200 <=? Orchestrator.status_code response)%Z
            && (Orchestrator.status_code response <=? 299)%Z) eqn:Es; [|reflexivity].
  exfalso. apply Hs. lia.
Qed.

Lemma read_reply_artifact (body text : pyval) :
  artifact_text body text -> read_reply body = Ok (InArtifacts text).
Proof.
  intros (top & r & artifact & more & part & more_parts
          & -> & Hr & Ha & Hp & Hk & Ht).
  unfold read_reply, rbind, py_in, getitem.
  rewrite Hr. cbn. rewrite Ha. cbn. rewrite Hp. cbn. rewrite Ht. reflexivity.
Qed.

Lemma find_text_skips (skipped rest : list pyval)
    (part : list (string * pyval)) (text : pyval) :
  Forall no_text_key skipped ->
  lookup "text" part = Some text ->
  find_text (skipped ++ PDict part :: rest) = Ok (Some text).
Proof.
  intros Hall Ht. induction Hall as [|p skipped (d & -> & Hn) _ IH]; cbn.
  - rewrite Ht. reflexivity.
  - rewrite Hn. exact IH.
Qed.

Lemma find_text_none (parts : list pyval) :
  Forall no_text_key parts -> find_text parts = Ok None.
Proof.
  induction 1 as [|p parts (d & -> & Hn) _ IH]; cbn; [reflexivity|].
  rewrite Hn. exact IH.
Qed.

Lemma find_artifact_text_none (artifacts : list pyval) :
  Forall artifact_without_text artifacts -> find_artifact_text artifacts = Ok None.
Proof.
  induction 1 as [|a artifacts (d & -> & [Hn|(parts & Hp & Hall)]) _ IH]; cbn;
    [reflexivity| |].
  - rewrite Hn. exact IH.
  - rewrite Hp. cbn. rewrite (find_text_none _ Hall). cbn. exact IH.
Qed.

Lemma read_reply_status (body text : pyval) :
  status_text body text -> read_reply body = Ok (InStatus text).
Proof.
  intros (top & task & status & message & skipped & part & rest
          & -> & Hr & Ha & Hs & Hm & Hp & Hall & Ht).
  pose proof (find_text_skips _ rest _ _ Hall Ht) as Hfind.
  unfold read_reply. cbn -[find_artifact_text find_text]. rewrite Hr.
  cbn -[find_artifact_text find_text].
  destruct (lookup "artifacts" task) as [a|] eqn:Ea;
    cbn -[find_artifact_text find_text].
  - destruct (Ha a eq_refl) as [Hf|(artifacts & -> & Hnone)].
    + rewrite Hf. cbn -[find_artifact_text find_text].
      rewrite Hs. cbn -[find_artifact_text find_text].
      rewrite Hm. cbn -[find_artifact_text find_text].
      rewrite Hp. cbn -[find_artifact_text find_text].
      rewrite Hfind. reflexivity.
    + destruct artifacts as [|x artifacts]; cbn -[find_artifact_text find_text].
      * rewrite Hs. cbn -[find_artifact_text find_text].
        rewrite Hm. cbn -[find_artifact_text find_text].
        rewrite Hp. cbn -[find_artifact_text find_text].
        rewrite Hfind. reflexivity.
      * rewrite (find_artifact_text_none _ Hnone).
        cbn -[find_artifact_text find_text].
        rewrite Hs. cbn -[find_artifact_text find_text].
        rewrite Hm. cbn -[find_artifact_text find_text].
        rewrite Hp. cbn -[find_artifact_text find_text].
        rewrite Hfind. reflexivity.
  - rewrite Hs. cbn -[find_artifact_text find_text].
    rewrite Hm. cbn -[find_artifact_text find_text].
    rewrite Hp. cbn -[find_artifact_text find_text].
    rewrite Hfind. reflexivity.
Qed.

(** X19.  The client reads both shapes of a reply: the text of shape (1),
    which the orchestrator's own client reads too, and the text of shape
    (2), under [result.status.message.parts] of a task without a text in
    its artifacts, which that client drops. *)
Theorem client_reads_both_shapes
    (query url : string) (t : trace sig) (r : result pyval)
    (u : string) (timeout : Z) (payload : pyval) (headers : list (string * string))
    (response : Orchestrator.http_response) (body : pyval) (text : string) :
  exec (query_orchestrator query url) t r ->
  In (u, timeout, payload, headers, Responded response) (cli_posts t) ->
  (200 <= Orchestrator.status_code response <= 299)%Z ->
  Orchestrator.json response = Ok body ->
  artifact_text body (PStr text) \/ status_text body (PStr text) ->
  r = Ok (success (PStr text)).
Proof.
  intros H. apply client_run in H.
  destruct H as (span & ctx & hdrs & message_id & outcome' & middle & -> & Hm & ->).
  unfold cli_posts. cbn [app flat_map cli_post].
  rewrite flat_map_app. fold (cli_posts middle). rewrite Hm. cbn.
  intros [E|[]] Hs Hj Hb. inversion E. subst.
  unfold answer_for, Orchestrator.is_success.
  replace ((200 <=? Orchestrator.status_code response)%Z
           && (Orchestrator.status_code response <=? 299)%Z) with true
    by (symmetry; apply andb_true_intro; split; lia).
  rewrite Hj. destruct Hb as [Hb|Hb].
  - rewrite (read_reply_artifact _ _ Hb). reflexivity.
  - rewrite (read_reply_status _ _ Hb). reflexivity.
Qed.

(** The reply of shape (2) that holds nothing else is one of them. *)
Lemma status_message_body_is_status_text (text : string) :
  status_text (status_message_body text) (PStr text).
Proof.
  exists [("result",
           PDict [("status",
                   PDict [("message",
                           PDict [("parts", PList [PDict [("text", PStr text)]])])])])].
  do 3 eexists. exists [], [("text", PStr text)], [].
  split; [reflexivity|]. split; [reflexivity|].
  split; [intros a Ha; discriminate Ha|].
  repeat split; try reflexivity. constructor.
Qed.

End Client.

(** X20.  A query built from a ticker symbol says analysis and both, so
    the orchestrator routes it to both analysts without asking the model,
    whatever the symbol is. *)
Theorem symbol_query_takes_fast_path
    {B : Builtins} {OB : Orchestrator.Builtins}
    (self : Orchestrator.CustomOrchestratorAgent)
    (symbol : string) (query : option string) (prompted : string) :
  lower_keeps_plain_text (@Orchestrator.lower OB) ->
  symbol <> "" ->
  Orchestrator._determine_agents self (full_query (Some symbol) query prompted)
  = Ret (Ok ["bull_analyst"; "bear_analyst"]).
Proof.
  intros Hl Hs. unfold full_query. cbn [given value].
  apply String.eqb_neq in Hs. rewrite Hs. cbn [negb].
  unfold Orchestrator._determine_agents.
  assert (E : any_in ["analyze"; "analysis"]
                (Orchestrator.lower
                   ("Provide a comprehensive analysis of " ++ upper symbol
                    ++ " stock, including both bullish opportunities and bearish risks."))
              = true).
  { apply any_in_true. exists "analysis". split; [right; left; reflexivity|].
    destruct (Hl "Provide a comprehensive " "analysis"
                 (" of " ++ upper symbol
                  ++ " stock, including both bullish opportunities and bearish risks.")
                 eq_refl) as (b' & a' & E).
    exists b', a'. rewrite <- E. reflexivity. }
  rewrite E. reflexivity.
Qed.

Lemma lower_ascii_app (a b : string) :
  Orchestrator.lower_ascii (a ++ b)
  = Orchestrator.lower_ascii a ++ Orchestrator.lower_ascii b.
Proof.
  induction a as [|c a IH]; cbn; [reflexivity|]. now rewrite IH.
Qed.

Lemma lower_ascii_plain (w : string) :
  all_plain w = true -> Orchestrator.lower_ascii w = w.
Proof.
  induction w as [|c w IH]; cbn; [reflexivity|].
  intros H. apply andb_prop in H. destruct H as [Hc Hw].
  rewrite (IH Hw). f_equal.
  unfold Orchestrator.ascii_lower, plain in *.
  destruct ((65 <=? N_of_ascii c)%N && (N_of_ascii c <=? 90)%N) eqn:E; [|reflexivity].
  exfalso. apply andb_prop in E. destruct E as [E1 E2].
  apply N.leb_le in E1, E2.
  apply orb_prop in Hc. destruct Hc as [Hc|Hc].
  - apply andb_prop in Hc. destruct Hc as [Hc _]. apply N.leb_le in Hc. lia.
  - apply N.eqb_eq in Hc. lia.
Qed.

Lemma lower_ascii_keeps_plain_text : lower_keeps_plain_text Orchestrator.lower_ascii.
Proof.
  intros before word after Hw.
  exists (Orchestrator.lower_ascii before), (Orchestrator.lower_ascii after).
  rewrite !lower_ascii_app, (lower_ascii_plain _ Hw). reflexivity.
Qed.

Lemma client_posts_once_inside_its_span_witness :
  exec (@query_orchestrator Scenario.cli_builtins "Analyze NVDA" "http://localhost:8000/")
       Scenario.answered_client_run (Ok (success (PStr "Momentum is strong"))) /\
  ((exists content, Ok (success (PStr "Momentum is strong")) = Ok (success content)) \/
   (exists error, Ok (success (PStr "Momentum is strong")) = Ok (failure error))) /\
  (exists span inside,
     Scenario.answered_client_run
     = (answered (S := sig) (StartSpan "cli" Tracing.CLIENT) span :: inside
        ++ [answered (S := sig) (EndSpan span) tt])%list) /\
  (exists headers message_id outcome,
     In (answered (S := sig) (Inject [("Content-Type", "application/json")]) headers)
        Scenario.answered_client_run /\
     cli_posts Scenario.answered_client_run
     = [("http://localhost:8000/", 180%Z,
         Orchestrator.a2a_payload "1" message_id "Analyze NVDA", headers, outcome)]).
Proof.
  assert (H : exec (@query_orchestrator Scenario.cli_builtins "Analyze NVDA"
                      "http://localhost:8000/")
                   Scenario.answered_client_run
                   (Ok (success (PStr "Momentum is strong")))) by replay.
  split; [exact H|].
  exact (@client_posts_once_inside_its_span Scenario.cli_builtins _ _ _ _ H).
Defined.

Lemma client_reports_failures_witness :
  exec (@query_orchestrator Scenario.cli_builtins "Analyze NVDA" "http://localhost:8000/")
       Scenario.timed_out_client_run
       (Ok (failure "Request timed out. The analysis is taking longer than expected.")) /\
  In ("http://localhost:8000/", 180%Z,
      Orchestrator.a2a_payload "1" "msg-1" "Analyze NVDA", Scenario.injected_headers,
      TimedOut (Exn "ReadTimeout" "timed out"))
     (cli_posts Scenario.timed_out_client_run) /\
  Ok (failure "Request timed out. The analysis is taking longer than expected.")
  = Ok (failure "Request timed out. The analysis is taking longer than expected.").
Proof.
  assert (H1 : exec (@query_orchestrator Scenario.cli_builtins "Analyze NVDA"
                       "http://localhost:8000/")
                    Scenario.timed_out_client_run
                    (Ok (failure
                           "Request timed out. The analysis is taking longer than expected.")))
    by replay.
  assert (H2 : In ("http://localhost:8000/", 180%Z,
                   Orchestrator.a2a_payload "1" "msg-1" "Analyze NVDA",
                   Scenario.injected_headers,
                   TimedOut (Exn "ReadTimeout" "timed out"))
                  (cli_posts Scenario.timed_out_client_run)) by (left; reflexivity).
  split; [exact H1|]. split; [exact H2|].
  exact (@client_reports_failures Scenario.cli_builtins _ _ _ _ _ _ _ _ _ H1 H2).
Defined.

Lemma status_reply_is_status_text : status_text Scenario.status_reply (PStr "hi").
Proof.
  do 4 eexists.
  exists [PDict [("kind", PStr "data")]], [("kind", PStr "text"); ("text", PStr "hi")], [].
  split; [reflexivity|]. split; [reflexivity|].
  split; [intros a Ha; inversion Ha; left; reflexivity|].
  split; [reflexivity|]. split; [reflexivity|]. split; [reflexivity|].
  split; [|reflexivity].
  constructor; [|constructor]. eexists. split; reflexivity.
Qed.

Lemma client_reads_both_shapes_witness :
  exec (@query_orchestrator Scenario.cli_builtins "Analyze NVDA" "http://localhost:8000/")
       Scenario.status_client_run (Ok (success (PStr "hi"))) /\
  In ("http://localhost:8000/", 180%Z,
      Orchestrator.a2a_payload "1" "msg-1" "Analyze NVDA", Scenario.injected_headers,
      Responded (Orchestrator.Response 200 "OK" (Ok Scenario.status_reply)))
     (cli_posts Scenario.status_client_run) /\
  (200 <= 200 <= 299)%Z /\
  Orchestrator.json (Orchestrator.Response 200 "OK" (Ok Scenario.status_reply))
  = Ok Scenario.status_reply /\
  (artifact_text Scenario.status_reply (PStr "hi")
   \/ status_text Scenario.status_reply (PStr "hi")) /\
  Ok (success (PStr "hi")) = Ok (success (PStr "hi")).
Proof.
  assert (H1 : exec (@query_orchestrator Scenario.cli_builtins "Analyze NVDA"
                       "http://localhost:8000/")
                    Scenario.status_client_run (Ok (success (PStr "hi")))) by replay.
  assert (H2 : In ("http://localhost:8000/", 180%Z,
                   Orchestrator.a2a_payload "1" "msg-1" "Analyze NVDA",
                   Scenario.injected_headers,
                   Responded
                     (Orchestrator.Response 200 "OK" (Ok Scenario.status_reply)))
                  (cli_posts Scenario.status_client_run)) by (left; reflexivity).
  assert (H3 : (200 <= 200 <= 299)%Z) by lia.
  assert (H4 : Orchestrator.json
                 (Orchestrator.Response 200 "OK" (Ok Scenario.status_reply))
               = Ok Scenario.status_reply) by reflexivity.
  assert (H5 : artifact_text Scenario.status_reply (PStr "hi")
               \/ status_text Scenario.status_reply (PStr "hi"))
    by (right; exact status_reply_is_status_text).
  split; [exact H1|]. split; [exact H2|]. split; [exact H3|]. split; [exact H4|].
  split; [exact H5|].
  exact (@client_reads_both_shapes Scenario.cli_builtins _ _ _ _ _ _ _ _ _ _ _
           H1 H2 H3 H4 H5).
Defined.

Lemma symbol_query_takes_fast_path_witness :
  lower_keeps_plain_text (@Orchestrator.lower Orchestrator.ascii_builtins) /\
  "nvda" <> "" /\
  @Orchestrator._determine_agents Orchestrator.ascii_builtins Scenario.agent
    (@full_query Scenario.cli_builtins (Some "nvda") None "")
  = Ret (Ok ["bull_analyst"; "bear_analyst"]).
Proof.
  assert (H1 : lower_keeps_plain_text (@Orchestrator.lower Orchestrator.ascii_builtins))
    by exact lower_ascii_keeps_plain_text.
  assert (H2 : "nvda" <> "") by discriminate.
  split; [exact H1|]. split; [exact H2|].
  exact (@symbol_query_takes_fast_path Scenario.cli_builtins Orchestrator.ascii_builtins
           Scenario.agent "nvda" None "" H1 H2).
Defined.

End CliFacts.

(** ** Whole runs of the bear analyst *)

Module BearAgentFacts.
Import Py Eff Spec PyFacts BearAgent.

Lemma bear_completions_app (t1 t2 : trace sig) :
  bear_completions (t1 ++ t2)%list = (bear_completions t1 ++ bear_completions t2)%list.
Proof. apply flat_map_app. Qed.

Lemma bear_tools_run_app (t1 t2 : trace sig) :
  bear_tools_run (t1 ++ t2)%list = (bear_tools_run t1 ++ bear_tools_run t2)%list.
Proof. apply flat_map_app. Qed.

Lemma bear_yielded_app (t1 t2 : trace sig) :
  bear_yielded (t1 ++ t2)%list = (bear_yielded t1 ++ bear_yielded t2)%list.
Proof. apply flat_map_app. Qed.

(** A tool is run only under one of the three names, and never raises into
    the loop. *)
Lemma execute_tool_run (tool_name : string) (arguments : pyval)
    (t : trace sig) (r : result string) :
  exec (_execute_tool tool_name arguments) t r ->
  (exists s, r = Ok s) /\
  bear_tools_run t = (if known_tool tool_name then [tool_name] else []) /\
  bear_completions t = [] /\ bear_yielded t = [].
Proof.
  unfold _execute_tool, known_tool.
  destruct (existsb (String.eqb tool_name) tool_names) eqn:E.
  - cbn. intros (a & t' & -> & H).
    destruct a as [s|e]; cbn in H; destruct H as [-> ->]; cbn; eauto 10.
  - intros [-> ->]. cbn. eauto 10.
Qed.

Lemma append_nil_r (s : string) : s ++ "" = s.
Proof. induction s as [|c s IH]; cbn; [reflexivity|now rewrite IH]. Qed.

Lemma append_assoc (a b c : string) : (a ++ b) ++ c = a ++ b ++ c.
Proof. induction a as [|x a IH]; cbn; [reflexivity|now rewrite IH]. Qed.

(** The loop over the blocks of the first reply. *)
Lemma first_pass_run (content : list block) :
  forall (st : pass) (t : trace sig) (r : result pass),
    exec (first_pass content st) t r ->
    exists st' results,
      r = Ok st' /\
      final_response st' = final_response st ++ texts content /\
      tool_calls_handled st' = tool_calls_handled st || has_tool_use content /\
      tool_results st' = (tool_results st ++ results)%list /\
      map answered_id results = map (fun id => Some (PStr id)) (tool_use_ids content) /\
      assistant_content st' = (assistant_content st ++ recorded content)%list /\
      bear_tools_run t = filter known_tool (tool_use_names content) /\
      bear_completions t = [] /\ bear_yielded t = [].
Proof.
  induction content as [|b content IH]; intros st t r.
  - intros [-> ->]. exists st, []. cbn.
    rewrite !app_nil_r, orb_false_r, append_nil_r. repeat split; auto.
  - destruct b as [text|id name input|ty cls]; cbn [first_pass].
    + intros H. apply IH in H.
      destruct H as (st' & results & -> & Hf & Hh & Hr & Hi & Ha & Ht & Hc & Hy).
      cbn in Hf, Hh, Hr, Ha.
      exists st', results. repeat split; auto.
      * rewrite Hf. cbn. apply append_assoc.
      * rewrite Ha, <- app_assoc. reflexivity.
    + rewrite exec_bind. intros (t1 & a & t2 & H1 & -> & H2).
      apply execute_tool_run in H1.
      destruct H1 as ((tool_result & ->) & Hrun & Hc1 & Hy1).
      apply IH in H2.
      destruct H2 as (st' & results & -> & Hf & Hh & Hr & Hi & Ha & Ht & Hc & Hy).
      cbn in Hf, Hh, Hr, Ha.
      exists st', (tool_result_item id tool_result :: results). repeat split; auto.
      * rewrite Hh. unfold has_tool_use. cbn. now rewrite orb_true_r.
      * rewrite Hr, <- app_assoc. reflexivity.
      * cbn. now rewrite Hi.
      * rewrite Ha, <- app_assoc. reflexivity.
      * rewrite bear_tools_run_app, Hrun, Ht. cbn [tool_use_names filter].
        destruct (known_tool name); reflexivity.
      * rewrite bear_completions_app, Hc1, Hc. reflexivity.
      * rewrite bear_yielded_app, Hy1, Hy. reflexivity.
    + intros H. apply IH in H.
      destruct H as (st' & results & -> & Hf & Hh & Hr & Hi & Ha & Ht & Hc & Hy).
      exists st', results. repeat split; auto.
Qed.

Lemma tools_of_two_passes (first second : event) (a : reply first) (b : reply second)
    (tools : trace sig) :
  bear_tools_run [answered (S := sig) first a] = [] ->
  bear_tools_run [answered (S := sig) second b] = [] ->
  bear_tools_run
    (answered (S := sig) first a :: tools ++ [answered (S := sig) second b])%list
  = bear_tools_run tools.
Proof.
  intros H1 H2.
  change (answered (S := sig) first a :: tools ++ [answered (S := sig) second b])%list
    with ([answered (S := sig) first a]
          ++ tools ++ [answered (S := sig) second b])%list.
  rewrite !bear_tools_run_app, H1, H2. cbn. now rewrite !app_nil_r.
Qed.

Lemma yields_of_two_passes (first second : event) (a : reply first) (b : reply second)
    (tools : trace sig) :
  bear_yielded [answered (S := sig) first a] = [] ->
  bear_yielded [answered (S := sig) second b] = [] ->
  bear_yielded tools = [] ->
  bear_yielded
    (answered (S := sig) first a :: tools ++ [answered (S := sig) second b])%list
  = [].
Proof.
  intros H1 H2 Ht.
  change (answered (S := sig) first a :: tools ++ [answered (S := sig) second b])%list
    with ([answered (S := sig) first a]
          ++ tools ++ [answered (S := sig) second b])%list.
  rewrite !bear_yielded_app, H1, H2, Ht. reflexivity.
Qed.

Lemma completions_of_two_passes
    (model system : string) (max_tokens : Z) (m1 m2 : list pyval) (o1 o2 : option pyval)
    (a b : result (list block)) (tools : trace sig) :
  bear_completions tools = [] ->
  bear_completions
    (answered (S := sig) (MessagesCreate model max_tokens system m1 o1) a
     :: tools ++ [answered (S := sig) (MessagesCreate model max_tokens system m2 o2) b])%list
  = [(m1, o1, a); (m2, o2, b)].
Proof.
  intros Ht.
  change (bear_completions
            ([answered (S := sig) (MessagesCreate model max_tokens system m1 o1) a]
             ++ tools
             ++ [answered (S := sig) (MessagesCreate model max_tokens system m2 o2) b])%list
          = [(m1, o1, a); (m2, o2, b)]).
  rewrite !bear_completions_app, Ht. reflexivity.
Qed.

#[local] Ltac two_passes content results second_answer Ht Hy Hc Eh :=
  eexists; exists (Ok content);
  split; [reflexivity|];
  split; [apply yields_of_two_passes; [reflexivity|reflexivity|exact Hy]|];
  rewrite Eh; exists results, second_answer;
  split; [apply completions_of_two_passes; exact Hc|];
  split; [rewrite tools_of_two_passes; [exact Ht|reflexivity|reflexivity]|].

(** What every execution of the analysis does: it ends in a string; it asks
    for one completion with the tools on offer and, when the reply holds a
    tool use, for a second one without them, after running the tools of the
    reply that it knows. *)
Lemma analysis_run (self : CustomBearAgent) (query : pyval)
    (t : trace sig) (r : result string) :
  exec (analysis self query) t r ->
  exists s first_answer,
    r = Ok s /\
    bear_yielded t = [] /\
    match first_answer with
    | Raise e =>
        bear_completions t = [([user_message query], Some tools_schema, Raise e)] /\
        bear_tools_run t = [] /\
        s = "Error generating response: " ++ exn_msg e
    | Ok content =>
        if has_tool_use content then
          exists results second_answer,
            bear_completions t
            = [([user_message query], Some tools_schema, Ok content);
               ([user_message query;
                 assistant_message (PList (recorded content));
                 user_message (PList results)], None, second_answer)] /\
            bear_tools_run t = filter known_tool (tool_use_names content) /\
            map answered_id results
            = map (fun id => Some (PStr id)) (tool_use_ids content) /\
            s = final_answer second_answer
        else
          bear_completions t = [([user_message query], Some tools_schema, Ok content)] /\
          bear_tools_run t = filter known_tool (tool_use_names content) /\
          s = text_answer content
    end.
Proof.
  unfold analysis. rewrite exec_try_except.
  intros (t1 & a & t2 & H1 & -> & H2).
  cbn in H1. destruct H1 as (first_answer & t1' & -> & H1).
  destruct first_answer as [content|e]; cbn in H1.
  - change (exec (bind (first_pass content
                          {| final_response := "";
                             tool_calls_handled := false;
                             tool_results := [];
                             assistant_content := [] |})
                       (fun st =>
                          bind
                            (if tool_calls_handled st then
                               bind
                                 (call_raising (S := sig)
                                    (MessagesCreate (model self) 4096 BEAR_SYSTEM_PROMPT
                                       ([user_message query]
                                        ++ [assistant_message (PList (assistant_content st));
                                            user_message (PList (tool_results st))])%list
                                       None)
                                    (fun x => x))
                                 (fun response => lift (first_text response))
                             else ret (final_response st))
                            (fun final_response =>
                               ret (if String.eqb final_response ""
                                    then "Unable to generate analysis."
                                    else final_response))))
                  t1' a) in H1.
    rewrite exec_bind in H1. destruct H1 as (t3 & a3 & t4 & H3 & -> & H4).
    apply first_pass_run in H3.
    destruct H3 as (st & results & -> & Hf & Hh & Hr & Hi & Ha & Ht & Hc & Hy).
    cbn in Hf, Hh, Hr, Ha. rewrite Hh in H4.
    destruct (has_tool_use content) eqn:Eh.
    + cbn in H4. destruct H4 as (second_answer & t5 & -> & H4).
      rewrite Ha, Hr in *.
      destruct second_answer as [reply|e]; cbn in H4.
      * destruct (first_text reply) as [text|e] eqn:Ef; cbn in H4.
        -- destruct H4 as [-> ->]. destruct H2 as [-> ->]. rewrite app_nil_r.
           two_passes content results (Ok (A := list block) reply) Ht Hy Hc Eh.
           split; [exact Hi|].
           unfold final_answer. rewrite Ef. destruct text; reflexivity.
        -- destruct H4 as [-> ->]. cbn in H2. destruct H2 as [-> ->].
           rewrite app_nil_r.
           two_passes content results (Ok (A := list block) reply) Ht Hy Hc Eh.
           split; [exact Hi|].
           unfold final_answer. rewrite Ef. reflexivity.
      * destruct H4 as [-> ->]. cbn in H2. destruct H2 as [-> ->].
        rewrite app_nil_r.
        two_passes content results (Raise (A := list block) e) Ht Hy Hc Eh.
        split; [exact Hi|reflexivity].
    + cbn in H4. destruct H4 as [-> ->]. destruct H2 as [-> ->].
      rewrite !app_nil_r.
      eexists. exists (Ok content).
      split; [reflexivity|]. split; [exact Hy|].
      rewrite Eh.
      split; [change (([user_message query], Some tools_schema, Ok content)
                      :: bear_completions t3
                      = [([user_message query], Some tools_schema, Ok content)]);
              now rewrite Hc|].
      split; [exact Ht|].
      unfold text_answer. rewrite Hf. cbn. destruct (texts content); reflexivity.
  - destruct H1 as [-> ->]. cbn in H2. destruct H2 as [-> ->].
    eexists. exists (Raise e).
    split; [reflexivity|]. split; [reflexivity|]. auto.
Qed.

(** A run on a query is the analysis followed by the one event. *)
Lemma run_async_run (self : CustomBearAgent) (parent_context query : pyval)
    (t : trace sig) (r : result unit) :
  Orchestrator.user_query parent_context = Ok query ->
  truthy query = true ->
  exec (run_async self parent_context) t r ->
  exists s t',
    exec (analysis self query) t' (Ok s) /\
    t = (t' ++ [answered (S := sig) (Yield (Orchestrator.mkEvent "agent" s)) tt])%list /\
    r = Ok tt.
Proof.
  intros Hu Hq. unfold run_async. rewrite Hu. cbn [lift]. 
  change (exec (if negb (truthy query)
                then bind (call (S := sig)
                             (Yield (Orchestrator.mkEvent "agent" "No query provided")))
                          (fun _ => ret tt)
                else bind (analysis self query)
                          (fun final_response =>
                             bind (call (S := sig)
                                     (Yield (Orchestrator.mkEvent "agent" final_response)))
                                  (fun _ => ret tt)))
               t r -> 
          exists s t',
            exec (analysis self query) t' (Ok s) /\
            t = (t' ++ [answered (S := sig) (Yield (Orchestrator.mkEvent "agent" s)) tt])%list /\
            r = Ok tt).
  rewrite Hq. cbn [negb]. rewrite exec_bind.
  intros (t1 & a & t2 & H1 & -> & H2).
  destruct (analysis_run _ _ _ _ H1) as (s & _ & -> & _).
  cbn in H2. destruct H2 as ([] & t3 & -> & -> & ->).
  exists s, t1. auto.
Qed.

Lemma filter_known (names : list string) :
  Forall (fun name => In name tool_names) (filter known_tool names).
Proof.
  apply Forall_forall. intros name H. apply filter_In in H. destruct H as [_ H].
  unfold known_tool in H. apply existsb_exists in H.
  destruct H as (n & Hin & E). apply String.eqb_eq in E. now subst n.
Qed.

(** X21.  The bear analyst always answers, and once: no run raises, whatever
    the model and the tools do; exactly one event is yielded and it ends the
    run; at most two completions are asked for, the first with the tools on
    offer and the second without; and nothing is run as a tool but the
    three functions of the agent. *)
Theorem bear_run_answers_once
    (self : CustomBearAgent) (parent_context query : pyval)
    (t : trace sig) (r : result unit) :
  Orchestrator.user_query parent_context = Ok query ->
  exec (run_async self parent_context) t r ->
  r = Ok tt /\
  (exists t' response,
     t = (t' ++ [answered (S := sig)
                   (Yield (Orchestrator.mkEvent "agent" response)) tt])%list /\
     bear_yielded t' = [] /\
     (truthy query = false -> t' = [] /\ response = "No query provided")) /\
  (map (fun c => snd (fst c)) (bear_completions t) = [] \/
   map (fun c => snd (fst c)) (bear_completions t) = [Some tools_schema] \/
   map (fun c => snd (fst c)) (bear_completions t) = [Some tools_schema; None]) /\
  Forall (fun name => In name tool_names) (bear_tools_run t).
Proof.
  intros Hu. destruct (truthy query) eqn:Hq.
  - intros H. destruct (run_async_run _ _ _ _ _ Hu Hq H) as (s & t' & H1 & -> & ->).
    apply analysis_run in H1.
    destruct H1 as (s' & first_answer & Es & Hy & H1). inversion Es. subst s'.
    split; [reflexivity|]. split.
    { exists t', s. split; [reflexivity|]. split; [exact Hy|discriminate]. }
    rewrite bear_completions_app, bear_tools_run_app. cbn. rewrite !app_nil_r.
    destruct first_answer as [content|e].
    + destruct (has_tool_use content).
      * destruct H1 as (results & second & -> & -> & _).
        split; [cbn; auto|apply filter_known].
      * destruct H1 as (-> & -> & _).
        split; [cbn; auto|apply filter_known].
    + destruct H1 as (-> & -> & _).
      split; [cbn; auto|constructor].
  - unfold run_async. rewrite Hu. cbn [lift].
    change (exec (if negb (truthy query)
                  then bind (call (S := sig)
                               (Yield (Orchestrator.mkEvent "agent" "No query provided")))
                            (fun _ => ret tt)
                  else bind (analysis self query)
                            (fun final_response =>
                               bind (call (S := sig)
                                       (Yield (Orchestrator.mkEvent "agent" final_response)))
                                    (fun _ => ret tt)))
                 t r -> 
            r = Ok tt /\
            (exists t' response,
                t = (t' ++ [answered (S := sig)
                              (Yield (Orchestrator.mkEvent "agent" response)) tt])%list /\
                bear_yielded t' = [] /\
                (false = false -> t' = [] /\ response = "No query provided")) /\
            (map (fun c => snd (fst c)) (bear_completions t) = [] \/
             map (fun c => snd (fst c)) (bear_completions t) = [Some tools_schema] \/
             map (fun c => snd (fst c)) (bear_completions t)
             = [Some tools_schema; None]) /\
            Forall (fun name => In name tool_names) (bear_tools_run t)).
    rewrite Hq. cbn. intros ([] & t1 & -> & -> & ->).
    split; [reflexivity|]. split.
    { exists [], "No query provided". auto. }
    split; [auto|constructor].
Qed.

(** X22.  The tool protocol: when the first reply holds a tool use, the
    tools run are those uses whose name the agent knows, in the order of
    the reply; the second completion is asked for without tools, on the
    query, the assistant's turn as recorded and one tool result per tool
    use, unknown or failing tools included, each under the id of its use
    and in the same order; and the event yielded is the first block of the
    second reply when that is a non-empty text. *)
Theorem tool_results_answer_tool_uses
    (self : CustomBearAgent) (parent_context query : pyval)
    (t : trace sig) (r : result unit)
    (messages : list pyval) (tools : option pyval) (content : list block) :
  Orchestrator.user_query parent_context = Ok query ->
  truthy query = true ->
  exec (run_async self parent_context) t r ->
  hd_error (bear_completions t) = Some (messages, tools, Ok content) ->
  has_tool_use content = true ->
  bear_tools_run t = filter known_tool (tool_use_names content) /\
  exists results second_answer,
    bear_completions t
    = [([user_message query], Some tools_schema, Ok content);
       ([user_message query;
         assistant_message (PList (recorded content));
         user_message (PList results)], None, second_answer)] /\
    map answered_id results = map (fun id => Some (PStr id)) (tool_use_ids content) /\
    bear_yielded t = [Orchestrator.mkEvent "agent" (final_answer second_answer)].
Proof.
  intros Hu Hq H.
  destruct (run_async_run _ _ _ _ _ Hu Hq H) as (s & t' & H1 & -> & ->).
  apply analysis_run in H1.
  destruct H1 as (s' & first_answer & Es & Hy & H1). inversion Es. subst s'.
  rewrite bear_completions_app, bear_tools_run_app, bear_yielded_app, Hy.
  cbn [bear_completions bear_tools_run bear_yielded flat_map bear_completion
       answered projT1 app].
  rewrite !app_nil_r.
  destruct first_answer as [first|e].
  - destruct (has_tool_use first) eqn:Eh.
    + destruct H1 as (results & second & -> & -> & Hi & ->).
      cbn [hd_error]. intros E. inversion E. subst. intros _.
      split; [reflexivity|]. exists results, second. auto.
    + destruct H1 as (-> & _). cbn [hd_error]. intros E. inversion E. subst.
      congruence.
  - destruct H1 as (-> & _). cbn [hd_error]. intros E. inversion E.
Qed.

(** X23.  A first reply without a tool use is the answer: no tool is run,
    no second completion is asked for, and the event yielded is the texts
    of the reply joined in order, or the notice that no analysis could be
    generated when they are empty. *)
Theorem text_reply_is_the_answer
    (self : CustomBearAgent) (parent_context query : pyval)
    (t : trace sig) (r : result unit)
    (messages : list pyval) (tools : option pyval) (content : list block) :
  Orchestrator.user_query parent_context = Ok query ->
  truthy query = true ->
  exec (run_async self parent_context) t r ->
  hd_error (bear_completions t) = Some (messages, tools, Ok content) ->
  has_tool_use content = false ->
  bear_completions t = [([user_message query], Some tools_schema, Ok content)] /\
  bear_tools_run t = [] /\
  bear_yielded t = [Orchestrator.mkEvent "agent" (text_answer content)].
Proof.
  intros Hu Hq H.
  destruct (run_async_run _ _ _ _ _ Hu Hq H) as (s & t' & H1 & -> & ->).
  apply analysis_run in H1.
  destruct H1 as (s' & first_answer & Es & Hy & H1). inversion Es. subst s'.
  rewrite bear_completions_app, bear_tools_run_app, bear_yielded_app, Hy.
  cbn [bear_completions bear_tools_run bear_yielded flat_map bear_completion
       answered projT1 app].
  rewrite !app_nil_r.
  destruct first_answer as [first|e].
  - destruct (has_tool_use first) eqn:Eh.
    + destruct H1 as (results & second & -> & _).
      cbn [hd_error]. intros E. inversion E. subst. congruence.
    + destruct H1 as (-> & -> & ->). cbn [hd_error]. intros E. inversion E. subst.
      intros Hn. split; [reflexivity|]. split; [|reflexivity].
      clear - Hn. unfold has_tool_use in Hn.
      induction content as [|[text|id name input|ty cls] content IH]; cbn in *;
        auto; discriminate.
  - destruct H1 as (-> & _). cbn [hd_error]. intros E. inversion E.
Qed.

(** X24.  A completion that raises, the first or the second, ends the
    analysis: it is the last completion of the run and the event yielded
    carries the text of the exception. *)
Theorem completion_failure_is_reported
    (self : CustomBearAgent) (parent_context query : pyval)
    (t : trace sig) (r : result unit)
    (messages : list pyval) (tools : option pyval) (e : exn) :
  Orchestrator.user_query parent_context = Ok query ->
  truthy query = true ->
  exec (run_async self parent_context) t r ->
  In (messages, tools, Raise e) (bear_completions t) ->
  last (bear_completions t) (messages, tools, Raise e) = (messages, tools, Raise e) /\
  bear_yielded t
  = [Orchestrator.mkEvent "agent" ("Error generating response: " ++ exn_msg e)].
Proof.
  intros Hu Hq H.
  destruct (run_async_run _ _ _ _ _ Hu Hq H) as (s & t' & H1 & -> & ->).
  apply analysis_run in H1.
  destruct H1 as (s' & first_answer & Es & Hy & H1). inversion Es. subst s'.
  rewrite bear_completions_app, bear_yielded_app, Hy.
  cbn [bear_completions bear_yielded flat_map bear_completion answered projT1 app].
  rewrite !app_nil_r.
  destruct first_answer as [first|e1].
  - destruct (has_tool_use first) eqn:Eh.
    + destruct H1 as (results & second & -> & _ & _ & ->).
      intros [E|[E|[]]]; inversion E. subst. split; reflexivity.
    + destruct H1 as (-> & _). intros [E|[]]. inversion E.
  - destruct H1 as (-> & _ & ->). intros [E|[]]. inversion E. subst.
    split; reflexivity.
Qed.

Lemma bear_run_answers_once_witness :
  Orchestrator.user_query Scenario.analyze_context = Ok (PStr "Analyze NVDA") /\
  exec (run_async create_bear_agent Scenario.analyze_context) Scenario.tool_run (Ok tt) /\
  Ok tt = Ok tt /\
  (exists t' response,
     Scenario.tool_run
     = (t' ++ [answered (S := sig)
                 (Yield (Orchestrator.mkEvent "agent" response)) tt])%list /\
     bear_yielded t' = [] /\
     (truthy (PStr "Analyze NVDA") = false ->
      t' = [] /\ response = "No query provided")) /\
  (map (fun c => snd (fst c)) (bear_completions Scenario.tool_run) = [] \/
   map (fun c => snd (fst c)) (bear_completions Scenario.tool_run)
   = [Some tools_schema] \/
   map (fun c => snd (fst c)) (bear_completions Scenario.tool_run)
   = [Some tools_schema; None]) /\
  Forall (fun name => In name tool_names) (bear_tools_run Scenario.tool_run).
Proof.
  assert (H1 : Orchestrator.user_query Scenario.analyze_context
               = Ok (PStr "Analyze NVDA")) by reflexivity.
  assert (H2 : exec (run_async create_bear_agent Scenario.analyze_context)
                    Scenario.tool_run (Ok tt)) by replay.
  split; [exact H1|]. split; [exact H2|].
  exact (bear_run_answers_once _ _ _ _ _ H1 H2).
Defined.

Lemma tool_results_answer_tool_uses_witness :
  Orchestrator.user_query Scenario.analyze_context = Ok (PStr "Analyze NVDA") /\
  truthy (PStr "Analyze NVDA") = true /\
  exec (run_async create_bear_agent Scenario.analyze_context) Scenario.tool_run (Ok tt) /\
  hd_error (bear_completions Scenario.tool_run)
  = Some ([user_message (PStr "Analyze NVDA")], Some tools_schema,
          Ok Scenario.tool_reply) /\
  has_tool_use Scenario.tool_reply = true /\
  bear_tools_run Scenario.tool_run
  = filter known_tool (tool_use_names Scenario.tool_reply) /\
  exists results second_answer,
    bear_completions Scenario.tool_run
    = [([user_message (PStr "Analyze NVDA")], Some tools_schema, Ok Scenario.tool_reply);
       ([user_message (PStr "Analyze NVDA");
         assistant_message (PList (recorded Scenario.tool_reply));
         user_message (PList results)], None, second_answer)] /\
    map answered_id results
    = map (fun id => Some (PStr id)) (tool_use_ids Scenario.tool_reply) /\
    bear_yielded Scenario.tool_run
    = [Orchestrator.mkEvent "agent" (final_answer second_answer)].
Proof.
  assert (H1 : Orchestrator.user_query Scenario.analyze_context
               = Ok (PStr "Analyze NVDA")) by reflexivity.
  assert (H2 : truthy (PStr "Analyze NVDA") = true) by reflexivity.
  assert (H3 : exec (run_async create_bear_agent Scenario.analyze_context)
                    Scenario.tool_run (Ok tt)) by replay.
  assert (H4 : hd_error (bear_completions Scenario.tool_run)
               = Some ([user_message (PStr "Analyze NVDA")], Some tools_schema,
                       Ok Scenario.tool_reply)) by reflexivity.
  assert (H5 : has_tool_use Scenario.tool_reply = true) by reflexivity.
  split; [exact H1|]. split; [exact H2|]. split; [exact H3|]. split; [exact H4|].
  split; [exact H5|].
  exact (tool_results_answer_tool_uses _ _ _ _ _ _ _ _ H1 H2 H3 H4 H5).
Defined.

Lemma text_reply_is_the_answer_witness :
  Orchestrator.user_query Scenario.analyze_context = Ok (PStr "Analyze NVDA") /\
  truthy (PStr "Analyze NVDA") = true /\
  exec (run_async create_bear_agent Scenario.analyze_context) Scenario.text_run (Ok tt) /\
  hd_error (bear_completions Scenario.text_run)
  = Some ([user_message (PStr "Analyze NVDA")], Some tools_schema,
          Ok Scenario.text_reply) /\
  has_tool_use Scenario.text_reply = false /\
  bear_completions Scenario.text_run
  = [([user_message (PStr "Analyze NVDA")], Some tools_schema, Ok Scenario.text_reply)] /\
  bear_tools_run Scenario.text_run = [] /\
  bear_yielded Scenario.text_run
  = [Orchestrator.mkEvent "agent" (text_answer Scenario.text_reply)].
Proof.
  assert (H1 : Orchestrator.user_query Scenario.analyze_context
               = Ok (PStr "Analyze NVDA")) by reflexivity.
  assert (H2 : truthy (PStr "Analyze NVDA") = true) by reflexivity.
  assert (H3 : exec (run_async create_bear_agent Scenario.analyze_context)
                    Scenario.text_run (Ok tt)) by replay.
  assert (H4 : hd_error (bear_completions Scenario.text_run)
               = Some ([user_message (PStr "Analyze NVDA")], Some tools_schema,
                       Ok Scenario.text_reply)) by reflexivity.
  assert (H5 : has_tool_use Scenario.text_reply = false) by reflexivity.
  split; [exact H1|]. split; [exact H2|]. split; [exact H3|]. split; [exact H4|].
  split; [exact H5|].
  exact (text_reply_is_the_answer _ _ _ _ _ _ _ _ H1 H2 H3 H4 H5).
Defined.

Lemma completion_failure_is_reported_witness :
  Orchestrator.user_query Scenario.analyze_context = Ok (PStr "Analyze NVDA") /\
  truthy (PStr "Analyze NVDA") = true /\
  exec (run_async create_bear_agent Scenario.analyze_context)
       Scenario.unreachable_model_run (Ok tt) /\
  In ([user_message (PStr "Analyze NVDA")], Some tools_schema,
      Raise (Exn "APIConnectionError" "Connection error."))
     (bear_completions Scenario.unreachable_model_run) /\
  last (bear_completions Scenario.unreachable_model_run)
       ([user_message (PStr "Analyze NVDA")], Some tools_schema,
        Raise (Exn "APIConnectionError" "Connection error."))
  = ([user_message (PStr "Analyze NVDA")], Some tools_schema,
     Raise (Exn "APIConnectionError" "Connection error.")) /\
  bear_yielded Scenario.unreachable_model_run
  = [Orchestrator.mkEvent "agent" "Error generating response: Connection error."].
Proof.
  assert (H1 : Orchestrator.user_query Scenario.analyze_context
               = Ok (PStr "Analyze NVDA")) by reflexivity.
  assert (H2 : truthy (PStr "Analyze NVDA") = true) by reflexivity.
  assert (H3 : exec (run_async create_bear_agent Scenario.analyze_context)
                    Scenario.unreachable_model_run (Ok tt)) by replay.
  assert (H4 : In ([user_message (PStr "Analyze NVDA")], Some tools_schema,
                   Raise (Exn "APIConnectionError" "Connection error."))
                  (bear_completions Scenario.unreachable_model_run))
    by (left; reflexivity).
  split; [exact H1|]. split; [exact H2|]. split; [exact H3|]. split; [exact H4|].
  exact (completion_failure_is_reported _ _ _ _ _ _ _ _ H1 H2 H3 H4).
Defined.

End BearAgentFacts.
